(** * nano-image: the generate / edit page script ([src/index.tsx])

    A shallow embedding of the page script: the two session slots, the DOM
    elements the script holds, its two asynchronous click handlers (each
    split at its single [await]), the save-button helpers and the two
    enablement functions; followed by the properties of the flows. *)

From Stdlib Require Import List Bool Arith Lia ZArith NArith String Ascii.
From Stdlib Require Import DecimalString.
Import ListNotations.

Set Implicit Arguments.

(** ** JavaScript strings

    A JavaScript string is a sequence of UTF-16 code units.  Literals of the
    source are written [JS.lit "..."]. *)

Module JS.

Definition str := list N.

Definition lit (s : string) : str :=
  List.map N_of_ascii (list_ascii_of_string s).

(** The double quote, U+0022. *)
Definition dq : str := [34%N].

(** Truthiness of a string: the empty string is the only falsy one. *)
Definition truthy (s : str) : bool :=
  match s with [] => false | _ :: _ => true end.

(** [WhiteSpace] and [LineTerminator] code units, the ones
    [String.prototype.trim] strips. *)
Definition is_space (c : N) : bool :=
  ((9 <=? c) && (c <=? 13) || (c =? 32) || (c =? 160) || (c =? 5760)
   || ((8192 <=? c) && (c <=? 8202)) || (c =? 8232) || (c =? 8233)
   || (c =? 8239) || (c =? 8287) || (c =? 12288) || (c =? 65279))%N.

Fixpoint trimStart (s : str) : str :=
  match s with
  | c :: s' => if is_space c then trimStart s' else s
  | [] => []
  end.

Definition trimEnd (s : str) : str := rev (trimStart (rev s)).

Definition trim (s : str) : str := trimEnd (trimStart s).

(** [s.split(sep)] for a separator of one code unit. *)
Fixpoint split (sep : N) (s : str) : list str :=
  match s with
  | [] => [[]]
  | c :: s' =>
      if (c =? sep)%N then [] :: split sep s'
      else match split sep s' with
           | seg :: segs => (c :: seg) :: segs
           | [] => [[c]]
           end
  end.

(** [a || b] on a possibly undefined string. *)
Definition or_else (a : option str) (b : str) : str :=
  match a with
  | Some s => if truthy s then s else b
  | None => b
  end.

(** [Number::toString] of an integral number (the value of [Date.now()]). *)
Definition of_integer (z : Z) : str :=
  lit (NilZero.string_of_int (Z.to_int z)).

End JS.

Arguments JS.lit : simpl never.

(** ** Data of the script *)

(** [type ImageState = { data: string; mimeType: string; } | null] *)
Record Image := { data : JS.str; mimeType : JS.str }.
Definition ImageState := option Image.

(** The form controls fetched at module level and used without a null check. *)
Inductive Control :=
| GenerationPromptInput
| EditPromptInput
| AspectRatioSelect
| GenerateButton
| EditButton.

(** The four containers, each of which [getElementById] may fail to find. *)
Inductive Region :=
| OriginalWrapper
| EditedWrapper
| OriginalSaveContainer
| EditedSaveContainer.

Definition Control_eqb (a b : Control) : bool :=
  match a, b with
  | GenerationPromptInput, GenerationPromptInput
  | EditPromptInput, EditPromptInput
  | AspectRatioSelect, AspectRatioSelect
  | GenerateButton, GenerateButton
  | EditButton, EditButton => true
  | _, _ => false
  end.

Definition Region_eqb (a b : Region) : bool :=
  match a, b with
  | OriginalWrapper, OriginalWrapper
  | EditedWrapper, EditedWrapper
  | OriginalSaveContainer, OriginalSaveContainer
  | EditedSaveContainer, EditedSaveContainer => true
  | _, _ => false
  end.

(** Child nodes of the containers and of [document.body].  Markup assigned
    through [innerHTML] is kept as the assigned string. *)
Inductive Node :=
| Markup (html : JS.str)
| Img (src alt : JS.str)
| P (text : JS.str)
| SaveButton (label className : JS.str) (imageState : Image) (filenamePrefix : JS.str)
| Anchor (href download : JS.str).

(** Requests made to [ai.models]. *)
Record GenerateImagesParameters := {
  gi_model : JS.str;
  gi_prompt : JS.str;
  gi_numberOfImages : N;
  gi_outputMimeType : JS.str;
  gi_aspectRatio : JS.str
}.

Inductive RequestPart :=
| InlineDataPart (d m : JS.str)
| TextPart (t : JS.str).

Inductive Modality := IMAGE | TEXT.

Record GenerateContentParameters := {
  gc_model : JS.str;
  gc_parts : list RequestPart;
  gc_responseModalities : list Modality
}.

Inductive Request :=
| GenerateImages (p : GenerateImagesParameters)
| GenerateContent (p : GenerateContentParameters).

(** Responses of [ai.models]; optional properties are options. *)
Record GeneratedImageData := { imageBytes : option JS.str; gi_mimeType : option JS.str }.
Record GeneratedImage := { image : option GeneratedImageData }.
Record GenerateImagesResponse := { generatedImages : option (list GeneratedImage) }.

Record Part := { inlineData : option Image; text : option JS.str }.
Record Content := { parts : option (list Part) }.
Record Candidate := { content : option Content }.
Record GenerateContentResponse := { candidates : option (list Candidate) }.

(** A thrown value: an [Error] with its message, or anything else. *)
Inductive Thrown :=
| ErrorObject (message : JS.str)
| OtherValue.

(** How an awaited promise settles. *)
Inductive Outcome (A : Type) :=
| Fulfilled (a : A)
| Rejected (e : Thrown).
Arguments Rejected {A} e.

(** A handler suspended at its [await], with the locals it still uses. *)
Inductive Suspended :=
| AwaitGenerate (generationPrompt : JS.str)
| AwaitEdit (editPrompt : JS.str).

(** ** The state the script runs on *)

Record World := {
  originalImageState : ImageState;
  editedImageState : ImageState;
  disabled : Control -> bool;
  value : Control -> JS.str;
  textContent : Control -> JS.str;
  children : Region -> option (list Node);
  body : list Node;
  alerts : list JS.str;
  consoleErrors : list JS.str;
  requests : list Request;
  awaiting : list Suspended;
  downloads : list (JS.str * JS.str)
}.

Definition set_originalImageState (v : ImageState) (w : World) : World :=
  Build_World v (editedImageState w) (disabled w) (value w) (textContent w) (children w)
    (body w) (alerts w) (consoleErrors w) (requests w) (awaiting w) (downloads w).
Definition set_editedImageState (v : ImageState) (w : World) : World :=
  Build_World (originalImageState w) v (disabled w) (value w) (textContent w) (children w)
    (body w) (alerts w) (consoleErrors w) (requests w) (awaiting w) (downloads w).
Definition set_disabled (v : Control -> bool) (w : World) : World :=
  Build_World (originalImageState w) (editedImageState w) v (value w) (textContent w)
    (children w) (body w) (alerts w) (consoleErrors w) (requests w) (awaiting w) (downloads w).
Definition set_value (v : Control -> JS.str) (w : World) : World :=
  Build_World (originalImageState w) (editedImageState w) (disabled w) v (textContent w)
    (children w) (body w) (alerts w) (consoleErrors w) (requests w) (awaiting w) (downloads w).
Definition set_textContent (v : Control -> JS.str) (w : World) : World :=
  Build_World (originalImageState w) (editedImageState w) (disabled w) (value w) v
    (children w) (body w) (alerts w) (consoleErrors w) (requests w) (awaiting w) (downloads w).
Definition set_children (v : Region -> option (list Node)) (w : World) : World :=
  Build_World (originalImageState w) (editedImageState w) (disabled w) (value w)
    (textContent w) v (body w) (alerts w) (consoleErrors w) (requests w) (awaiting w)
    (downloads w).
Definition set_body (v : list Node) (w : World) : World :=
  Build_World (originalImageState w) (editedImageState w) (disabled w) (value w)
    (textContent w) (children w) v (alerts w) (consoleErrors w) (requests w) (awaiting w)
    (downloads w).
Definition set_alerts (v : list JS.str) (w : World) : World :=
  Build_World (originalImageState w) (editedImageState w) (disabled w) (value w)
    (textContent w) (children w) (body w) v (consoleErrors w) (requests w) (awaiting w)
    (downloads w).
Definition set_consoleErrors (v : list JS.str) (w : World) : World :=
  Build_World (originalImageState w) (editedImageState w) (disabled w) (value w)
    (textContent w) (children w) (body w) (alerts w) v (requests w) (awaiting w)
    (downloads w).
Definition set_requests (v : list Request) (w : World) : World :=
  Build_World (originalImageState w) (editedImageState w) (disabled w) (value w)
    (textContent w) (children w) (body w) (alerts w) (consoleErrors w) v (awaiting w)
    (downloads w).
Definition set_awaiting (v : list Suspended) (w : World) : World :=
  Build_World (originalImageState w) (editedImageState w) (disabled w) (value w)
    (textContent w) (children w) (body w) (alerts w) (consoleErrors w) (requests w) v
    (downloads w).
Definition set_downloads (v : list (JS.str * JS.str)) (w : World) : World :=
  Build_World (originalImageState w) (editedImageState w) (disabled w) (value w)
    (textContent w) (children w) (body w) (alerts w) (consoleErrors w) (requests w)
    (awaiting w) v.

(** ** DOM and browser primitives *)

(** [c.disabled = b], [c.textContent = s], [c.value = s] on a form control. *)
Definition assign_disabled (c : Control) (b : bool) (w : World) : World :=
  set_disabled (fun c' => if Control_eqb c c' then b else disabled w c') w.
Definition assign_textContent (c : Control) (s : JS.str) (w : World) : World :=
  set_textContent (fun c' => if Control_eqb c c' then s else textContent w c') w.
Definition assign_value (c : Control) (s : JS.str) (w : World) : World :=
  set_value (fun c' => if Control_eqb c c' then s else value w c') w.

(** Replaces the child list of a container; without the element there is
    nothing to replace. *)
Definition update_children (r : Region) (f : list Node -> list Node) (w : World) : World :=
  set_children
    (fun r' => if Region_eqb r r' then option_map f (children w r) else children w r') w.

(** The children markup parses to: the empty string leaves no child. *)
Definition parse_html (html : JS.str) : list Node :=
  if JS.truthy html then [Markup html] else [].

(** [r.innerHTML = html] *)
Definition assign_innerHTML (r : Region) (html : JS.str) (w : World) : World :=
  update_children r (fun _ => parse_html html) w.
Definition appendChild (r : Region) (n : Node) (w : World) : World :=
  update_children r (fun ns => ns ++ [n]) w.
Definition prepend (r : Region) (n : Node) (w : World) : World :=
  update_children r (fun ns => n :: ns) w.

Definition alert (msg : JS.str) (w : World) : World :=
  set_alerts (alerts w ++ [msg]) w.
Definition console_error (msg : JS.str) (w : World) : World :=
  set_consoleErrors (consoleErrors w ++ [msg]) w.

(** ** Enablement of the two forms *)

Definition setGenerateUIDisabled (disabled : bool) (w : World) : World :=
  assign_textContent GenerateButton
    (if disabled then JS.lit "Generating..." else JS.lit "Generate Image")
    (assign_disabled AspectRatioSelect disabled
      (assign_disabled GenerationPromptInput disabled
        (assign_disabled GenerateButton disabled w))).

Definition setEditUIDisabled (disabled force : bool) (w : World) : World :=
  if negb disabled
     && match originalImageState w with None => true | Some _ => false end
     && negb force
  then w
  else
    assign_textContent EditButton
      (if disabled then JS.lit "Editing..." else JS.lit "Edit Image")
      (assign_disabled EditPromptInput disabled
        (assign_disabled EditButton disabled w)).

(** ** Exceptions inside a [try] block

    A command runs on the world and either completes or throws. *)

Definition Exec := World -> World * option Thrown.

Definition run (f : World -> World) : Exec := fun w => (f w, None).
Definition throw (e : Thrown) : Exec := fun w => (w, Some e).
Definition seq (a b : Exec) : Exec :=
  fun w => match a w with
           | (w', None) => b w'
           | (w', Some e) => (w', Some e)
           end.

Notation "a ;; b" := (seq a b) (at level 61, right associativity).

(** [try { body } catch (error) { handler } finally { final }] where neither
    the handler nor the final block throws. *)
Definition try_catch_finally (body : Exec) (handler : Thrown -> World -> World)
    (final : World -> World) (w : World) : World :=
  match body w with
  | (w', None) => final w'
  | (w', Some e) => final (handler e w')
  end.

(** [error instanceof Error ? error.message : 'An unknown error occurred.'] *)
Definition errorMessage (e : Thrown) : JS.str :=
  match e with
  | ErrorObject m => m
  | OtherValue => JS.lit "An unknown error occurred."
  end.

Definition error_markup (msg : JS.str) : JS.str :=
  JS.lit "<p class=" ++ JS.dq ++ JS.lit "error" ++ JS.dq ++ JS.lit ">Error: " ++ msg
  ++ JS.lit "<br>Check the developer console for more details.</p>".

Definition loading_markup (msg : JS.str) : JS.str :=
  JS.lit "<p class=" ++ JS.dq ++ JS.lit "loading" ++ JS.dq ++ JS.lit ">" ++ msg
  ++ JS.lit "</p>".

Definition data_url (m d : JS.str) : JS.str :=
  JS.lit "data:" ++ m ++ JS.lit ";base64," ++ d.

(** Calling a client method and suspending on the promise it returns. *)
Definition await_request (req : Request) (k : Suspended) (w : World) : World :=
  set_awaiting (awaiting w ++ [k]) (set_requests (requests w ++ [req]) w).

Definition found (r : Region) (w : World) : bool :=
  match children w r with Some _ => true | None => false end.

(** ** Save buttons and downloads *)

Definition createSaveButton (container : Region) (imageState : ImageState)
    (filenamePrefix : JS.str) (w : World) : World :=
  match imageState with
  | None => w
  | Some img =>
      appendChild container
        (SaveButton (JS.lit "Save Image") (JS.lit "save-button") img filenamePrefix)
        (assign_innerHTML container [] w)
  end.

(** [imageState.mimeType.split('/')[1] || 'jpeg'] *)
Definition extension (m : JS.str) : JS.str :=
  JS.or_else (nth_error (JS.split 47 m) 1) (JS.lit "jpeg").

Definition download_name (filenamePrefix : JS.str) (now : Z) (m : JS.str) : JS.str :=
  filenamePrefix ++ JS.lit "-" ++ JS.of_integer now ++ JS.lit "." ++ extension m.

(** [now] is the value [Date.now()] returns during the call.  The anchor is
    the last child of the body when it is removed again. *)
Definition downloadImage (imageState : ImageState) (filenamePrefix : JS.str) (now : Z)
    (w : World) : World :=
  match imageState with
  | None => w
  | Some img =>
      let href := data_url (mimeType img) (data img) in
      let download := download_name filenamePrefix now (mimeType img) in
      let w1 := set_body (body w ++ [Anchor href download]) w in
      let w2 := set_downloads (downloads w1 ++ [(href, download)]) w1 in
      set_body (removelast (body w2)) w2
  end.

(** ** The generation handler *)

Definition imageGenerationModel : JS.str := JS.lit "imagen-4.0-generate-001".
Definition imageEditModel : JS.str := JS.lit "gemini-2.5-flash-image-preview".

(** [handleGenerate] up to its [await]. *)
Definition handleGenerate (w : World) : World :=
  if negb (found OriginalWrapper w) || negb (found EditedWrapper w)
     || negb (found OriginalSaveContainer w) || negb (found EditedSaveContainer w)
  then console_error (JS.lit "Required DOM elements not found.") w
  else
    let generationPrompt := JS.trim (value w GenerationPromptInput) in
    if negb (JS.truthy generationPrompt)
    then alert (JS.lit "Please provide a description for the image you want to create.") w
    else
      let aspectRatio := value w AspectRatioSelect in
      let w := setGenerateUIDisabled true w in
      let w := set_originalImageState None w in
      let w := set_editedImageState None w in
      let w := assign_innerHTML OriginalWrapper
                 (loading_markup (JS.lit "Generating original image...")) w in
      let w := assign_innerHTML EditedWrapper [] w in
      let w := assign_innerHTML OriginalSaveContainer [] w in
      let w := assign_innerHTML EditedSaveContainer [] w in
      let w := setEditUIDisabled true true w in
      await_request
        (GenerateImages
           {| gi_model := imageGenerationModel;
              gi_prompt := generationPrompt;
              gi_numberOfImages := 1;
              gi_outputMimeType := JS.lit "image/jpeg";
              gi_aspectRatio := aspectRatio |})
        (AwaitGenerate generationPrompt) w.

(** [generationResponse.generatedImages?.[0]] *)
Definition first_generated (r : GenerateImagesResponse) : option GeneratedImage :=
  match generatedImages r with
  | Some l => nth_error l 0
  | None => None
  end.

(** [originalImage?.image] *)
Definition generated_data (r : GenerateImagesResponse) : option GeneratedImageData :=
  match first_generated r with
  | Some g => image g
  | None => None
  end.

(** The statements of the [try] block after a fulfilled [await]. *)
Definition generate_body (generationPrompt : JS.str) (r : GenerateImagesResponse) : Exec :=
  match generated_data r with
  | Some img =>
      match imageBytes img with
      | Some originalImageBase64 =>
          if JS.truthy originalImageBase64 then
            let originalMimeType := JS.or_else (gi_mimeType img) (JS.lit "image/jpeg") in
            run (set_originalImageState
                   (Some {| data := originalImageBase64; mimeType := originalMimeType |})) ;;
            run (assign_innerHTML OriginalWrapper []) ;;
            run (appendChild OriginalWrapper
                   (Img (data_url originalMimeType originalImageBase64) generationPrompt)) ;;
            run (appendChild OriginalWrapper
                   (P (JS.lit "Prompt: " ++ JS.dq ++ generationPrompt ++ JS.dq))) ;;
            run (fun w => createSaveButton OriginalSaveContainer (originalImageState w)
                            (JS.lit "original-image") w) ;;
            run (setEditUIDisabled false false)
          else throw (ErrorObject (JS.lit "Failed to generate the initial image."))
      | None => throw (ErrorObject (JS.lit "Failed to generate the initial image."))
      end
  | None => throw (ErrorObject (JS.lit "Failed to generate the initial image."))
  end.

(** [handleGenerate] from the moment its [await] settles. *)
Definition handleGenerate_settled (generationPrompt : JS.str)
    (o : Outcome GenerateImagesResponse) : World -> World :=
  try_catch_finally
    (match o with
     | Rejected e => throw e
     | Fulfilled generationResponse => generate_body generationPrompt generationResponse
     end)
    (fun error w =>
       assign_innerHTML OriginalWrapper (error_markup (errorMessage error))
         (console_error (JS.lit "An error occurred during generation:") w))
    (setGenerateUIDisabled false).

(** ** The edit handler *)

(** [handleEdit] up to its [await]. *)
Definition handleEdit (w : World) : World :=
  if negb (found EditedWrapper w) || negb (found EditedSaveContainer w)
  then console_error (JS.lit "Required DOM elements not found.") w
  else
    match originalImageState w with
    | None => alert (JS.lit "Please generate an image first before editing.") w
    | Some original =>
        let editPrompt := JS.trim (value w EditPromptInput) in
        if negb (JS.truthy editPrompt)
        then alert (JS.lit "Please provide a description of how you want to edit the image.") w
        else
          let w := setEditUIDisabled true false w in
          let w := set_editedImageState None w in
          let w := assign_innerHTML EditedWrapper
                     (loading_markup (JS.lit "Editing image with Nano Banana...")) w in
          let w := assign_innerHTML EditedSaveContainer [] w in
          await_request
            (GenerateContent
               {| gc_model := imageEditModel;
                  gc_parts := [InlineDataPart (data original) (mimeType original);
                               TextPart editPrompt];
                  gc_responseModalities := [IMAGE; TEXT] |})
            (AwaitEdit editPrompt) w
    end.

(** [editResponse.candidates?.[0]?.content?.parts || []] *)
Definition response_parts (r : GenerateContentResponse) : list Part :=
  match candidates r with
  | Some l =>
      match nth_error l 0 with
      | Some c =>
          match content c with
          | Some ct => match parts ct with Some ps => ps | None => [] end
          | None => []
          end
      | None => []
      end
  | None => []
  end.

(** One iteration of the loop over the parts; the flag is [imageFound]. *)
Definition process_part (editPrompt : JS.str) (part : Part) (st : World * bool)
    : World * bool :=
  let (w, imageFound) := st in
  match inlineData part with
  | Some blob =>
      let w := set_editedImageState
                 (Some {| data := data blob; mimeType := mimeType blob |}) w in
      let src := match editedImageState w with
                 | Some e => data_url (mimeType e) (data e)
                 | None => []
                 end in
      let w := prepend EditedWrapper (Img src editPrompt) w in
      let w := createSaveButton EditedSaveContainer (editedImageState w)
                 (JS.lit "edited-image") w in
      (w, true)
  | None =>
      match text part with
      | Some t =>
          if JS.truthy t then (appendChild EditedWrapper (P t) w, imageFound)
          else (w, imageFound)
      | None => (w, imageFound)
      end
  end.

Definition process_parts (editPrompt : JS.str) (ps : list Part) (st : World * bool)
    : World * bool :=
  fold_left (fun st part => process_part editPrompt part st) ps st.

(** The statements of the [try] block after a fulfilled [await]. *)
Definition edit_body (editPrompt : JS.str) (r : GenerateContentResponse) : Exec :=
  run (assign_innerHTML EditedWrapper []) ;;
  run (appendChild EditedWrapper (P (JS.lit "Edit: " ++ JS.dq ++ editPrompt ++ JS.dq))) ;;
  fun w =>
    let (w', imageFound) := process_parts editPrompt (response_parts r) (w, false) in
    if negb imageFound
    then throw (ErrorObject (JS.lit "The model did not return an edited image.")) w'
    else (w', None).

(** [handleEdit] from the moment its [await] settles. *)
Definition handleEdit_settled (editPrompt : JS.str)
    (o : Outcome GenerateContentResponse) : World -> World :=
  try_catch_finally
    (match o with
     | Rejected e => throw e
     | Fulfilled editResponse => edit_body editPrompt editResponse
     end)
    (fun error w =>
       assign_innerHTML EditedWrapper (error_markup (errorMessage error))
         (console_error (JS.lit "An error occurred during editing:") w))
    (setEditUIDisabled false false).

(** ** Calls of the script's functions *)

Inductive Call :=
| CallHandleGenerate
| ResumeHandleGenerate (generationPrompt : JS.str) (o : Outcome GenerateImagesResponse)
| CallHandleEdit
| ResumeHandleEdit (editPrompt : JS.str) (o : Outcome GenerateContentResponse)
| CallCreateSaveButton (container : Region) (imageState : ImageState) (filenamePrefix : JS.str)
| CallDownloadImage (imageState : ImageState) (filenamePrefix : JS.str) (now : Z)
| CallSetGenerateUIDisabled (disabled : bool)
| CallSetEditUIDisabled (disabled force : bool).

Definition call (c : Call) (w : World) : World :=
  match c with
  | CallHandleGenerate => handleGenerate w
  | ResumeHandleGenerate p o => handleGenerate_settled p o w
  | CallHandleEdit => handleEdit w
  | ResumeHandleEdit p o => handleEdit_settled p o w
  | CallCreateSaveButton r i p => createSaveButton r i p w
  | CallDownloadImage i p now => downloadImage i p now w
  | CallSetGenerateUIDisabled d => setGenerateUIDisabled d w
  | CallSetEditUIDisabled d f => setEditUIDisabled d f w
  end.

Definition calls (cs : list Call) (w : World) : World :=
  fold_left (fun w c => call c w) cs w.

(** [setEditUIDisabled(false, true)], which no caller in the script makes. *)
Definition forced_enable (c : Call) : bool :=
  match c with
  | CallSetEditUIDisabled false true => true
  | _ => false
  end.

(** ** The page as the browser drives it

    The browser delivers no click to a disabled button and lets the user
    change no disabled field; a settled promise resumes the handler that
    awaits it. *)

Inductive Event :=
| UserInput (c : Control) (v : JS.str)
| ClickGenerate
| ClickEdit
| ClickSave (container : Region) (now : Z)
| SettleGenerate (i : nat) (o : Outcome GenerateImagesResponse)
| SettleEdit (i : nat) (o : Outcome GenerateContentResponse).

Definition remove_nth {A} (i : nat) (l : list A) : list A :=
  firstn i l ++ skipn (S i) l.

(** The listener of the first save button among the nodes. *)
Fixpoint save_listener (ns : list Node) : option (Image * JS.str) :=
  match ns with
  | SaveButton _ _ img prefix :: _ => Some (img, prefix)
  | _ :: ns' => save_listener ns'
  | [] => None
  end.

Definition dispatch (e : Event) (w : World) : World :=
  match e with
  | UserInput c v =>
      match c with
      | GenerateButton | EditButton => w
      | _ => if disabled w c then w else assign_value c v w
      end
  | ClickGenerate => if disabled w GenerateButton then w else handleGenerate w
  | ClickEdit => if disabled w EditButton then w else handleEdit w
  | ClickSave r now =>
      match children w r with
      | Some ns =>
          match save_listener ns with
          | Some (img, prefix) => downloadImage (Some img) prefix now w
          | None => w
          end
      | None => w
      end
  | SettleGenerate i o =>
      match nth_error (awaiting w) i with
      | Some (AwaitGenerate p) =>
          handleGenerate_settled p o (set_awaiting (remove_nth i (awaiting w)) w)
      | _ => w
      end
  | SettleEdit i o =>
      match nth_error (awaiting w) i with
      | Some (AwaitEdit p) =>
          handleEdit_settled p o (set_awaiting (remove_nth i (awaiting w)) w)
      | _ => w
      end
  end.

Definition dispatch_all (es : list Event) (w : World) : World :=
  fold_left (fun w e => dispatch e w) es w.

(** The script has just been loaded: its two slots hold [null] and no
    request was made. *)
Definition page_load (w : World) : Prop :=
  originalImageState w = None /\ editedImageState w = None /\ awaiting w = [].

Definition reachable (w : World) : Prop :=
  exists w0 es, page_load w0 /\ w = dispatch_all es w0.

(** ** Predicates of the statements *)

(** [handleGenerate] passes its checks: elements found, prompt not blank. *)
Definition generate_accepted (w : World) : bool :=
  found OriginalWrapper w && found EditedWrapper w
  && found OriginalSaveContainer w && found EditedSaveContainer w
  && JS.truthy (JS.trim (value w GenerationPromptInput)).

(** [handleEdit] passes its checks. *)
Definition edit_accepted (w : World) : bool :=
  found EditedWrapper w && found EditedSaveContainer w
  && match originalImageState w with Some _ => true | None => false end
  && JS.truthy (JS.trim (value w EditPromptInput)).

(** The Edit button is enabled only while there is an original image. *)
Definition edit_gate (w : World) : Prop :=
  disabled w EditButton = false -> originalImageState w <> None.

(** Everything but the two logs (alerts, console) is as before. *)
Definition unchanged (w w' : World) : Prop :=
  originalImageState w' = originalImageState w
  /\ editedImageState w' = editedImageState w
  /\ disabled w' = disabled w
  /\ value w' = value w
  /\ textContent w' = textContent w
  /\ children w' = children w
  /\ body w' = body w
  /\ requests w' = requests w
  /\ awaiting w' = awaiting w
  /\ downloads w' = downloads w.

(** A generation outcome without usable image bytes. *)
Definition no_image_bytes (r : GenerateImagesResponse) : bool :=
  match generated_data r with
  | Some img =>
      match imageBytes img with
      | Some b => negb (JS.truthy b)
      | None => true
      end
  | None => true
  end.

Definition generation_failed (o : Outcome GenerateImagesResponse) : bool :=
  match o with
  | Rejected _ => true
  | Fulfilled r => no_image_bytes r
  end.

Definition generation_failure_message (o : Outcome GenerateImagesResponse) : JS.str :=
  match o with
  | Rejected e => errorMessage e
  | Fulfilled _ => JS.lit "Failed to generate the initial image."
  end.

Definition text_part (t : JS.str) : Part := {| inlineData := None; text := Some t |}.
Definition image_part (i : Image) : Part := {| inlineData := Some i; text := None |}.


(** [w'] differs from [w] at most in the edited slot, the containers and
    the console log: what the body and the handler of [handleEdit] write. *)
Definition rendered (w w' : World) : Prop :=
  originalImageState w' = originalImageState w
  /\ disabled w' = disabled w
  /\ value w' = value w
  /\ textContent w' = textContent w
  /\ body w' = body w
  /\ alerts w' = alerts w
  /\ requests w' = requests w
  /\ awaiting w' = awaiting w
  /\ downloads w' = downloads w
  /\ (forall r, found r w' = found r w)
  /\ children w' OriginalWrapper = children w OriginalWrapper
  /\ children w' OriginalSaveContainer = children w OriginalSaveContainer.

(** Specification side of the download name: the substring of the mime type
    after its first slash, if it has one. *)
Fixpoint substring_after_slash (m : JS.str) : option JS.str :=
  match m with
  | [] => None
  | c :: m' => if (c =? 47)%N then Some m' else substring_after_slash m'
  end.

Definition spec_extension (m : JS.str) : JS.str :=
  JS.or_else (substring_after_slash m) (JS.lit "jpeg").

(** The part of a string before its first slash (all of it without one). *)
Fixpoint up_to_slash (s : JS.str) : JS.str :=
  match s with
  | [] => []
  | c :: s' => if (c =? 47)%N then [] else c :: up_to_slash s'
  end.

(** The text between the first slash of a mime type and its next slash, or
    its end. *)
Definition subtype_segment (m : JS.str) : option JS.str :=
  option_map up_to_slash (substring_after_slash m).

(** The download name with the extension read as the specification words
    it. *)
Definition spec_download_name (filenamePrefix : JS.str) (now : Z) (m : JS.str) : JS.str :=
  filenamePrefix ++ JS.lit "-" ++ JS.of_integer now ++ JS.lit "." ++ spec_extension m.

(** ** Requests in flight *)

Definition generating (k : Suspended) : bool :=
  match k with AwaitGenerate _ => true | AwaitEdit _ => false end.

Definition editing (k : Suspended) : bool :=
  match k with AwaitEdit _ => true | AwaitGenerate _ => false end.

(** Number of generation requests in flight. *)
Definition generations (w : World) : nat :=
  List.length (filter generating (awaiting w)).

(** At most one generation is in flight, and its button is disabled the
    while. *)
Definition single_generation (w : World) : Prop :=
  generations w = 0
  \/ (generations w = 1 /\ disabled w GenerateButton = true).

Definition settles_generation (e : Event) : bool :=
  match e with SettleGenerate _ _ => true | _ => false end.

Definition settles_edit (e : Event) : bool :=
  match e with SettleEdit _ _ => true | _ => false end.

(** The state between the start of a generation and its settlement, when
    nothing else is in flight. *)
Definition generation_pending (p : JS.str) (w : World) : Prop :=
  awaiting w = [AwaitGenerate p]
  /\ originalImageState w = None
  /\ editedImageState w = None
  /\ disabled w GenerateButton = true.

(** The state a generation leaves until it settles, whatever else is in
    flight: no original image and both buttons disabled. *)
Definition generation_locked (w : World) : Prop :=
  originalImageState w = None
  /\ disabled w EditButton = true
  /\ disabled w GenerateButton = true.

(** ** A concrete page

    A document that has the four containers, empty, and whose edit form
    starts disabled; the script has just been loaded. *)
Definition fresh_page : World :=
  {| originalImageState := None;
     editedImageState := None;
     disabled := fun c => match c with
                          | EditButton | EditPromptInput => true
                          | _ => false
                          end;
     value := fun c => match c with
                       | AspectRatioSelect => JS.lit "1:1"
                       | _ => []
                       end;
     textContent := fun c => match c with
                             | GenerateButton => JS.lit "Generate Image"
                             | EditButton => JS.lit "Edit Image"
                             | _ => []
                             end;
     children := fun _ => Some [];
     body := [];
     alerts := [];
     consoleErrors := [];
     requests := [];
     awaiting := [];
     downloads := [] |}.

Definition image_X : Image := {| data := JS.lit "WA=="; mimeType := JS.lit "image/png" |}.
Definition image_Y : Image := {| data := JS.lit "WQ=="; mimeType := JS.lit "image/png" |}.

Definition generated (b m : JS.str) : GenerateImagesResponse :=
  {| generatedImages :=
       Some [ {| image := Some {| imageBytes := Some b; gi_mimeType := Some m |} |} ] |}.

Definition edit_response (ps : list Part) : GenerateContentResponse :=
  {| candidates := Some [ {| content := Some {| parts := Some ps |} |} ] |}.

(** A page with an original image and a typed edit instruction. *)
Definition page_with_original : World :=
  dispatch_all
    [ UserInput GenerationPromptInput (JS.lit "a cat");
      ClickGenerate;
      SettleGenerate 0 (Fulfilled (generated (JS.lit "Qw==") (JS.lit "image/jpeg")));
      UserInput EditPromptInput (JS.lit "add a hat") ]
    fresh_page.

(** The user starts an edit and, while it is in flight, a new generation. *)
Definition edit_then_generate : World :=
  dispatch_all [ ClickEdit; UserInput GenerationPromptInput (JS.lit "a dog") ]
    page_with_original.

(** A page whose generation prompt holds white space only. *)
Definition page_blank_prompt : World :=
  dispatch (UserInput GenerationPromptInput [32; 9; 160]%N) fresh_page.

(** A page with an original image whose edit instruction holds white space
    only. *)
Definition page_blank_instruction : World :=
  dispatch (UserInput EditPromptInput [32; 10]%N) page_with_original.

(** An artifact whose mime type has a second slash. *)
Definition image_two_slashes : Image :=
  {| data := JS.lit "WA=="; mimeType := JS.lit "image/png/8" |}.

(** ** Notions of the further properties *)

(** The image parts of a response, in order. *)
Fixpoint images_of (ps : list Part) : list Image :=
  match ps with
  | [] => []
  | part :: ps' =>
      match inlineData part with
      | Some blob => blob :: images_of ps'
      | None => images_of ps'
      end
  end.

(** The texts the loop renders: those of the parts without inline data
    whose text is not empty. *)
Fixpoint texts_of (ps : list Part) : list JS.str :=
  match ps with
  | [] => []
  | part :: ps' =>
      match inlineData part, text part with
      | None, Some t => if JS.truthy t then t :: texts_of ps' else texts_of ps'
      | _, _ => texts_of ps'
      end
  end.

(** The last part with inline data, if any. *)
Fixpoint last_image (ps : list Part) : option Image :=
  match ps with
  | [] => None
  | part :: ps' =>
      match last_image ps' with
      | Some i => Some i
      | None => inlineData part
      end
  end.

Definition image_node (alt : JS.str) (i : Image) : Node :=
  Img (data_url (mimeType i) (data i)) alt.

Definition save_button (i : Image) (filenamePrefix : JS.str) : Node :=
  SaveButton (JS.lit "Save Image") (JS.lit "save-button") i filenamePrefix.

Definition edit_line (editPrompt : JS.str) : Node :=
  P (JS.lit "Edit: " ++ JS.dq ++ editPrompt ++ JS.dq).

(** What a click on the save button of a container would download. *)
Definition listener (r : Region) (w : World) : option (Image * JS.str) :=
  match children w r with
  | Some ns => save_listener ns
  | None => None
  end.

(** Each save button downloads the image its slot holds now. *)
Definition save_buttons_current (w : World) : Prop :=
  (forall i p, listener OriginalSaveContainer w = Some (i, p) ->
               originalImageState w = Some i /\ p = JS.lit "original-image")
  /\ (forall i p, listener EditedSaveContainer w = Some (i, p) ->
                  editedImageState w = Some i /\ p = JS.lit "edited-image").

(** The three controls of the generation form are disabled together, and
    the label of the button tells which. *)
Definition generate_form_consistent (w : World) : Prop :=
  disabled w GenerationPromptInput = disabled w GenerateButton
  /\ disabled w AspectRatioSelect = disabled w GenerateButton
  /\ textContent w GenerateButton
     = (if disabled w GenerateButton then JS.lit "Generating..." else JS.lit "Generate Image").

(** A string that neither starts nor ends with white space. *)
Definition trimmed (s : JS.str) : Prop :=
  (forall c rest, s = c :: rest -> JS.is_space c = false)
  /\ (forall c init, s = init ++ [c] -> JS.is_space c = false).

Definition first_generate_alert : JS.str :=
  JS.lit "Please generate an image first before editing.".

(** A page without the container of the edited image. *)
Definition page_without_edited_wrapper : World :=
  set_children
    (fun r => match r with EditedWrapper => None | _ => children page_with_original r end)
    page_with_original.

(** Two edits in flight: while the first edit is pending a generation is
    started and succeeds, which enables the edit button again, and the user
    clicks Edit a second time. *)
Definition two_edits_in_flight : World :=
  dispatch_all
    [ ClickGenerate;
      SettleGenerate 1 (Fulfilled (generated (JS.lit "Rw==") (JS.lit "image/png")));
      ClickEdit ]
    edit_then_generate.

(** ** Tactics *)

Ltac unfold_world :=
  unfold setEditUIDisabled, setGenerateUIDisabled, assign_textContent, assign_disabled,
    assign_value, alert, console_error, await_request,
    set_originalImageState, set_editedImageState, set_disabled, set_value,
    set_textContent, set_children, set_body, set_alerts, set_consoleErrors,
    set_requests, set_awaiting, set_downloads in *.

(** Names the fields of a world, so that projections compute. *)
Ltac open_world w :=
  destruct w as [o_ e_ dis_ val_ txt_ chi_ bod_ ale_ con_ req_ awa_ dow_];
  cbn [originalImageState editedImageState disabled value textContent children body
       alerts consoleErrors requests awaiting downloads] in *.

Ltac use_children :=
  repeat match goal with
         | H : ?c ?r = _ |- _ =>
             match type of r with Region => rewrite H end
         end.

(** Runs the straight-line code of a handler on an opened world. *)
Ltac crunch :=
  repeat (progress
            (cbv beta iota zeta
               delta [assign_innerHTML appendChild prepend createSaveButton update_children
                      try_catch_finally seq run throw setEditUIDisabled
                      setGenerateUIDisabled assign_textContent assign_disabled
                      assign_value alert console_error await_request
                      set_originalImageState set_editedImageState set_disabled set_value
                      set_textContent set_children set_body set_alerts set_consoleErrors
                      set_requests set_awaiting set_downloads
                      originalImageState editedImageState disabled value textContent
                      children body alerts consoleErrors requests awaiting downloads
                      Region_eqb Control_eqb negb andb orb option_map fst snd];
             use_children)).

Ltac rendered_by_cases :=
  unfold rendered, found; crunch; repeat split; try reflexivity;
  intros r; destruct r; crunch;
  repeat match goal with
         | |- context [match ?c ?r with _ => _ end] =>
             match type of r with Region => destruct (c r) end
         end; reflexivity.

(** * Facts about the embedding *)

(** ** Strings *)

Example trim_example : JS.trim (JS.lit "  a cat ") = JS.lit "a cat".
Proof. reflexivity. Qed.

Example split_example :
  JS.split 47 (JS.lit "a/b/c") = [JS.lit "a"; JS.lit "b"; JS.lit "c"]
  /\ JS.split 47 (JS.lit "image/") = [JS.lit "image"; []]
  /\ JS.split 47 [] = [[]].
Proof. repeat split; reflexivity. Qed.

Example of_integer_example : JS.of_integer 1700000000000 = JS.lit "1700000000000".
Proof. reflexivity. Qed.

Lemma trimStart_blank (s : JS.str) :
  forallb JS.is_space s = true -> JS.trimStart s = [].
Proof.
  induction s as [|c s IH]; simpl; intros H; [reflexivity|].
  apply andb_true_iff in H as [Hc Hs]. rewrite Hc. auto.
Qed.

Lemma trimStart_nil_blank (s : JS.str) :
  JS.trimStart s = [] -> forallb JS.is_space s = true.
Proof.
  induction s as [|c s IH]; simpl; intros H; [reflexivity|].
  destruct (JS.is_space c); [auto | discriminate].
Qed.

Lemma trimStart_suffix (s : JS.str) :
  exists pre, s = pre ++ JS.trimStart s /\ forallb JS.is_space pre = true.
Proof.
  induction s as [|c s [pre [E B]]]; simpl.
  - exists []. auto.
  - destruct (JS.is_space c) eqn:Hc.
    + exists (c :: pre). simpl. rewrite Hc, B. split; [congruence | reflexivity].
    + exists []. auto.
Qed.

(** [trim] leaves nothing exactly of the strings made of white space only. *)
Lemma trim_blank_iff (s : JS.str) :
  JS.trim s = [] <-> forallb JS.is_space s = true.
Proof.
  unfold JS.trim, JS.trimEnd. split.
  - intros H.
    assert (H1 : JS.trimStart (rev (JS.trimStart s)) = []).
    { apply (f_equal (@rev N)) in H. rewrite rev_involutive in H. exact H. }
    apply trimStart_nil_blank in H1.
    destruct (trimStart_suffix s) as [pre [E B]].
    rewrite E, forallb_app, B. simpl.
    rewrite forallb_forall in *. intros x Hx. apply H1. apply in_rev.
    rewrite rev_involutive. exact Hx.
  - intros H. rewrite (trimStart_blank s H). reflexivity.
Qed.

(** ** The enablement functions *)

Lemma setEditUIDisabled_disable (force : bool) (w : World) :
  disabled (setEditUIDisabled true force w) EditButton = true
  /\ disabled (setEditUIDisabled true force w) EditPromptInput = true
  /\ textContent (setEditUIDisabled true force w) EditButton = JS.lit "Editing...".
Proof. unfold_world. simpl. auto. Qed.

Lemma setEditUIDisabled_gated (w : World) :
  originalImageState w = None -> setEditUIDisabled false false w = w.
Proof. intros H. unfold setEditUIDisabled. rewrite H. reflexivity. Qed.

Lemma setEditUIDisabled_forced (w : World) :
  disabled (setEditUIDisabled false true w) EditButton = false
  /\ disabled (setEditUIDisabled false true w) EditPromptInput = false
  /\ textContent (setEditUIDisabled false true w) EditButton = JS.lit "Edit Image".
Proof.
  unfold setEditUIDisabled. rewrite andb_false_r. unfold_world. simpl. auto.
Qed.

Lemma setEditUIDisabled_enable (w : World) (i : Image) :
  originalImageState w = Some i ->
  disabled (setEditUIDisabled false false w) EditButton = false
  /\ disabled (setEditUIDisabled false false w) EditPromptInput = false
  /\ textContent (setEditUIDisabled false false w) EditButton = JS.lit "Edit Image".
Proof.
  intros H. unfold setEditUIDisabled. rewrite H. unfold_world. simpl. auto.
Qed.

(** The session slots, the logs and the containers are out of reach of the
    enablement functions. *)
Lemma setEditUIDisabled_frame (d f : bool) (w : World) :
  originalImageState (setEditUIDisabled d f w) = originalImageState w
  /\ editedImageState (setEditUIDisabled d f w) = editedImageState w
  /\ children (setEditUIDisabled d f w) = children w
  /\ awaiting (setEditUIDisabled d f w) = awaiting w
  /\ requests (setEditUIDisabled d f w) = requests w
  /\ disabled (setEditUIDisabled d f w) GenerateButton = disabled w GenerateButton.
Proof.
  unfold setEditUIDisabled.
  destruct (negb d && _ && negb f); unfold_world; simpl; auto 10.
Qed.

Lemma setGenerateUIDisabled_frame (d : bool) (w : World) :
  originalImageState (setGenerateUIDisabled d w) = originalImageState w
  /\ editedImageState (setGenerateUIDisabled d w) = editedImageState w
  /\ children (setGenerateUIDisabled d w) = children w
  /\ awaiting (setGenerateUIDisabled d w) = awaiting w
  /\ requests (setGenerateUIDisabled d w) = requests w
  /\ disabled (setGenerateUIDisabled d w) EditButton = disabled w EditButton
  /\ disabled (setGenerateUIDisabled d w) EditPromptInput = disabled w EditPromptInput
  /\ textContent (setGenerateUIDisabled d w) EditButton = textContent w EditButton.
Proof. unfold_world. simpl. auto 10. Qed.

Lemma setGenerateUIDisabled_controls (d : bool) (w : World) :
  disabled (setGenerateUIDisabled d w) GenerateButton = d
  /\ disabled (setGenerateUIDisabled d w) GenerationPromptInput = d
  /\ disabled (setGenerateUIDisabled d w) AspectRatioSelect = d
  /\ textContent (setGenerateUIDisabled d w) GenerateButton
     = (if d then JS.lit "Generating..." else JS.lit "Generate Image").
Proof. unfold_world. simpl. auto. Qed.

(** ** [handleGenerate] up to the [await] *)

Lemma handleGenerate_start (w : World) :
  generate_accepted w = true ->
  let w1 := handleGenerate w in
  originalImageState w1 = None
  /\ editedImageState w1 = None
  /\ children w1 OriginalWrapper
     = Some [Markup (loading_markup (JS.lit "Generating original image..."))]
  /\ children w1 EditedWrapper = Some []
  /\ children w1 OriginalSaveContainer = Some []
  /\ children w1 EditedSaveContainer = Some []
  /\ disabled w1 EditButton = true
  /\ disabled w1 EditPromptInput = true
  /\ textContent w1 EditButton = JS.lit "Editing..."
  /\ disabled w1 GenerateButton = true
  /\ disabled w1 GenerationPromptInput = true
  /\ disabled w1 AspectRatioSelect = true
  /\ awaiting w1 = awaiting w ++ [AwaitGenerate (JS.trim (value w GenerationPromptInput))]
  /\ requests w1
     = requests w
       ++ [GenerateImages
             {| gi_model := imageGenerationModel;
                gi_prompt := JS.trim (value w GenerationPromptInput);
                gi_numberOfImages := 1;
                gi_outputMimeType := JS.lit "image/jpeg";
                gi_aspectRatio := value w AspectRatioSelect |}].
Proof.
  unfold generate_accepted, handleGenerate, found. intros H. open_world w.
  destruct (chi_ OriginalWrapper) eqn:E1; [|discriminate].
  destruct (chi_ EditedWrapper) eqn:E2; [|discriminate].
  destruct (chi_ OriginalSaveContainer) eqn:E3; [|discriminate].
  destruct (chi_ EditedSaveContainer) eqn:E4; [|discriminate].
  simpl in H. rewrite H. crunch. repeat split; reflexivity.
Qed.

(** A blank prompt, or a missing container, ends [handleGenerate] at once. *)
Lemma handleGenerate_rejected (w : World) :
  generate_accepted w = false ->
  handleGenerate w = console_error (JS.lit "Required DOM elements not found.") w
  \/ handleGenerate w
     = alert (JS.lit "Please provide a description for the image you want to create.") w.
Proof.
  unfold generate_accepted, handleGenerate. intros H.
  destruct (found OriginalWrapper w), (found EditedWrapper w),
    (found OriginalSaveContainer w), (found EditedSaveContainer w); simpl in *; auto.
  rewrite H. simpl. auto.
Qed.

(** ** [handleGenerate] once the [await] has settled *)

Lemma handleGenerate_settled_success (p : JS.str) (r : GenerateImagesResponse)
    (img : GeneratedImageData) (b : JS.str) (w : World) :
  generated_data r = Some img ->
  imageBytes img = Some b ->
  JS.truthy b = true ->
  let m := JS.or_else (gi_mimeType img) (JS.lit "image/jpeg") in
  let w' := handleGenerate_settled p (Fulfilled r) w in
  originalImageState w' = Some {| data := b; mimeType := m |}
  /\ editedImageState w' = editedImageState w
  /\ disabled w' EditButton = false
  /\ disabled w' EditPromptInput = false
  /\ textContent w' EditButton = JS.lit "Edit Image"
  /\ disabled w' GenerateButton = false
  /\ awaiting w' = awaiting w
  /\ children w' OriginalWrapper
     = option_map (fun _ => [Img (data_url m b) p; P (JS.lit "Prompt: " ++ JS.dq ++ p ++ JS.dq)])
         (children w OriginalWrapper)
  /\ children w' OriginalSaveContainer
     = option_map (fun _ => [SaveButton (JS.lit "Save Image") (JS.lit "save-button")
                               {| data := b; mimeType := m |} (JS.lit "original-image")])
         (children w OriginalSaveContainer).
Proof.
  intros Hd Hb Ht. unfold handleGenerate_settled, generate_body.
  rewrite Hd, Hb, Ht. open_world w.
  destruct (chi_ OriginalWrapper) eqn:E1;
    destruct (chi_ OriginalSaveContainer) eqn:E2;
    crunch; repeat split; reflexivity.
Qed.

Lemma handleGenerate_settled_failure (p : JS.str) (o : Outcome GenerateImagesResponse)
    (w : World) :
  generation_failed o = true ->
  let w' := handleGenerate_settled p o w in
  originalImageState w' = originalImageState w
  /\ editedImageState w' = editedImageState w
  /\ disabled w' EditButton = disabled w EditButton
  /\ disabled w' EditPromptInput = disabled w EditPromptInput
  /\ textContent w' EditButton = textContent w EditButton
  /\ disabled w' GenerateButton = false
  /\ awaiting w' = awaiting w
  /\ children w' OriginalWrapper
     = option_map (fun _ => [Markup (error_markup (generation_failure_message o))])
         (children w OriginalWrapper)
  /\ children w' OriginalSaveContainer = children w OriginalSaveContainer
  /\ consoleErrors w' = consoleErrors w ++ [JS.lit "An error occurred during generation:"].
Proof.
  intros Hf. unfold handleGenerate_settled.
  assert (Hbody : (match o with
                   | Rejected e => throw e
                   | Fulfilled r => generate_body p r
                   end) w
                  = (w, Some (match o with
                              | Rejected e => e
                              | Fulfilled _ =>
                                  ErrorObject (JS.lit "Failed to generate the initial image.")
                              end))).
  { destruct o as [r|e]; [|reflexivity].
    simpl in Hf. unfold no_image_bytes in Hf. unfold generate_body.
    destruct (generated_data r) as [img|]; [|reflexivity].
    destruct (imageBytes img) as [b|]; [|reflexivity].
    destruct (JS.truthy b); [discriminate | reflexivity]. }
  unfold try_catch_finally. rewrite Hbody.
  assert (Hm : errorMessage (match o with
                             | Rejected e => e
                             | Fulfilled _ =>
                                 ErrorObject (JS.lit "Failed to generate the initial image.")
                             end) = generation_failure_message o).
  { destruct o; reflexivity. }
  rewrite Hm. open_world w.
  destruct (chi_ OriginalWrapper) eqn:E1; crunch; repeat split; reflexivity.
Qed.

Lemma generation_succeeded (o : Outcome GenerateImagesResponse) :
  generation_failed o = false ->
  exists r img b,
    o = Fulfilled r /\ generated_data r = Some img /\ imageBytes img = Some b
    /\ JS.truthy b = true.
Proof.
  destruct o as [r|e]; simpl; [|discriminate]. unfold no_image_bytes.
  destruct (generated_data r) as [img|] eqn:Hd; [|discriminate].
  destruct (imageBytes img) as [b|] eqn:Hb; [|discriminate].
  intros Ht. exists r, img, b. apply negb_false_iff in Ht. auto.
Qed.

(** ** [handleEdit] up to the [await] *)

Lemma edit_accepted_original (w : World) :
  edit_accepted w = true -> exists i, originalImageState w = Some i.
Proof.
  unfold edit_accepted. destruct (originalImageState w) as [i|]; [eauto|].
  rewrite andb_false_r. discriminate.
Qed.

Lemma handleEdit_start (w : World) (original : Image) :
  edit_accepted w = true ->
  originalImageState w = Some original ->
  let p := JS.trim (value w EditPromptInput) in
  let w1 := handleEdit w in
  originalImageState w1 = Some original
  /\ editedImageState w1 = None
  /\ children w1 EditedWrapper
     = Some [Markup (loading_markup (JS.lit "Editing image with Nano Banana..."))]
  /\ children w1 EditedSaveContainer = Some []
  /\ disabled w1 EditButton = true
  /\ disabled w1 EditPromptInput = true
  /\ textContent w1 EditButton = JS.lit "Editing..."
  /\ disabled w1 GenerateButton = disabled w GenerateButton
  /\ awaiting w1 = awaiting w ++ [AwaitEdit p]
  /\ requests w1
     = requests w
       ++ [GenerateContent
             {| gc_model := imageEditModel;
                gc_parts := [InlineDataPart (data original) (mimeType original);
                             TextPart p];
                gc_responseModalities := [IMAGE; TEXT] |}].
Proof.
  unfold edit_accepted, handleEdit, found. intros H Ho. rewrite Ho in *. open_world w.
  subst o_.
  destruct (chi_ EditedWrapper) eqn:E1; [|discriminate].
  destruct (chi_ EditedSaveContainer) eqn:E2; [|discriminate].
  simpl in H. rewrite H. crunch. repeat split; reflexivity.
Qed.

Lemma handleEdit_rejected (w : World) :
  edit_accepted w = false ->
  handleEdit w = console_error (JS.lit "Required DOM elements not found.") w
  \/ handleEdit w = alert (JS.lit "Please generate an image first before editing.") w
  \/ handleEdit w
     = alert (JS.lit "Please provide a description of how you want to edit the image.") w.
Proof.
  unfold edit_accepted, handleEdit. intros H.
  destruct (found EditedWrapper w), (found EditedSaveContainer w); simpl in *; auto.
  destruct (originalImageState w); simpl in *; auto.
  rewrite H. simpl. auto.
Qed.

(** ** The loop over the response parts *)

Lemma rendered_refl (w : World) : rendered w w.
Proof. unfold rendered. auto 15. Qed.

Lemma rendered_trans (w1 w2 w3 : World) :
  rendered w1 w2 -> rendered w2 w3 -> rendered w1 w3.
Proof.
  unfold rendered. intros H1 H2.
  destruct H1 as (A1 & A2 & A3 & A4 & A5 & A6 & A7 & A8 & A9 & A10 & A11 & A12).
  destruct H2 as (B1 & B2 & B3 & B4 & B5 & B6 & B7 & B8 & B9 & B10 & B11 & B12).
  repeat split; congruence.
Qed.

Lemma rendered_edited_update (f : list Node -> list Node) (w : World) :
  rendered w (update_children EditedWrapper f w).
Proof. open_world w. rendered_by_cases. Qed.

Lemma rendered_edited_save_update (f : list Node -> list Node) (w : World) :
  rendered w (update_children EditedSaveContainer f w).
Proof. open_world w. rendered_by_cases. Qed.

Lemma rendered_set_edited (v : ImageState) (w : World) :
  rendered w (set_editedImageState v w).
Proof. open_world w. rendered_by_cases. Qed.

Lemma rendered_console_error (msg : JS.str) (w : World) :
  rendered w (console_error msg w).
Proof. open_world w. rendered_by_cases. Qed.

Lemma process_part_rendered (p : JS.str) (part : Part) (w : World) (b : bool) :
  rendered w (fst (process_part p part (w, b))).
Proof.
  unfold process_part. destruct (inlineData part) as [blob|].
  - cbn [fst editedImageState set_editedImageState]. unfold createSaveButton.
    cbn [editedImageState set_editedImageState prepend update_children set_children].
    unfold appendChild, assign_innerHTML, prepend.
    repeat (eapply rendered_trans;
            [| first [apply rendered_edited_update | apply rendered_edited_save_update]]).
    apply rendered_set_edited.
  - destruct (text part) as [t|]; [destruct (JS.truthy t)|]; cbn [fst];
      try apply rendered_refl.
    apply rendered_edited_update.
Qed.

Lemma process_parts_rendered (p : JS.str) (ps : list Part) (w : World) (b : bool) :
  rendered w (fst (process_parts p ps (w, b))).
Proof.
  unfold process_parts. revert w b.
  induction ps as [|part ps IH]; intros w b; cbn [fold_left].
  - apply rendered_refl.
  - destruct (process_part p part (w, b)) as [w1 b1] eqn:E.
    apply rendered_trans with w1; [| apply (IH w1 b1)].
    pose proof (process_part_rendered p part w b) as H. rewrite E in H. exact H.
Qed.

(** Without an image part the loop writes neither the edited slot nor the
    console, and the flag stays as it was. *)
Lemma process_parts_no_image (p : JS.str) (ps : list Part) (w : World) (b : bool) :
  (forall part, In part ps -> inlineData part = None) ->
  editedImageState (fst (process_parts p ps (w, b))) = editedImageState w
  /\ consoleErrors (fst (process_parts p ps (w, b))) = consoleErrors w
  /\ children (fst (process_parts p ps (w, b))) EditedSaveContainer
     = children w EditedSaveContainer
  /\ snd (process_parts p ps (w, b)) = b.
Proof.
  unfold process_parts. revert w b.
  induction ps as [|part ps IH]; intros w b Hno; cbn [fold_left]; [auto|].
  assert (Hp : inlineData part = None) by (apply Hno; left; reflexivity).
  assert (Hstep : editedImageState (fst (process_part p part (w, b))) = editedImageState w
                  /\ consoleErrors (fst (process_part p part (w, b))) = consoleErrors w
                  /\ children (fst (process_part p part (w, b))) EditedSaveContainer
                     = children w EditedSaveContainer
                  /\ snd (process_part p part (w, b)) = b).
  { unfold process_part. rewrite Hp.
    destruct (text part) as [t|]; [destruct (JS.truthy t)|]; cbn [fst snd]; auto. }
  destruct (process_part p part (w, b)) as [w1 b1]. cbn [fst snd] in Hstep.
  destruct Hstep as (He & Hc & Hs & Hb). subst b1.
  destruct (IH w1 b) as (IH1 & IH2 & IH3 & IH4);
    [intros q Hq; apply Hno; right; exact Hq|].
  repeat split; congruence.
Qed.

(** ** [handleEdit] once the [await] has settled *)

(** The [try] and [catch] blocks only render; the [finally] block asks for
    the edit form to be enabled. *)
Lemma handleEdit_settled_shape (p : JS.str) (o : Outcome GenerateContentResponse)
    (w : World) :
  exists w2, handleEdit_settled p o w = setEditUIDisabled false false w2 /\ rendered w w2.
Proof.
  assert (Hcatch : forall e w1, rendered w w1 ->
            rendered w (assign_innerHTML EditedWrapper (error_markup (errorMessage e))
                          (console_error (JS.lit "An error occurred during editing:") w1))).
  { intros e w1 H. unfold assign_innerHTML.
    eapply rendered_trans; [| apply rendered_edited_update].
    eapply rendered_trans; [exact H | apply rendered_console_error]. }
  unfold handleEdit_settled, try_catch_finally.
  destruct o as [r|e].
  - unfold edit_body, seq, run.
    set (wa := appendChild EditedWrapper _ (assign_innerHTML EditedWrapper [] w)).
    assert (Ha : rendered w wa).
    { unfold wa, appendChild, assign_innerHTML.
      eapply rendered_trans; apply rendered_edited_update. }
    pose proof (process_parts_rendered p (response_parts r) wa false) as Hl.
    destruct (process_parts p (response_parts r) (wa, false)) as [w1 found_].
    cbn [fst] in Hl. assert (H1 : rendered w w1) by (eapply rendered_trans; eauto).
    destruct found_; cbn [negb throw].
    + eexists. split; [reflexivity | exact H1].
    + eexists. split; [reflexivity | apply Hcatch; exact H1].
  - unfold throw. eexists. split; [reflexivity | apply Hcatch, rendered_refl].
Qed.

Lemma handleEdit_settled_no_image (p : JS.str) (r : GenerateContentResponse) (w : World) :
  (forall part, In part (response_parts r) -> inlineData part = None) ->
  let w' := handleEdit_settled p (Fulfilled r) w in
  editedImageState w' = editedImageState w
  /\ children w' EditedWrapper
     = option_map
         (fun _ => [Markup (error_markup (JS.lit "The model did not return an edited image."))])
         (children w EditedWrapper)
  /\ children w' EditedSaveContainer = children w EditedSaveContainer
  /\ consoleErrors w' = consoleErrors w ++ [JS.lit "An error occurred during editing:"].
Proof.
  intros Hno. unfold handleEdit_settled, try_catch_finally, edit_body, seq, run.
  set (wa := appendChild EditedWrapper _ (assign_innerHTML EditedWrapper [] w)).
  assert (Ha : rendered w wa).
  { unfold wa, appendChild, assign_innerHTML.
    eapply rendered_trans; apply rendered_edited_update. }
  assert (Hea : editedImageState wa = editedImageState w
                /\ consoleErrors wa = consoleErrors w
                /\ children wa EditedSaveContainer = children w EditedSaveContainer).
  { unfold wa. open_world w. crunch. auto. }
  pose proof (process_parts_rendered p (response_parts r) wa false) as Hl.
  destruct (process_parts_no_image p (response_parts r) wa false Hno)
    as (He & Hc & Hs & Hf).
  destruct (process_parts p (response_parts r) (wa, false)) as [w1 found_].
  cbn [fst snd] in *. subst found_. cbn [negb throw errorMessage].
  assert (Hfound : found EditedWrapper w1 = found EditedWrapper w).
  { destruct Hl as (_ & _ & _ & _ & _ & _ & _ & _ & _ & F1 & _).
    destruct Ha as (_ & _ & _ & _ & _ & _ & _ & _ & _ & F2 & _).
    rewrite F1. apply F2. }
  destruct Hea as (Hea & Hca & Hsa). rewrite Hea in He. rewrite Hca in Hc.
  rewrite Hsa in Hs.
  unfold found in Hfound. clear Hl Ha Hea Hca Hsa. clearbody wa. clear wa.
  destruct w1 as [o1 e1 dis1 val1 txt1 chi1 bod1 ale1 con1 req1 awa1 dow1].
  open_world w. subst.
  unfold setEditUIDisabled.
  destruct (negb false && _ && negb false);
    destruct (chi_ EditedWrapper) eqn:E1, (chi1 EditedWrapper) eqn:E2;
    try discriminate; crunch; repeat split; reflexivity.
Qed.

Lemma handleGenerate_settled_shape (p : JS.str) (o : Outcome GenerateImagesResponse)
    (w : World) :
  exists w1, handleGenerate_settled p o w = setGenerateUIDisabled false w1.
Proof.
  unfold handleGenerate_settled, try_catch_finally.
  match goal with
  | |- context [match ?b with _ => _ end] => destruct b as [w1 [e|]]
  end; eexists; reflexivity.
Qed.

Lemma unchanged_alert (msg : JS.str) (w : World) : unchanged w (alert msg w).
Proof. unfold unchanged. unfold_world. simpl. auto 15. Qed.

Lemma unchanged_console_error (msg : JS.str) (w : World) :
  unchanged w (console_error msg w).
Proof. unfold unchanged. unfold_world. simpl. auto 15. Qed.

Lemma blank_not_truthy (s : JS.str) :
  forallb JS.is_space s = true -> JS.truthy (JS.trim s) = false.
Proof. intros H. apply trim_blank_iff in H. rewrite H. reflexivity. Qed.

(** ** Saving an image *)

Lemma split_nonempty (s : JS.str) : JS.split 47 s <> [].
Proof.
  destruct s as [|c s]; simpl; [discriminate|].
  destruct (c =? 47)%N; [discriminate|].
  destruct (JS.split 47 s); discriminate.
Qed.

Lemma split_first (s : JS.str) : nth_error (JS.split 47 s) 0 = Some (up_to_slash s).
Proof.
  induction s as [|c s IH]; simpl; [reflexivity|].
  destruct (c =? 47)%N; [reflexivity|].
  destruct (JS.split 47 s) as [|seg segs]; simpl in *; [discriminate|].
  congruence.
Qed.

(** The second element of [split('/')] is the text between the first slash
    and the next one. *)
Lemma split_second (m : JS.str) : nth_error (JS.split 47 m) 1 = subtype_segment m.
Proof.
  unfold subtype_segment. induction m as [|c m IH]; simpl; [reflexivity|].
  destruct (c =? 47)%N.
  - simpl. apply split_first.
  - pose proof (split_nonempty m) as Hne.
    destruct (JS.split 47 m) as [|seg segs]; [contradiction|]. exact IH.
Qed.

Lemma downloadImage_effect (img : Image) (prefix : JS.str) (now : Z) (w : World) :
  downloads (downloadImage (Some img) prefix now w)
  = downloads w ++ [(data_url (mimeType img) (data img),
                     download_name prefix now (mimeType img))]
  /\ body (downloadImage (Some img) prefix now w) = body w
  /\ originalImageState (downloadImage (Some img) prefix now w) = originalImageState w
  /\ editedImageState (downloadImage (Some img) prefix now w) = editedImageState w
  /\ disabled (downloadImage (Some img) prefix now w) = disabled w
  /\ awaiting (downloadImage (Some img) prefix now w) = awaiting w
  /\ requests (downloadImage (Some img) prefix now w) = requests w.
Proof.
  unfold downloadImage. open_world w. crunch.
  rewrite removelast_last. repeat split; reflexivity.
Qed.

(** Nothing but the response of an edit request stores an edited image. *)
Lemma edited_null_dispatch (e : Event) (w : World) :
  settles_edit e = false ->
  editedImageState w = None -> editedImageState (dispatch e w) = None.
Proof.
  intros He N. destruct e as [c v| | |r now|i o|i o]; cbn [dispatch]; try discriminate.
  - destruct c; try exact N; (destruct (disabled w _); exact N).
  - destruct (disabled w GenerateButton); [exact N|].
    destruct (generate_accepted w) eqn:Ha.
    + apply (handleGenerate_start w Ha).
    + destruct (handleGenerate_rejected w Ha) as [E|E]; rewrite E; exact N.
  - destruct (disabled w EditButton); [exact N|].
    destruct (edit_accepted w) eqn:Ha.
    + destruct (edit_accepted_original w Ha) as [orig Ho].
      apply (handleEdit_start w Ha Ho).
    + destruct (handleEdit_rejected w Ha) as [E|[E|E]]; rewrite E; exact N.
  - destruct (children w r) as [ns|]; [|exact N].
    destruct (save_listener ns) as [[img prefix]|]; [|exact N].
    pose proof (downloadImage_effect img prefix now w) as (_ & _ & _ & Hed & _).
    congruence.
  - destruct (nth_error (awaiting w) i) as [[p|p]|]; try exact N.
    set (w0 := set_awaiting (remove_nth i (awaiting w)) w).
    destruct (generation_failed o) eqn:Hf.
    + pose proof (handleGenerate_settled_failure p o w0 Hf) as (_ & H & _).
      rewrite H. exact N.
    + destruct (generation_succeeded o Hf) as (r & img & b & E & Hd & Hb & Ht). subst o.
      pose proof (handleGenerate_settled_success p r w0 Hd Hb Ht) as (_ & H & _).
      rewrite H. exact N.
Qed.

Lemma edited_null_dispatch_all (es : list Event) (w : World) :
  forallb (fun e => negb (settles_edit e)) es = true ->
  editedImageState w = None -> editedImageState (dispatch_all es w) = None.
Proof.
  unfold dispatch_all. revert w.
  induction es as [|e es IH]; intros w Hes N; simpl; [exact N|].
  simpl in Hes. apply andb_true_iff in Hes as [He Hes].
  apply IH; [exact Hes|]. apply edited_null_dispatch; [|exact N].
  apply negb_true_iff. exact He.
Qed.


(** ** The gate on the edit button *)

Lemma gate_same (w w' : World) :
  originalImageState w' = originalImageState w ->
  disabled w' EditButton = disabled w EditButton ->
  edit_gate w -> edit_gate w'.
Proof. unfold edit_gate. intros Ho Hd H. rewrite Ho, Hd. exact H. Qed.

Lemma gate_disabled (w : World) : disabled w EditButton = true -> edit_gate w.
Proof. unfold edit_gate. intros H. rewrite H. discriminate. Qed.

Lemma gate_original (w : World) (i : Image) : originalImageState w = Some i -> edit_gate w.
Proof. unfold edit_gate. intros H _. rewrite H. discriminate. Qed.

Lemma gate_unchanged (w w' : World) : unchanged w w' -> edit_gate w -> edit_gate w'.
Proof.
  intros (Ho & _ & Hd & _). apply gate_same; [exact Ho | rewrite Hd; reflexivity].
Qed.

Lemma gate_setEditUIDisabled (d f : bool) (w : World) :
  forced_enable (CallSetEditUIDisabled d f) = false ->
  edit_gate w -> edit_gate (setEditUIDisabled d f w).
Proof.
  intros Hf G. destruct d.
  - apply gate_disabled. apply setEditUIDisabled_disable.
  - destruct f; [discriminate|].
    destruct (originalImageState w) as [i|] eqn:Ho.
    + apply gate_original with i.
      rewrite (proj1 (setEditUIDisabled_frame false false w)). exact Ho.
    + rewrite setEditUIDisabled_gated; assumption.
Qed.

Lemma gate_handleGenerate (w : World) : edit_gate w -> edit_gate (handleGenerate w).
Proof.
  intros G. destruct (generate_accepted w) eqn:Ha.
  - apply gate_disabled. apply (handleGenerate_start w Ha).
  - destruct (handleGenerate_rejected w Ha) as [E|E]; rewrite E;
      (eapply gate_unchanged; [|exact G]);
      [apply unchanged_console_error | apply unchanged_alert].
Qed.

Lemma gate_handleGenerate_settled (p : JS.str) (o : Outcome GenerateImagesResponse)
    (w : World) :
  edit_gate w -> edit_gate (handleGenerate_settled p o w).
Proof.
  intros G. destruct (generation_failed o) eqn:Hf.
  - pose proof (handleGenerate_settled_failure p o w Hf) as (Ho & _ & Hd & _).
    apply gate_same with w; assumption.
  - destruct (generation_succeeded o Hf) as (r & img & b & E & Hd & Hb & Ht). subst o.
    pose proof (handleGenerate_settled_success p r w Hd Hb Ht) as (Ho & _).
    eapply gate_original. exact Ho.
Qed.

Lemma gate_handleEdit (w : World) : edit_gate w -> edit_gate (handleEdit w).
Proof.
  intros G. destruct (edit_accepted w) eqn:Ha.
  - destruct (edit_accepted_original w Ha) as [i Ho].
    apply gate_disabled. apply (handleEdit_start w Ha Ho).
  - destruct (handleEdit_rejected w Ha) as [E|[E|E]]; rewrite E;
      (eapply gate_unchanged; [|exact G]);
      [apply unchanged_console_error | apply unchanged_alert | apply unchanged_alert].
Qed.

Lemma gate_handleEdit_settled (p : JS.str) (o : Outcome GenerateContentResponse)
    (w : World) :
  edit_gate w -> edit_gate (handleEdit_settled p o w).
Proof.
  intros G. destruct (handleEdit_settled_shape p o w) as [w2 [E R]]. rewrite E.
  apply gate_setEditUIDisabled; [reflexivity|].
  destruct R as (Ho & Hd & _). apply gate_same with w; [exact Ho | rewrite Hd; reflexivity | exact G].
Qed.

Lemma gate_createSaveButton (r : Region) (i : ImageState) (p : JS.str) (w : World) :
  edit_gate w -> edit_gate (createSaveButton r i p w).
Proof.
  intros G. destruct i as [img|]; [|exact G].
  apply gate_same with w; [| |exact G]; open_world w; crunch; reflexivity.
Qed.

Lemma gate_downloadImage (i : ImageState) (p : JS.str) (now : Z) (w : World) :
  edit_gate w -> edit_gate (downloadImage i p now w).
Proof.
  intros G. destruct i as [img|]; [|exact G].
  pose proof (downloadImage_effect img p now w) as (_ & _ & Ho & _ & Hd & _).
  apply gate_same with w; [exact Ho | rewrite Hd; reflexivity | exact G].
Qed.

Lemma gate_call (c : Call) (w : World) :
  forced_enable c = false -> edit_gate w -> edit_gate (call c w).
Proof.
  intros Hf G. destruct c; cbn [call].
  - apply gate_handleGenerate, G.
  - apply gate_handleGenerate_settled, G.
  - apply gate_handleEdit, G.
  - apply gate_handleEdit_settled, G.
  - apply gate_createSaveButton, G.
  - apply gate_downloadImage, G.
  - apply gate_same with w; [| |exact G]; apply setGenerateUIDisabled_frame.
  - apply gate_setEditUIDisabled; assumption.
Qed.

Lemma gate_dispatch (e : Event) (w : World) : edit_gate w -> edit_gate (dispatch e w).
Proof.
  intros G. destruct e as [c v| | |r now|i o|i o]; cbn [dispatch].
  - destruct c; try exact G; (destruct (disabled w _); [exact G|]);
      (apply gate_same with w; [reflexivity | reflexivity | exact G]).
  - destruct (disabled w GenerateButton); [exact G | apply gate_handleGenerate, G].
  - destruct (disabled w EditButton); [exact G | apply gate_handleEdit, G].
  - destruct (children w r) as [ns|]; [|exact G].
    destruct (save_listener ns) as [[img prefix]|]; [|exact G].
    apply gate_downloadImage, G.
  - destruct (nth_error (awaiting w) i) as [[p|p]|]; try exact G.
    apply gate_handleGenerate_settled.
    apply gate_same with w; [reflexivity | reflexivity | exact G].
  - destruct (nth_error (awaiting w) i) as [[p|p]|]; try exact G.
    apply gate_handleEdit_settled.
    apply gate_same with w; [reflexivity | reflexivity | exact G].
Qed.

(** ** Requests in flight *)

Lemma filter_remove_nth {A} (f : A -> bool) (l : list A) (i : nat) (x : A) :
  nth_error l i = Some x ->
  List.length (filter f l)
  = List.length (filter f (remove_nth i l)) + (if f x then 1 else 0).
Proof.
  unfold remove_nth. revert i. induction l as [|a l IH]; intros [|i] H; simpl in *;
    try discriminate.
  - injection H as ->. destruct (f x); simpl; lia.
  - specialize (IH i H). destruct (f a); simpl; lia.
Qed.

Lemma generations_app (l : list Suspended) (k : Suspended) :
  List.length (filter generating (l ++ [k]))
  = List.length (filter generating l) + (if generating k then 1 else 0).
Proof. rewrite filter_app, length_app. simpl. destruct (generating k); reflexivity. Qed.

Lemma single_generation_same (w w' : World) :
  awaiting w' = awaiting w ->
  disabled w' GenerateButton = disabled w GenerateButton ->
  single_generation w -> single_generation w'.
Proof.
  unfold single_generation, generations. intros Ha Hd H. rewrite Ha, Hd. exact H.
Qed.

Lemma single_generation_unchanged (w w' : World) :
  unchanged w w' -> single_generation w -> single_generation w'.
Proof.
  intros (_ & _ & Hd & _ & _ & _ & _ & _ & Ha & _).
  apply single_generation_same; [exact Ha | rewrite Hd; reflexivity].
Qed.

Lemma single_generation_dispatch (e : Event) (w : World) :
  single_generation w -> single_generation (dispatch e w).
Proof.
  intros S. destruct e as [c v| | |r now|i o|i o]; cbn [dispatch].
  - destruct c; try exact S; (destruct (disabled w _); [exact S|]);
      (apply single_generation_same with w; [reflexivity | reflexivity | exact S]).
  - destruct (disabled w GenerateButton) eqn:Hd; [exact S|].
    destruct (generate_accepted w) eqn:Ha.
    + pose proof (handleGenerate_start w Ha) as H. cbv zeta in H.
      destruct H as (_ & _ & _ & _ & _ & _ & _ & _ & _ & Hg & _ & _ & Haw & _).
      destruct S as [S|[_ S]]; [|congruence].
      right. split; [|exact Hg]. unfold generations in *.
      rewrite Haw, generations_app. rewrite S. reflexivity.
    + destruct (handleGenerate_rejected w Ha) as [E|E]; rewrite E;
        (eapply single_generation_unchanged; [|exact S]);
        [apply unchanged_console_error | apply unchanged_alert].
  - destruct (disabled w EditButton); [exact S|].
    destruct (edit_accepted w) eqn:Ha.
    + destruct (edit_accepted_original w Ha) as [orig Ho].
      pose proof (handleEdit_start w Ha Ho) as H. cbv zeta in H.
      destruct H as (_ & _ & _ & _ & _ & _ & _ & Hg & Haw & _).
      unfold single_generation, generations in *.
      rewrite Haw, generations_app, Hg. simpl. rewrite Nat.add_0_r. exact S.
    + destruct (handleEdit_rejected w Ha) as [E|[E|E]]; rewrite E;
        (eapply single_generation_unchanged; [|exact S]);
        [apply unchanged_console_error | apply unchanged_alert | apply unchanged_alert].
  - destruct (children w r) as [ns|]; [|exact S].
    destruct (save_listener ns) as [[img prefix]|]; [|exact S].
    pose proof (downloadImage_effect img prefix now w) as (_ & _ & _ & _ & Hd & Ha & _).
    apply single_generation_same with w; [exact Ha | rewrite Hd; reflexivity | exact S].
  - destruct (nth_error (awaiting w) i) as [[p|p]|] eqn:Hn; try exact S.
    pose proof (filter_remove_nth generating (awaiting w) i Hn) as Hlen.
    cbn [generating] in Hlen.
    set (w0 := set_awaiting (remove_nth i (awaiting w)) w).
    assert (H0 : generations w0 = 0).
    { unfold generations, w0. cbn [awaiting set_awaiting].
      unfold single_generation, generations in S. lia. }
    left. unfold generations in *.
    destruct (generation_failed o) eqn:Hf.
    + pose proof (handleGenerate_settled_failure p o w0 Hf) as H. cbv zeta in H.
      destruct H as (_ & _ & _ & _ & _ & _ & Ha & _). rewrite Ha. exact H0.
    + destruct (generation_succeeded o Hf) as (r & img & b & E & Hd & Hb & Ht). subst o.
      pose proof (handleGenerate_settled_success p r w0 Hd Hb Ht) as H. cbv zeta in H.
      destruct H as (_ & _ & _ & _ & _ & _ & Ha & _). rewrite Ha. exact H0.
  - destruct (nth_error (awaiting w) i) as [[p|p]|] eqn:Hn; try exact S.
    pose proof (filter_remove_nth generating (awaiting w) i Hn) as Hlen.
    cbn [generating] in Hlen.
    set (w0 := set_awaiting (remove_nth i (awaiting w)) w).
    assert (S0 : single_generation w0).
    { unfold single_generation, generations, w0 in *. cbn [awaiting set_awaiting disabled].
      rewrite Nat.add_0_r in Hlen. rewrite <- Hlen. exact S. }
    destruct (handleEdit_settled_shape p o w0) as [w2 [E R]]. rewrite E.
    destruct R as (_ & Hd & _ & _ & _ & _ & _ & Ha & _).
    pose proof (setEditUIDisabled_frame false false w2) as (_ & _ & _ & Ha2 & _ & Hd2).
    apply single_generation_same with w0; [congruence | rewrite Hd2, Hd; reflexivity | exact S0].
Qed.

Lemma reachable_load (w : World) : page_load w -> reachable w.
Proof. intros H. exists w, []. split; [exact H | reflexivity]. Qed.

Lemma reachable_dispatch_all (es : list Event) (w : World) :
  reachable w -> reachable (dispatch_all es w).
Proof.
  intros (w0 & es0 & H & ->). exists w0, (es0 ++ es). split; [exact H|].
  unfold dispatch_all. rewrite fold_left_app. reflexivity.
Qed.

Lemma reachable_dispatch (e : Event) (w : World) : reachable w -> reachable (dispatch e w).
Proof. apply (reachable_dispatch_all [e]). Qed.

(** In every state the page can reach there is at most one generation in
    flight, and the generate button is disabled while there is one. *)
Lemma reachable_single_generation (w : World) : reachable w -> single_generation w.
Proof.
  intros (w0 & es & (_ & _ & Ha) & ->). unfold dispatch_all.
  assert (S0 : single_generation w0).
  { left. unfold generations. rewrite Ha. reflexivity. }
  clear Ha. revert w0 S0. induction es as [|e es IH]; intros w0 S0; simpl; [exact S0|].
  apply IH. apply single_generation_dispatch, S0.
Qed.

Lemma nothing_in_flight (l : list Suspended) :
  List.length (filter generating l) = 0 ->
  forallb (fun k => negb (editing k)) l = true ->
  l = [].
Proof.
  destruct l as [|[p|p] l]; simpl; intros; [reflexivity | discriminate | discriminate].
Qed.

Lemma generation_pending_same (p : JS.str) (w w' : World) :
  awaiting w' = awaiting w ->
  originalImageState w' = originalImageState w ->
  editedImageState w' = editedImageState w ->
  disabled w' GenerateButton = disabled w GenerateButton ->
  generation_pending p w -> generation_pending p w'.
Proof.
  unfold generation_pending. intros -> -> -> ->. auto.
Qed.

Lemma generation_pending_unchanged (p : JS.str) (w w' : World) :
  unchanged w w' -> generation_pending p w -> generation_pending p w'.
Proof.
  intros (Ho & He & Hd & _ & _ & _ & _ & _ & Ha & _).
  apply generation_pending_same; try assumption. rewrite Hd. reflexivity.
Qed.

(** While a generation is pending and nothing else is in flight, no event
    but its settlement writes the slots or starts a flow. *)
Lemma generation_pending_dispatch (p : JS.str) (e : Event) (w : World) :
  settles_generation e = false ->
  generation_pending p w -> generation_pending p (dispatch e w).
Proof.
  intros He G. destruct e as [c v| | |r now|i o|i o]; cbn [dispatch]; try discriminate.
  - destruct c; try exact G; (destruct (disabled w _); [exact G|]);
      (apply generation_pending_same with w; [reflexivity .. | exact G]).
  - destruct G as (Ha & Ho & Hed & Hd). rewrite Hd. repeat split; assumption.
  - destruct (disabled w EditButton); [exact G|].
    assert (Hrej : edit_accepted w = false).
    { unfold edit_accepted. destruct G as (_ & Ho & _). rewrite Ho.
      rewrite andb_false_r. reflexivity. }
    destruct (handleEdit_rejected w Hrej) as [E|[E|E]]; rewrite E;
      (eapply generation_pending_unchanged; [|exact G]);
      [apply unchanged_console_error | apply unchanged_alert | apply unchanged_alert].
  - destruct (children w r) as [ns|]; [|exact G].
    destruct (save_listener ns) as [[img prefix]|]; [|exact G].
    pose proof (downloadImage_effect img prefix now w) as (_ & _ & Ho & Hed & Hd & Ha & _).
    apply generation_pending_same with w; try assumption. rewrite Hd. reflexivity.
  - destruct G as (Ha & Ho & Hed & Hd). rewrite Ha.
    destruct i as [|[|i]]; simpl; repeat split; assumption.
Qed.

Lemma generation_pending_dispatch_all (p : JS.str) (es : list Event) (w : World) :
  forallb (fun e => negb (settles_generation e)) es = true ->
  generation_pending p w -> generation_pending p (dispatch_all es w).
Proof.
  unfold dispatch_all. revert w.
  induction es as [|e es IH]; intros w Hes G; simpl; [exact G|].
  simpl in Hes. apply andb_true_iff in Hes as [He Hes].
  apply IH; [exact Hes|]. apply generation_pending_dispatch; [|exact G].
  apply negb_true_iff. exact He.
Qed.

(** ** While a generation is pending *)

Lemma generation_locked_same (w w' : World) :
  originalImageState w' = originalImageState w ->
  disabled w' EditButton = disabled w EditButton ->
  disabled w' GenerateButton = disabled w GenerateButton ->
  generation_locked w -> generation_locked w'.
Proof. unfold generation_locked. intros -> -> ->. auto. Qed.

(** While a generation is pending the original slot stays null and both
    buttons stay disabled, whatever else happens on the page. *)
Lemma generation_locked_dispatch (e : Event) (w : World) :
  settles_generation e = false ->
  generation_locked w -> generation_locked (dispatch e w).
Proof.
  intros He L. destruct e as [c v| | |r now|i o|i o]; cbn [dispatch]; try discriminate.
  - destruct c; try exact L; (destruct (disabled w _); [exact L|]);
      (apply generation_locked_same with w; [reflexivity .. | exact L]).
  - destruct L as (Ho & Hd & Hg). rewrite Hg. repeat split; assumption.
  - destruct L as (Ho & Hd & Hg). rewrite Hd. repeat split; assumption.
  - destruct (children w r) as [ns|]; [|exact L].
    destruct (save_listener ns) as [[img prefix]|]; [|exact L].
    pose proof (downloadImage_effect img prefix now w) as (_ & _ & Ho & _ & Hd & _).
    apply generation_locked_same with w; try assumption; rewrite Hd; reflexivity.
  - destruct (nth_error (awaiting w) i) as [[p|p]|]; try exact L.
    set (w0 := set_awaiting (remove_nth i (awaiting w)) w).
    destruct (handleEdit_settled_shape p o w0) as [w2 [E R]]. rewrite E.
    destruct R as (Ho & Hd & _).
    assert (Hn : originalImageState w2 = None) by (rewrite Ho; apply L).
    rewrite (setEditUIDisabled_gated w2 Hn).
    apply generation_locked_same with w; [exact Ho | rewrite Hd; reflexivity .. | exact L].
Qed.

Lemma generation_locked_dispatch_all (es : list Event) (w : World) :
  forallb (fun e => negb (settles_generation e)) es = true ->
  generation_locked w -> generation_locked (dispatch_all es w).
Proof.
  unfold dispatch_all. revert w.
  induction es as [|e es IH]; intros w Hes L; simpl; [exact L|].
  simpl in Hes. apply andb_true_iff in Hes as [He Hes].
  apply IH; [exact Hes|]. apply generation_locked_dispatch; [|exact L].
  apply negb_true_iff. exact He.
Qed.

Lemma generation_started_pending (w : World) :
  generate_accepted w = true ->
  reachable w ->
  disabled w GenerateButton = false ->
  forallb (fun k => negb (editing k)) (awaiting w) = true ->
  generation_pending (JS.trim (value w GenerationPromptInput)) (handleGenerate w).
Proof.
  intros Ha Hr Hd Hne.
  pose proof (handleGenerate_start w Ha) as S. cbv zeta in S.
  destruct S as (So & Se & _ & _ & _ & _ & _ & _ & _ & Sg & _ & _ & Saw & _).
  assert (Hnone : awaiting w = []).
  { apply nothing_in_flight; [|exact Hne].
    destruct (reachable_single_generation Hr) as [H0|[_ H1]]; [exact H0 | congruence]. }
  unfold generation_pending. rewrite Saw, Hnone. auto.
Qed.

Lemma generation_started_locked (w : World) :
  generate_accepted w = true -> generation_locked (handleGenerate w).
Proof.
  intros Ha. pose proof (handleGenerate_start w Ha) as S. cbv zeta in S.
  destruct S as (So & _ & _ & _ & _ & _ & Sd & _ & _ & Sg & _).
  unfold generation_locked. auto.
Qed.

(** * The gate on the edit controls *)

(** C1: enabling the edit controls takes effect only when the original
    slot is non-null or the caller forces it; when a generation starts, the
    edit button ends up disabled whatever it was; and along every sequence
    of calls of the script's functions that contains no forced enable, and
    every sequence of page events, the edit button is never enabled while
    the original slot is null. *)
Theorem edit_enablement_gate (w : World) (cs : list Call) (es : list Event) :
  (originalImageState w = None -> setEditUIDisabled false false w = w)
  /\ (originalImageState w <> None ->
      disabled (setEditUIDisabled false false w) EditButton = false)
  /\ disabled (setEditUIDisabled false true w) EditButton = false
  /\ (generate_accepted w = true -> disabled (handleGenerate w) EditButton = true)
  /\ (edit_gate w -> forallb (fun c => negb (forced_enable c)) cs = true ->
      edit_gate (calls cs w))
  /\ (edit_gate w -> edit_gate (dispatch_all es w)).
Proof.
  split; [apply setEditUIDisabled_gated|].
  split.
  { intros Ho. destruct (originalImageState w) as [i|] eqn:E; [|contradiction].
    apply (setEditUIDisabled_enable w E). }
  split; [apply setEditUIDisabled_forced|].
  split; [intros Ha; apply (handleGenerate_start w Ha)|].
  split.
  - unfold calls. revert w. induction cs as [|c cs IH]; intros w G Hcs; simpl; [exact G|].
    simpl in Hcs. apply andb_true_iff in Hcs as [Hc Hcs].
    apply IH; [|exact Hcs]. apply gate_call; [|exact G].
    apply negb_true_iff. exact Hc.
  - unfold dispatch_all. revert w. induction es as [|e es IH]; intros w G; simpl; [exact G|].
    apply IH. apply gate_dispatch, G.
Qed.

Lemma edit_enablement_gate_witness :
  setEditUIDisabled false false fresh_page = fresh_page
  /\ disabled (setEditUIDisabled false false page_with_original) EditButton = false
  /\ disabled (handleGenerate page_with_original) EditButton = true
  /\ edit_gate (calls [CallHandleGenerate;
                       ResumeHandleEdit (JS.lit "add a hat")
                         (Fulfilled (edit_response [image_part image_Y]));
                       CallSetEditUIDisabled false false]
                  page_with_original)
  /\ edit_gate (dispatch_all [ClickEdit; ClickGenerate;
                              SettleEdit 0 (Fulfilled (edit_response [image_part image_Y]))]
                  page_with_original).
Proof.
  assert (G : edit_gate page_with_original).
  { unfold edit_gate. intros _. vm_compute. discriminate. }
  pose proof (edit_enablement_gate fresh_page [] []) as (H1 & _).
  pose proof (edit_enablement_gate page_with_original
                [CallHandleGenerate;
                 ResumeHandleEdit (JS.lit "add a hat")
                   (Fulfilled (edit_response [image_part image_Y]));
                 CallSetEditUIDisabled false false]
                [ClickEdit; ClickGenerate;
                 SettleEdit 0 (Fulfilled (edit_response [image_part image_Y]))])
    as (_ & H2 & _ & H4 & H5 & H6).
  split; [apply H1; reflexivity|].
  split; [apply H2; vm_compute; discriminate|].
  split; [apply H4; reflexivity|].
  split; [apply H5; [exact G | reflexivity] | apply H6; exact G].
Defined.

(** * Edit responses with several images *)



(** * The start of a generation *)

(** C4, as the code has it: a generation that passes validation, before its
    request settles, sets both slots to null, replaces the original region
    by the loading message, empties the edited region and both save
    containers, and disables the edit button and input whatever they were;
    the edited slot is null right after the start, and it stays null until
    the request settles provided no edit request was in flight when the
    generation started. *)
Theorem generation_start_clears (w : World) (es : list Event) :
  generate_accepted w = true ->
  let w1 := handleGenerate w in
  (originalImageState w1 = None
   /\ editedImageState w1 = None
   /\ children w1 OriginalWrapper
      = Some [Markup (loading_markup (JS.lit "Generating original image..."))]
   /\ children w1 EditedWrapper = Some []
   /\ children w1 OriginalSaveContainer = Some []
   /\ children w1 EditedSaveContainer = Some []
   /\ disabled w1 EditButton = true
   /\ disabled w1 EditPromptInput = true)
  /\ (reachable w ->
      disabled w GenerateButton = false ->
      forallb (fun k => negb (editing k)) (awaiting w) = true ->
      forallb (fun e => negb (settles_generation e)) es = true ->
      dispatch ClickGenerate w = w1
      /\ editedImageState (dispatch_all es w1) = None).
Proof.
  intros Ha w1.
  pose proof (handleGenerate_start w Ha) as S. cbv zeta in S. fold w1 in S.
  destruct S as (So & Se & Sc1 & Sc2 & Sc3 & Sc4 & Sd1 & Sd2 & _ & Sg & _ & _ & Saw & _).
  split; [repeat split; assumption|].
  intros Hr Hd Hne Hes. split; [cbn [dispatch]; rewrite Hd; reflexivity|].
  assert (Hnone : awaiting w = []).
  { apply nothing_in_flight; [|exact Hne].
    destruct (reachable_single_generation Hr) as [H0|[_ H1]]; [exact H0 | congruence]. }
  assert (G : generation_pending (JS.trim (value w GenerationPromptInput)) w1).
  { unfold generation_pending. rewrite Saw, Hnone. auto. }
  apply (generation_pending_dispatch_all es Hes G).
Qed.

Lemma generation_start_clears_witness :
  let w := dispatch (UserInput GenerationPromptInput (JS.lit "a dog")) page_with_original in
  let es := [UserInput GenerationPromptInput (JS.lit "a bird"); ClickEdit; ClickGenerate;
             SettleEdit 0 (Fulfilled (edit_response [image_part image_Y]))] in
  editedImageState (handleGenerate w) = None
  /\ disabled (handleGenerate w) EditButton = true
  /\ editedImageState (dispatch_all es (handleGenerate w)) = None.
Proof.
  pose proof (generation_start_clears
                (dispatch (UserInput GenerationPromptInput (JS.lit "a dog"))
                   page_with_original)
                [UserInput GenerationPromptInput (JS.lit "a bird"); ClickEdit; ClickGenerate;
                 SettleEdit 0 (Fulfilled (edit_response [image_part image_Y]))]
                eq_refl) as H.
  cbv zeta in H. destruct H as ((_ & H1 & _ & _ & _ & _ & H2 & _) & H3).
  assert (Hr : reachable (dispatch (UserInput GenerationPromptInput (JS.lit "a dog"))
                            page_with_original)).
  { apply reachable_dispatch. unfold page_with_original.
    apply reachable_dispatch_all, reachable_load. repeat split. }
  destruct (H3 Hr eq_refl eq_refl eq_refl) as (_ & H4).
  cbv zeta. repeat split; assumption.
Defined.

(** C4, as stated, fails when an edit request is in flight at the start of
    the generation: its response arrives while the generation is still
    pending and stores an edited image. *)
Lemma generation_start_does_not_keep_edited_null :
  reachable edit_then_generate
  /\ disabled edit_then_generate GenerateButton = false
  /\ generate_accepted edit_then_generate = true
  /\ awaiting edit_then_generate = [AwaitEdit (JS.lit "add a hat")]
  /\ editedImageState (dispatch ClickGenerate edit_then_generate) = None
  /\ awaiting
       (dispatch (SettleEdit 0 (Fulfilled (edit_response [image_part image_Y])))
          (dispatch ClickGenerate edit_then_generate))
     = [AwaitGenerate (JS.lit "a dog")]
  /\ editedImageState
       (dispatch (SettleEdit 0 (Fulfilled (edit_response [image_part image_Y])))
          (dispatch ClickGenerate edit_then_generate))
     = Some image_Y.
Proof.
  split.
  { unfold edit_then_generate, page_with_original.
    apply reachable_dispatch_all, reachable_dispatch_all, reachable_load. repeat split. }
  repeat split; vm_compute; reflexivity.
Qed.

(** * Validation *)

(** C7: a generation asked with an empty or blank prompt, and an edit asked
    without an original image or with an empty or blank instruction, make
    no request, write neither slot, leave every control and container as it
    was, and (on a page that has its containers) do nothing but show one
    alert. *)
Theorem validation_failure_only_warns (w : World) :
  (forallb JS.is_space (value w GenerationPromptInput) = true ->
   unchanged w (handleGenerate w)
   /\ (found OriginalWrapper w = true -> found EditedWrapper w = true ->
       found OriginalSaveContainer w = true -> found EditedSaveContainer w = true ->
       handleGenerate w
       = alert (JS.lit "Please provide a description for the image you want to create.") w))
  /\ (originalImageState w = None ->
      unchanged w (handleEdit w)
      /\ (found EditedWrapper w = true -> found EditedSaveContainer w = true ->
          handleEdit w = alert (JS.lit "Please generate an image first before editing.") w))
  /\ (forallb JS.is_space (value w EditPromptInput) = true ->
      unchanged w (handleEdit w)
      /\ (found EditedWrapper w = true -> found EditedSaveContainer w = true ->
          originalImageState w <> None ->
          handleEdit w
          = alert (JS.lit "Please provide a description of how you want to edit the image.")
              w)).
Proof.
  split; [|split].
  - intros Hb. apply blank_not_truthy in Hb.
    assert (Hrej : generate_accepted w = false).
    { unfold generate_accepted. rewrite Hb. apply andb_false_r. }
    split.
    + destruct (handleGenerate_rejected w Hrej) as [E|E]; rewrite E;
        [apply unchanged_console_error | apply unchanged_alert].
    + intros F1 F2 F3 F4. unfold handleGenerate. rewrite F1, F2, F3, F4, Hb. reflexivity.
  - intros Ho.
    assert (Hrej : edit_accepted w = false).
    { unfold edit_accepted. rewrite Ho. rewrite andb_false_r. reflexivity. }
    split.
    + destruct (handleEdit_rejected w Hrej) as [E|[E|E]]; rewrite E;
        [apply unchanged_console_error | apply unchanged_alert | apply unchanged_alert].
    + intros F1 F2. unfold handleEdit. rewrite F1, F2, Ho. reflexivity.
  - intros Hb. apply blank_not_truthy in Hb.
    assert (Hrej : edit_accepted w = false).
    { unfold edit_accepted. rewrite Hb. apply andb_false_r. }
    split.
    + destruct (handleEdit_rejected w Hrej) as [E|[E|E]]; rewrite E;
        [apply unchanged_console_error | apply unchanged_alert | apply unchanged_alert].
    + intros F1 F2 Ho. unfold handleEdit. rewrite F1, F2.
      destruct (originalImageState w); [|contradiction]. rewrite Hb. reflexivity.
Qed.

Lemma validation_failure_only_warns_witness :
  handleGenerate page_blank_prompt
  = alert (JS.lit "Please provide a description for the image you want to create.")
      page_blank_prompt
  /\ handleEdit page_blank_prompt
     = alert (JS.lit "Please generate an image first before editing.") page_blank_prompt
  /\ handleEdit page_blank_instruction
     = alert (JS.lit "Please provide a description of how you want to edit the image.")
         page_blank_instruction
  /\ requests (handleEdit page_blank_instruction) = requests page_blank_instruction.
Proof.
  pose proof (validation_failure_only_warns page_blank_prompt) as (Hg & He & _).
  pose proof (validation_failure_only_warns page_blank_instruction) as (_ & _ & Hi).
  split; [apply Hg; reflexivity|].
  split; [apply He; reflexivity|].
  split; [apply Hi; [reflexivity | reflexivity | reflexivity | discriminate]|].
  apply Hi. reflexivity.
Defined.

(** * Saving an image *)

(** C8, as the code has it: for every artifact and prefix the download is
    named prefix, "-", the decimal value of [Date.now()], ".", extension,
    where the extension is the text between the first slash of the mime
    type and its next slash (or its end), and "jpeg" when there is no slash
    or that text is empty ("image/png" gives "png"; "image" and "image/"
    give "jpeg"); two successive saves of one artifact give names that
    differ in the timestamp only; saving a null artifact does nothing. *)
Theorem downloadImage_name (img : Image) (prefix : JS.str) (now later : Z) (w : World) :
  let w1 := downloadImage (Some img) prefix now w in
  let w2 := downloadImage (Some img) prefix later w1 in
  let url := data_url (mimeType img) (data img) in
  let ext := JS.or_else (subtype_segment (mimeType img)) (JS.lit "jpeg") in
  downloads w1
  = downloads w ++ [(url, prefix ++ JS.lit "-" ++ JS.of_integer now ++ JS.lit "." ++ ext)]
  /\ downloads w2
     = downloads w
       ++ [(url, prefix ++ JS.lit "-" ++ JS.of_integer now ++ JS.lit "." ++ ext);
           (url, prefix ++ JS.lit "-" ++ JS.of_integer later ++ JS.lit "." ++ ext)]
  /\ body w1 = body w
  /\ extension (JS.lit "image/png") = JS.lit "png"
  /\ extension (JS.lit "image") = JS.lit "jpeg"
  /\ extension (JS.lit "image/") = JS.lit "jpeg"
  /\ downloadImage None prefix now w = w.
Proof.
  cbv zeta.
  pose proof (downloadImage_effect img prefix now w) as (D1 & B1 & _).
  pose proof (downloadImage_effect img prefix later (downloadImage (Some img) prefix now w))
    as (D2 & _).
  unfold download_name, extension in D1, D2. rewrite split_second in D1, D2.
  rewrite D2, D1, <- app_assoc. repeat split; try reflexivity. exact B1.
Qed.

(** C8, as stated, fails on a mime type with a second slash: the code keeps
    the text up to that slash, not the substring after the first slash. *)
Lemma downloadImage_name_not_substring_after_slash :
  downloads (downloadImage (Some image_two_slashes) (JS.lit "edited-image") 1700000000000
               fresh_page)
  = [(JS.lit "data:image/png/8;base64,WA==", JS.lit "edited-image-1700000000000.png")]
  /\ spec_download_name (JS.lit "edited-image") 1700000000000 (mimeType image_two_slashes)
     = JS.lit "edited-image-1700000000000.png/8"
  /\ download_name (JS.lit "edited-image") 1700000000000 (mimeType image_two_slashes)
     <> spec_download_name (JS.lit "edited-image") 1700000000000
          (mimeType image_two_slashes).
Proof.
  split; [vm_compute; reflexivity|]. split; [vm_compute; reflexivity|].
  vm_compute. discriminate.
Qed.

(** * Completion of a flow *)

(** C9: when the awaited request of a flow settles, with whatever outcome,
    the flow restores its own controls: the generation flow enables its
    button and its two inputs unconditionally; the edit flow ends with the
    gated call [setEditUIDisabled(false)], which enables its button and
    input when the original slot holds an image and changes no control when
    it is null. *)
Theorem completion_restores_controls (p : JS.str)
    (og : Outcome GenerateImagesResponse) (oe : Outcome GenerateContentResponse)
    (w : World) :
  (disabled (handleGenerate_settled p og w) GenerateButton = false
   /\ disabled (handleGenerate_settled p og w) GenerationPromptInput = false
   /\ disabled (handleGenerate_settled p og w) AspectRatioSelect = false
   /\ textContent (handleGenerate_settled p og w) GenerateButton = JS.lit "Generate Image")
  /\ (exists w2, handleEdit_settled p oe w = setEditUIDisabled false false w2
                 /\ originalImageState w2 = originalImageState w)
  /\ match originalImageState w with
     | Some _ =>
         disabled (handleEdit_settled p oe w) EditButton = false
         /\ disabled (handleEdit_settled p oe w) EditPromptInput = false
         /\ textContent (handleEdit_settled p oe w) EditButton = JS.lit "Edit Image"
     | None =>
         disabled (handleEdit_settled p oe w) = disabled w
         /\ textContent (handleEdit_settled p oe w) = textContent w
     end.
Proof.
  split.
  { destruct (handleGenerate_settled_shape p og w) as [w1 E]. rewrite E.
    apply setGenerateUIDisabled_controls. }
  destruct (handleEdit_settled_shape p oe w) as [w2 [E R]].
  assert (Ho : originalImageState w2 = originalImageState w) by apply R.
  split; [exists w2; auto|]. rewrite E.
  destruct (originalImageState w) as [i|] eqn:Hw.
  - apply setEditUIDisabled_enable with i. exact Ho.
  - rewrite (setEditUIDisabled_gated w2 Ho).
    destruct R as (_ & Hd & _ & Ht & _). auto.
Qed.

(** * The enablement transition *)

(** C10: in [setEditUIDisabled(disabled, force)] disabling always takes
    effect, whatever the force flag and the original slot; enabling with a
    null original and no force changes nothing at all; enabling with force
    succeeds even when the original slot is null. *)
Theorem setEditUIDisabled_transition (w : World) (force : bool) :
  (disabled (setEditUIDisabled true force w) EditButton = true
   /\ disabled (setEditUIDisabled true force w) EditPromptInput = true
   /\ textContent (setEditUIDisabled true force w) EditButton = JS.lit "Editing...")
  /\ (originalImageState w = None -> setEditUIDisabled false false w = w)
  /\ (disabled (setEditUIDisabled false true w) EditButton = false
      /\ disabled (setEditUIDisabled false true w) EditPromptInput = false
      /\ textContent (setEditUIDisabled false true w) EditButton = JS.lit "Edit Image").
Proof.
  split; [apply setEditUIDisabled_disable|].
  split; [apply setEditUIDisabled_gated | apply setEditUIDisabled_forced].
Qed.

Lemma setEditUIDisabled_transition_witness :
  originalImageState fresh_page = None
  /\ setEditUIDisabled false false fresh_page = fresh_page
  /\ disabled (setEditUIDisabled false true fresh_page) EditButton = false.
Proof.
  pose proof (setEditUIDisabled_transition fresh_page false) as (_ & Hgate & Hforce & _).
  split; [reflexivity|]. split; [apply Hgate; reflexivity | exact Hforce].
Defined.

(** * Further properties of the script *)

(** ** What each function leaves alone *)

Lemma setEditUIDisabled_leaves (d f : bool) (w : World) :
  disabled (setEditUIDisabled d f w) GenerationPromptInput = disabled w GenerationPromptInput
  /\ disabled (setEditUIDisabled d f w) AspectRatioSelect = disabled w AspectRatioSelect
  /\ textContent (setEditUIDisabled d f w) GenerateButton = textContent w GenerateButton
  /\ value (setEditUIDisabled d f w) = value w
  /\ alerts (setEditUIDisabled d f w) = alerts w
  /\ consoleErrors (setEditUIDisabled d f w) = consoleErrors w
  /\ body (setEditUIDisabled d f w) = body w
  /\ downloads (setEditUIDisabled d f w) = downloads w.
Proof.
  unfold setEditUIDisabled.
  destruct (negb d && _ && negb f); unfold_world; simpl; auto 10.
Qed.

Lemma handleGenerate_accepted_rest (w : World) :
  generate_accepted w = true ->
  textContent (handleGenerate w) GenerateButton = JS.lit "Generating..."
  /\ value (handleGenerate w) = value w
  /\ alerts (handleGenerate w) = alerts w
  /\ consoleErrors (handleGenerate w) = consoleErrors w
  /\ body (handleGenerate w) = body w
  /\ downloads (handleGenerate w) = downloads w.
Proof.
  unfold generate_accepted, handleGenerate, found. intros H. open_world w.
  destruct (chi_ OriginalWrapper) eqn:E1; [|discriminate].
  destruct (chi_ EditedWrapper) eqn:E2; [|discriminate].
  destruct (chi_ OriginalSaveContainer) eqn:E3; [|discriminate].
  destruct (chi_ EditedSaveContainer) eqn:E4; [|discriminate].
  simpl in H. rewrite H. crunch. repeat split; reflexivity.
Qed.

Lemma handleEdit_leaves (w : World) :
  originalImageState (handleEdit w) = originalImageState w
  /\ children (handleEdit w) OriginalWrapper = children w OriginalWrapper
  /\ children (handleEdit w) OriginalSaveContainer = children w OriginalSaveContainer
  /\ disabled (handleEdit w) GenerateButton = disabled w GenerateButton
  /\ disabled (handleEdit w) GenerationPromptInput = disabled w GenerationPromptInput
  /\ disabled (handleEdit w) AspectRatioSelect = disabled w AspectRatioSelect
  /\ textContent (handleEdit w) GenerateButton = textContent w GenerateButton
  /\ value (handleEdit w) = value w
  /\ body (handleEdit w) = body w
  /\ downloads (handleEdit w) = downloads w.
Proof.
  unfold handleEdit, found. open_world w.
  destruct (chi_ EditedWrapper) eqn:E1; destruct (chi_ EditedSaveContainer) eqn:E2;
    destruct o_ as [orig|];
    destruct (JS.truthy (JS.trim (val_ EditPromptInput)));
    crunch; repeat split; reflexivity.
Qed.

Lemma handleEdit_accepted_rest (w : World) :
  edit_accepted w = true ->
  alerts (handleEdit w) = alerts w
  /\ consoleErrors (handleEdit w) = consoleErrors w.
Proof.
  unfold edit_accepted, handleEdit, found. intros H. open_world w.
  destruct (chi_ EditedWrapper) eqn:E1; [|discriminate].
  destruct (chi_ EditedSaveContainer) eqn:E2; [|discriminate].
  destruct o_ as [orig|]; [|discriminate].
  simpl in H. rewrite H. crunch. split; reflexivity.
Qed.

Lemma handleEdit_settled_leaves (p : JS.str) (o : Outcome GenerateContentResponse)
    (w : World) :
  originalImageState (handleEdit_settled p o w) = originalImageState w
  /\ children (handleEdit_settled p o w) OriginalWrapper = children w OriginalWrapper
  /\ children (handleEdit_settled p o w) OriginalSaveContainer
     = children w OriginalSaveContainer
  /\ disabled (handleEdit_settled p o w) GenerateButton = disabled w GenerateButton
  /\ disabled (handleEdit_settled p o w) GenerationPromptInput
     = disabled w GenerationPromptInput
  /\ disabled (handleEdit_settled p o w) AspectRatioSelect = disabled w AspectRatioSelect
  /\ textContent (handleEdit_settled p o w) GenerateButton = textContent w GenerateButton
  /\ value (handleEdit_settled p o w) = value w
  /\ alerts (handleEdit_settled p o w) = alerts w
  /\ requests (handleEdit_settled p o w) = requests w
  /\ awaiting (handleEdit_settled p o w) = awaiting w
  /\ body (handleEdit_settled p o w) = body w
  /\ downloads (handleEdit_settled p o w) = downloads w.
Proof.
  destruct (handleEdit_settled_shape p o w) as [w2 [E R]]. rewrite E.
  destruct R as (Ro & Rd & Rv & Rt & Rb & Ra & Rr & Raw & Rdl & _ & Rc1 & Rc2).
  pose proof (setEditUIDisabled_frame false false w2) as (Fo & _ & Fc & Faw & Fr & Fg).
  pose proof (setEditUIDisabled_leaves false false w2)
    as (Lp & La & Lt & Lv & Lal & _ & Lb & Ldl).
  rewrite Fo, Fc, Faw, Fr, Fg, Lp, La, Lt, Lv, Lal, Lb, Ldl.
  rewrite Rd, Rt. repeat split; assumption.
Qed.

Lemma handleGenerate_settled_leaves (p : JS.str) (o : Outcome GenerateImagesResponse)
    (w : World) :
  editedImageState (handleGenerate_settled p o w) = editedImageState w
  /\ children (handleGenerate_settled p o w) EditedWrapper = children w EditedWrapper
  /\ children (handleGenerate_settled p o w) EditedSaveContainer
     = children w EditedSaveContainer
  /\ value (handleGenerate_settled p o w) = value w
  /\ alerts (handleGenerate_settled p o w) = alerts w
  /\ requests (handleGenerate_settled p o w) = requests w
  /\ awaiting (handleGenerate_settled p o w) = awaiting w
  /\ body (handleGenerate_settled p o w) = body w
  /\ downloads (handleGenerate_settled p o w) = downloads w.
Proof.
  unfold handleGenerate_settled, generate_body. open_world w.
  destruct o as [r|e].
  - destruct (generated_data r) as [img|]; [destruct (imageBytes img) as [b|];
      [destruct (JS.truthy b)|]|];
      crunch; repeat split; reflexivity.
  - crunch. repeat split; reflexivity.
Qed.

(** X13: the edit flow, at its start and when its request settles with
    whatever outcome, never writes the original slot, the original-image
    region, its save container or the controls of the generation form. *)
Theorem edit_flow_keeps_original (p : JS.str) (o : Outcome GenerateContentResponse)
    (w : World) :
  (originalImageState (handleEdit w) = originalImageState w
   /\ children (handleEdit w) OriginalWrapper = children w OriginalWrapper
   /\ children (handleEdit w) OriginalSaveContainer = children w OriginalSaveContainer
   /\ disabled (handleEdit w) GenerateButton = disabled w GenerateButton
   /\ disabled (handleEdit w) GenerationPromptInput = disabled w GenerationPromptInput
   /\ disabled (handleEdit w) AspectRatioSelect = disabled w AspectRatioSelect
   /\ textContent (handleEdit w) GenerateButton = textContent w GenerateButton)
  /\ (originalImageState (handleEdit_settled p o w) = originalImageState w
      /\ children (handleEdit_settled p o w) OriginalWrapper = children w OriginalWrapper
      /\ children (handleEdit_settled p o w) OriginalSaveContainer
         = children w OriginalSaveContainer
      /\ disabled (handleEdit_settled p o w) GenerateButton = disabled w GenerateButton
      /\ disabled (handleEdit_settled p o w) GenerationPromptInput
         = disabled w GenerationPromptInput
      /\ disabled (handleEdit_settled p o w) AspectRatioSelect
         = disabled w AspectRatioSelect
      /\ textContent (handleEdit_settled p o w) GenerateButton
         = textContent w GenerateButton).
Proof.
  split.
  - pose proof (handleEdit_leaves w) as H. intuition.
  - pose proof (handleEdit_settled_leaves p o w) as H. intuition.
Qed.

(** X14: when the generation request settles, with whatever outcome, the
    handler never writes the edited slot, the edited-image region or its
    save container. *)
Theorem generation_settlement_keeps_edited (p : JS.str)
    (o : Outcome GenerateImagesResponse) (w : World) :
  editedImageState (handleGenerate_settled p o w) = editedImageState w
  /\ children (handleGenerate_settled p o w) EditedWrapper = children w EditedWrapper
  /\ children (handleGenerate_settled p o w) EditedSaveContainer
     = children w EditedSaveContainer.
Proof. pose proof (handleGenerate_settled_leaves p o w) as H. intuition. Qed.

(** X15: no retry.  Once its request has settled, neither handler makes
    another client request, suspends again or shows an alert, whether the
    request succeeded or failed. *)
Theorem settlement_makes_no_request (p : JS.str)
    (og : Outcome GenerateImagesResponse) (oe : Outcome GenerateContentResponse)
    (w : World) :
  (requests (handleGenerate_settled p og w) = requests w
   /\ awaiting (handleGenerate_settled p og w) = awaiting w
   /\ alerts (handleGenerate_settled p og w) = alerts w)
  /\ (requests (handleEdit_settled p oe w) = requests w
      /\ awaiting (handleEdit_settled p oe w) = awaiting w
      /\ alerts (handleEdit_settled p oe w) = alerts w).
Proof.
  split.
  - pose proof (handleGenerate_settled_leaves p og w) as H. intuition.
  - pose proof (handleEdit_settled_leaves p oe w) as H. intuition.
Qed.

(** ** Missing containers *)

(** X1: when one of the containers a handler looks up is missing from the
    page, the handler only logs to the console: whatever the prompt, the
    instruction and the original slot, it shows no alert, makes no request
    and changes no slot, control or container. *)
Theorem missing_container_guard (w : World) :
  (found OriginalWrapper w && found EditedWrapper w
   && found OriginalSaveContainer w && found EditedSaveContainer w = false ->
   handleGenerate w = console_error (JS.lit "Required DOM elements not found.") w)
  /\ (found EditedWrapper w && found EditedSaveContainer w = false ->
      handleEdit w = console_error (JS.lit "Required DOM elements not found.") w)
  /\ unchanged w (console_error (JS.lit "Required DOM elements not found.") w)
  /\ alerts (console_error (JS.lit "Required DOM elements not found.") w) = alerts w
  /\ consoleErrors (console_error (JS.lit "Required DOM elements not found.") w)
     = consoleErrors w ++ [JS.lit "Required DOM elements not found."].
Proof.
  split; [|split; [|split; [apply unchanged_console_error | split; reflexivity]]].
  - intros H. unfold handleGenerate.
    destruct (found OriginalWrapper w), (found EditedWrapper w),
      (found OriginalSaveContainer w), (found EditedSaveContainer w);
      try discriminate; reflexivity.
  - intros H. unfold handleEdit.
    destruct (found EditedWrapper w), (found EditedSaveContainer w);
      try discriminate; reflexivity.
Qed.

Lemma missing_container_guard_witness :
  generate_accepted
    (dispatch (UserInput GenerationPromptInput (JS.lit "a dog")) page_with_original)
  = true
  /\ handleGenerate
       (dispatch (UserInput GenerationPromptInput (JS.lit "a dog"))
          page_without_edited_wrapper)
     = console_error (JS.lit "Required DOM elements not found.")
         (dispatch (UserInput GenerationPromptInput (JS.lit "a dog"))
            page_without_edited_wrapper)
  /\ handleEdit page_without_edited_wrapper
     = console_error (JS.lit "Required DOM elements not found.") page_without_edited_wrapper.
Proof.
  split; [reflexivity|]. split.
  - apply (missing_container_guard
             (dispatch (UserInput GenerationPromptInput (JS.lit "a dog"))
                page_without_edited_wrapper)). reflexivity.
  - apply (missing_container_guard page_without_edited_wrapper). reflexivity.
Defined.

(** ** Rendering of an edit response *)

Lemma process_part_step (p : JS.str) (part : Part) (w : World) (b : bool)
    (cw cs : option (list Node)) :
  children w EditedWrapper = cw ->
  children w EditedSaveContainer = cs ->
  children (fst (process_part p part (w, b))) EditedWrapper
  = match inlineData part with
    | Some blob => option_map (fun c => image_node p blob :: c) cw
    | None =>
        match text part with
        | Some t => if JS.truthy t then option_map (fun c => c ++ [P t]) cw else cw
        | None => cw
        end
    end
  /\ children (fst (process_part p part (w, b))) EditedSaveContainer
     = match inlineData part with
       | Some blob => option_map (fun _ => [save_button blob (JS.lit "edited-image")]) cs
       | None => cs
       end
  /\ editedImageState (fst (process_part p part (w, b)))
     = match inlineData part with
       | Some blob => Some blob
       | None => editedImageState w
       end
  /\ snd (process_part p part (w, b))
     = match inlineData part with Some _ => true | None => b end
  /\ consoleErrors (fst (process_part p part (w, b))) = consoleErrors w.
Proof.
  intros Hw Hs. unfold process_part, image_node, save_button.
  destruct (inlineData part) as [[d m]|].
  - open_world w. subst cw cs.
    destruct (chi_ EditedWrapper) eqn:E1; destruct (chi_ EditedSaveContainer) eqn:E2;
      crunch; repeat split; reflexivity.
  - destruct (text part) as [t|]; [destruct (JS.truthy t)|]; cbn [fst snd];
      try (repeat split; assumption).
    open_world w. subst cw cs.
    destruct (chi_ EditedWrapper) eqn:E1; crunch; repeat split; reflexivity.
Qed.

(** The loop, on any list of parts: images pile up at the top, last one
    first; texts follow what was there, in order; the slot and the save
    button are those of the last image. *)
Lemma process_parts_result (p : JS.str) (ps : list Part) :
  forall (w : World) (b : bool) (cw cs : option (list Node)),
    children w EditedWrapper = cw ->
    children w EditedSaveContainer = cs ->
    children (fst (process_parts p ps (w, b))) EditedWrapper
    = option_map (fun c => rev (List.map (image_node p) (images_of ps)) ++ c
                           ++ List.map P (texts_of ps)) cw
    /\ children (fst (process_parts p ps (w, b))) EditedSaveContainer
       = match last_image ps with
         | Some i => option_map (fun _ => [save_button i (JS.lit "edited-image")]) cs
         | None => cs
         end
    /\ editedImageState (fst (process_parts p ps (w, b)))
       = match last_image ps with
         | Some i => Some i
         | None => editedImageState w
         end
    /\ snd (process_parts p ps (w, b))
       = match last_image ps with Some _ => true | None => b end
    /\ consoleErrors (fst (process_parts p ps (w, b))) = consoleErrors w.
Proof.
  unfold process_parts.
  induction ps as [|part ps IH]; intros w b cw cs Hw Hs; cbn [fold_left].
  - cbn [images_of texts_of last_image List.map rev fst snd app].
    repeat split; try assumption.
    rewrite Hw. destruct cw; cbn [option_map]; [rewrite app_nil_r|]; reflexivity.
  - destruct (@process_part_step p part w b cw cs Hw Hs) as (S1 & S2 & S3 & S4 & S5).
    destruct (process_part p part (w, b)) as [w1 b1]. cbn [fst snd] in *.
    destruct (IH w1 b1 _ _ S1 S2) as (I1 & I2 & I3 & I4 & I5).
    rewrite I1, I2, I3, I4, I5, S3, S4, S5. clear I1 I2 I3 I4 I5 S1 S2 S3 S4 S5 IH.
    cbn [images_of texts_of last_image].
    destruct (inlineData part) as [blob|].
    + repeat split.
      * destruct cw; cbn [option_map List.map rev]; [|reflexivity].
        rewrite <- app_assoc. reflexivity.
      * destruct (last_image ps); destruct cs; reflexivity.
      * destruct (last_image ps); reflexivity.
      * destruct (last_image ps); reflexivity.
    + repeat split; try (destruct (last_image ps); reflexivity).
      destruct (text part) as [t|]; [destruct (JS.truthy t)|]; try reflexivity.
      destruct cw; cbn [option_map List.map]; [|reflexivity].
      rewrite <- !app_assoc. reflexivity.
Qed.

Lemma edit_body_prologue (p : JS.str) (w : World) :
  let wa := appendChild EditedWrapper (edit_line p) (assign_innerHTML EditedWrapper [] w) in
  children wa EditedWrapper = option_map (fun _ => [edit_line p]) (children w EditedWrapper)
  /\ children wa EditedSaveContainer = children w EditedSaveContainer
  /\ editedImageState wa = editedImageState w
  /\ consoleErrors wa = consoleErrors w.
Proof.
  open_world w. destruct (chi_ EditedWrapper) eqn:E1; crunch; repeat split; reflexivity.
Qed.

Lemma handleEdit_settled_with_image (w : World) (r : GenerateContentResponse) (p : JS.str)
    (i : Image) :
  found EditedWrapper w = true ->
  found EditedSaveContainer w = true ->
  last_image (response_parts r) = Some i ->
  let w' := handleEdit_settled p (Fulfilled r) w in
  editedImageState w' = Some i
  /\ children w' EditedWrapper
     = Some (rev (List.map (image_node p) (images_of (response_parts r)))
             ++ edit_line p :: List.map P (texts_of (response_parts r)))
  /\ children w' EditedSaveContainer = Some [save_button i (JS.lit "edited-image")]
  /\ consoleErrors w' = consoleErrors w.
Proof.
  intros F1 F2 Hl w'. unfold found in F1, F2.
  destruct (children w EditedWrapper) as [c|] eqn:E1; [|discriminate].
  destruct (children w EditedSaveContainer) as [s|] eqn:E2; [|discriminate].
  pose proof (edit_body_prologue p w) as A. cbv zeta in A. rewrite E1, E2 in A.
  cbn [option_map] in A. destruct A as (A1 & A2 & A3 & A4).
  unfold w', handleEdit_settled, try_catch_finally, edit_body, seq, run.
  fold (edit_line p).
  destruct (@process_parts_result p (response_parts r) _ false _ _ A1 A2)
    as (R1 & R2 & R3 & R4 & R5).
  rewrite Hl in R2, R3, R4.
  destruct (process_parts p (response_parts r) _) as [w1 b1]. cbn [fst snd] in *.
  subst b1. cbn [negb].
  pose proof (setEditUIDisabled_frame false false w1) as (_ & Fe & Fc & _).
  pose proof (setEditUIDisabled_leaves false false w1) as (_ & _ & _ & _ & _ & Lc & _).
  rewrite Fe, Fc, Lc, R1, R2, R3, R5, A4. cbn [option_map app]. auto.
Qed.

(** X2: for every edit response with at least one image part, whatever its
    parts, once the handler has processed it the edited slot and the save
    button hold the last image part, and the edit region shows the images
    (the last one first), then the instruction line, then the non-empty
    texts of the parts without image, in order; nothing is logged. *)
Theorem edit_response_rendering (w : World) (r : GenerateContentResponse) (p : JS.str)
    (i : Image) :
  found EditedWrapper w = true ->
  found EditedSaveContainer w = true ->
  last_image (response_parts r) = Some i ->
  let w' := handleEdit_settled p (Fulfilled r) w in
  editedImageState w' = Some i
  /\ children w' EditedWrapper
     = Some (rev (List.map (image_node p) (images_of (response_parts r)))
             ++ edit_line p :: List.map P (texts_of (response_parts r)))
  /\ children w' EditedSaveContainer = Some [save_button i (JS.lit "edited-image")]
  /\ consoleErrors w' = consoleErrors w.
Proof. exact (@handleEdit_settled_with_image w r p i). Qed.

Lemma edit_response_rendering_witness :
  let ps := [image_part image_X; text_part []; text_part (JS.lit "done");
             {| inlineData := Some image_Y; text := Some (JS.lit "ignored") |}] in
  let w' := handleEdit_settled (JS.lit "add a hat") (Fulfilled (edit_response ps))
              (handleEdit page_with_original) in
  editedImageState w' = Some image_Y
  /\ children w' EditedWrapper
     = Some [image_node (JS.lit "add a hat") image_Y;
             image_node (JS.lit "add a hat") image_X;
             edit_line (JS.lit "add a hat"); P (JS.lit "done")].
Proof.
  pose proof (edit_response_rendering (handleEdit page_with_original)
                (edit_response
                   [image_part image_X; text_part []; text_part (JS.lit "done");
                    {| inlineData := Some image_Y; text := Some (JS.lit "ignored") |}])
                (JS.lit "add a hat") (i := image_Y) eq_refl eq_refl eq_refl) as H.
  cbv zeta in H. destruct H as (H1 & H2 & _).
  cbv zeta. split; assumption.
Defined.

(** ** A rejected edit request *)

Lemma handleEdit_settled_rejected (p : JS.str) (e : Thrown) (w : World) :
  let w' := handleEdit_settled p (Rejected e) w in
  children w' EditedWrapper
  = option_map (fun _ => [Markup (error_markup (errorMessage e))]) (children w EditedWrapper)
  /\ children w' EditedSaveContainer = children w EditedSaveContainer
  /\ editedImageState w' = editedImageState w
  /\ consoleErrors w' = consoleErrors w ++ [JS.lit "An error occurred during editing:"]
  /\ (originalImageState w <> None ->
      disabled w' EditButton = false
      /\ disabled w' EditPromptInput = false
      /\ textContent w' EditButton = JS.lit "Edit Image").
Proof.
  unfold handleEdit_settled. open_world w.
  destruct o_ as [orig|]; destruct (chi_ EditedWrapper) eqn:E1; crunch;
    (split; [reflexivity|]); (split; [reflexivity|]); (split; [reflexivity|]);
    (split; [reflexivity|]); intros Hn;
    first [ exfalso; apply Hn; reflexivity | repeat split; reflexivity ].
Qed.

(** ** The extension of a download *)

Lemma up_to_slash_no_slash (s : JS.str) : ~ In 47%N (up_to_slash s).
Proof.
  induction s as [|c s IH]; simpl; [tauto|].
  destruct (c =? 47)%N eqn:E; simpl; [tauto|].
  intros [H|H]; [subst c; discriminate | apply IH, H].
Qed.

(** X7: whatever the mime type, the extension put in a download name is not
    empty and contains no slash. *)
Theorem extension_is_a_suffix (m : JS.str) :
  extension m <> [] /\ ~ In 47%N (extension m).
Proof.
  unfold extension. rewrite split_second. unfold subtype_segment.
  destruct (substring_after_slash m) as [s|]; cbn [option_map JS.or_else].
  - destruct (up_to_slash s) as [|c seg] eqn:E; cbn [JS.truthy].
    + split; [discriminate|]. vm_compute. intuition discriminate.
    + split; [discriminate|]. rewrite <- E. apply up_to_slash_no_slash.
  - split; [discriminate|]. vm_compute. intuition discriminate.
Qed.

(** ** Trimmed request texts *)

Lemma trimStart_head (s : JS.str) (c : N) (rest : JS.str) :
  JS.trimStart s = c :: rest -> JS.is_space c = false.
Proof.
  induction s as [|a s IH]; simpl; [discriminate|].
  destruct (JS.is_space a) eqn:E; [exact IH|].
  intros H. injection H as -> _. exact E.
Qed.

Lemma trimEnd_prefix (t : JS.str) : exists suf, t = JS.trimEnd t ++ suf.
Proof.
  unfold JS.trimEnd. destruct (trimStart_suffix (rev t)) as [pre [E _]].
  exists (rev pre). rewrite <- rev_app_distr, <- E, rev_involutive. reflexivity.
Qed.

Lemma trim_trimmed (s : JS.str) : trimmed (JS.trim s).
Proof.
  unfold trimmed, JS.trim. split.
  - intros c rest H. destruct (trimEnd_prefix (JS.trimStart s)) as [suf E].
    rewrite H in E. simpl in E. apply (trimStart_head s E).
  - intros c init H. unfold JS.trimEnd in H.
    apply (f_equal (@rev N)) in H. rewrite rev_involutive, rev_app_distr in H.
    simpl in H. apply (trimStart_head _ H).
Qed.

(** X8: the prompt a generation request carries and the instruction an edit
    request carries are the field values trimmed: never empty, never
    starting or ending with white space; the generation request asks for
    one JPEG image with the aspect ratio as selected, and the edit request
    carries the bytes and mime type of the original slot. *)
Theorem requests_carry_trimmed_text (w : World) :
  (generate_accepted w = true ->
   exists req,
     requests (handleGenerate w) = requests w ++ [GenerateImages req]
     /\ gi_prompt req <> [] /\ trimmed (gi_prompt req)
     /\ gi_prompt req = JS.trim (value w GenerationPromptInput)
     /\ gi_aspectRatio req = value w AspectRatioSelect
     /\ gi_numberOfImages req = 1%N
     /\ gi_outputMimeType req = JS.lit "image/jpeg"
     /\ gi_model req = imageGenerationModel)
  /\ (edit_accepted w = true ->
      exists orig t,
        originalImageState w = Some orig
        /\ requests (handleEdit w)
           = requests w
             ++ [GenerateContent
                   {| gc_model := imageEditModel;
                      gc_parts := [InlineDataPart (data orig) (mimeType orig); TextPart t];
                      gc_responseModalities := [IMAGE; TEXT] |}]
        /\ t <> [] /\ trimmed t /\ t = JS.trim (value w EditPromptInput)).
Proof.
  split.
  - intros Ha. pose proof (handleGenerate_start w Ha) as S. cbv zeta in S.
    destruct S as (_ & _ & _ & _ & _ & _ & _ & _ & _ & _ & _ & _ & _ & Sr).
    eexists. split; [exact Sr|]. cbn [gi_prompt gi_aspectRatio gi_numberOfImages
                                      gi_outputMimeType gi_model].
    split.
    { unfold generate_accepted in Ha. apply andb_true_iff in Ha as [_ Ht].
      destruct (JS.trim (value w GenerationPromptInput)); [discriminate | discriminate]. }
    split; [apply trim_trimmed|]. repeat split; reflexivity.
  - intros Ha. destruct (edit_accepted_original w Ha) as [orig Ho].
    pose proof (handleEdit_start w Ha Ho) as S. cbv zeta in S.
    destruct S as (_ & _ & _ & _ & _ & _ & _ & _ & _ & Sr).
    exists orig, (JS.trim (value w EditPromptInput)).
    split; [exact Ho|]. split; [exact Sr|]. split.
    { unfold edit_accepted in Ha. apply andb_true_iff in Ha as [_ Ht].
      destruct (JS.trim (value w EditPromptInput)); [discriminate | discriminate]. }
    split; [apply trim_trimmed | reflexivity].
Qed.

Lemma requests_carry_trimmed_text_witness :
  (exists req,
      requests (handleGenerate
                  (dispatch (UserInput GenerationPromptInput (JS.lit "  a dog  "))
                     page_with_original))
      = requests (dispatch (UserInput GenerationPromptInput (JS.lit "  a dog  "))
                    page_with_original)
        ++ [GenerateImages req]
      /\ gi_prompt req <> [])
  /\ (exists req, requests (handleEdit page_with_original)
                  = requests page_with_original ++ [GenerateContent req]).
Proof.
  assert (Hg : generate_accepted
                 (dispatch (UserInput GenerationPromptInput (JS.lit "  a dog  "))
                    page_with_original) = true) by (vm_compute; reflexivity).
  assert (He : edit_accepted page_with_original = true) by (vm_compute; reflexivity).
  split.
  - destruct (proj1 (requests_carry_trimmed_text
                       (dispatch (UserInput GenerationPromptInput (JS.lit "  a dog  "))
                          page_with_original)) Hg)
      as (req & H1 & H2 & _).
    exists req. split; [exact H1 | exact H2].
  - destruct (proj2 (requests_carry_trimmed_text page_with_original) He)
      as (orig & t & _ & H1 & _).
    eexists. exact H1.
Defined.

(** ** A whole generation, driven by the page *)

Lemma nth_error_last {A} (l : list A) (k : A) :
  nth_error (l ++ [k]) (List.length l) = Some k
  /\ remove_nth (List.length l) (l ++ [k]) = l.
Proof.
  unfold remove_nth. induction l as [|a l [IH1 IH2]]; simpl; [auto|].
  split; [exact IH1 | f_equal; exact IH2].
Qed.

Lemma generation_round (w : World) (r : GenerateImagesResponse)
    (img : GeneratedImageData) (b : JS.str) :
  disabled w GenerateButton = false ->
  generate_accepted w = true ->
  generated_data r = Some img ->
  imageBytes img = Some b ->
  JS.truthy b = true ->
  let m := JS.or_else (gi_mimeType img) (JS.lit "image/jpeg") in
  let p := JS.trim (value w GenerationPromptInput) in
  let w2 := dispatch (SettleGenerate (List.length (awaiting w)) (Fulfilled r))
              (dispatch ClickGenerate w) in
  originalImageState w2 = Some {| data := b; mimeType := m |}
  /\ editedImageState w2 = None
  /\ children w2 OriginalWrapper
     = Some [Img (data_url m b) p; P (JS.lit "Prompt: " ++ JS.dq ++ p ++ JS.dq)]
  /\ children w2 OriginalSaveContainer
     = Some [save_button {| data := b; mimeType := m |} (JS.lit "original-image")]
  /\ children w2 EditedWrapper = Some []
  /\ children w2 EditedSaveContainer = Some []
  /\ disabled w2 EditButton = false
  /\ disabled w2 EditPromptInput = false
  /\ disabled w2 GenerateButton = false
  /\ value w2 = value w
  /\ requests w2
     = requests w
       ++ [GenerateImages
             {| gi_model := imageGenerationModel;
                gi_prompt := p;
                gi_numberOfImages := 1;
                gi_outputMimeType := JS.lit "image/jpeg";
                gi_aspectRatio := value w AspectRatioSelect |}]
  /\ awaiting w2 = awaiting w
  /\ downloads w2 = downloads w
  /\ body w2 = body w
  /\ alerts w2 = alerts w.
Proof.
  intros Hd Ha Hg Hb Ht m p w2.
  pose proof (handleGenerate_start w Ha) as S. cbv zeta in S.
  destruct S as (_ & Se & _ & S2 & _ & S4 & _ & _ & _ & _ & _ & _ & Saw & Sr).
  pose proof (handleGenerate_start w Ha) as S'. cbv zeta in S'.
  destruct S' as (_ & _ & S1 & _ & S3 & _).
  pose proof (handleGenerate_accepted_rest w Ha) as (_ & Sv & Sal & _ & Sb & Sdl).
  destruct (nth_error_last (awaiting w) (AwaitGenerate p)) as [N1 N2].
  assert (E : w2 = handleGenerate_settled p (Fulfilled r)
                     (set_awaiting (awaiting w) (handleGenerate w))).
  { unfold w2. cbn [dispatch]. rewrite Hd, Saw. fold p. rewrite N1, N2. reflexivity. }
  set (w1 := set_awaiting (awaiting w) (handleGenerate w)) in E.
  pose proof (handleGenerate_settled_success p r w1 Hg Hb Ht) as G. cbv zeta in G.
  fold m in G. rewrite <- E in G.
  destruct G as (Go & _ & Gd1 & Gd2 & _ & Gg & _ & Gc1 & Gc2).
  pose proof (handleGenerate_settled_leaves p (Fulfilled r) w1) as L. rewrite <- E in L.
  destruct L as (Le & Lc1 & Lc2 & Lv & Lal & Lr & Law & Lb & Ldl).
  unfold w1 in *. cbn [children set_awaiting editedImageState value alerts requests
                        awaiting body downloads] in *.
  rewrite S1 in Gc1. rewrite S3 in Gc2. cbn [option_map] in Gc1, Gc2.
  unfold save_button.
  repeat split; try assumption; try congruence.
  rewrite Lr. exact Sr.
Qed.

(** X5: after a successful generation a click on the save button of the
    original region downloads exactly the stored image, as a data URL of
    its mime type and bytes, under the name original-image, "-", the
    time in milliseconds, ".", the extension of the mime type; without a
    mime type in the response the stored type is image/jpeg and the
    extension jpeg.  The page is otherwise as before the click. *)
Theorem save_after_generation (w : World) (r : GenerateImagesResponse)
    (img : GeneratedImageData) (b : JS.str) (now : Z) :
  disabled w GenerateButton = false ->
  generate_accepted w = true ->
  generated_data r = Some img ->
  imageBytes img = Some b ->
  b <> [] ->
  let m := JS.or_else (gi_mimeType img) (JS.lit "image/jpeg") in
  let w2 := dispatch (SettleGenerate (List.length (awaiting w)) (Fulfilled r))
              (dispatch ClickGenerate w) in
  let w3 := dispatch (ClickSave OriginalSaveContainer now) w2 in
  downloads w3
  = downloads w
    ++ [(data_url m b,
         JS.lit "original-image" ++ JS.lit "-" ++ JS.of_integer now ++ JS.lit "."
         ++ extension m)]
  /\ (gi_mimeType img = None -> m = JS.lit "image/jpeg" /\ extension m = JS.lit "jpeg")
  /\ body w3 = body w
  /\ originalImageState w3 = Some {| data := b; mimeType := m |}
  /\ disabled w3 = disabled w2.
Proof.
  intros Hd Ha Hg Hb Hne m w2 w3.
  assert (Ht : JS.truthy b = true) by (destruct b; [contradiction | reflexivity]).
  pose proof (generation_round w r Hd Ha Hg Hb Ht) as G. cbv zeta in G.
  fold m in G. fold w2 in G.
  destruct G as (Go & _ & _ & Gs & _ & _ & _ & _ & _ & _ & _ & _ & Gdl & Gb & _).
  assert (E : w3 = downloadImage (Some {| data := b; mimeType := m |})
                     (JS.lit "original-image") now w2).
  { unfold w3. cbn [dispatch]. rewrite Gs. reflexivity. }
  pose proof (downloadImage_effect {| data := b; mimeType := m |}
                (JS.lit "original-image") now w2) as D.
  rewrite <- E in D. destruct D as (D1 & D2 & D3 & _ & D5 & _).
  cbn [data mimeType] in D1. unfold download_name in D1.
  split; [rewrite D1, Gdl; reflexivity|].
  split; [intros Hm; unfold m; rewrite Hm; split; reflexivity|].
  split; [congruence|]. split; [congruence | exact D5].
Qed.

Lemma save_after_generation_witness :
  let w := dispatch (UserInput GenerationPromptInput (JS.lit "a cat")) fresh_page in
  let r := {| generatedImages :=
                Some [ {| image := Some {| imageBytes := Some (JS.lit "Qw==");
                                           gi_mimeType := None |} |} ] |} in
  let w3 := dispatch (ClickSave OriginalSaveContainer 1700000000000)
              (dispatch (SettleGenerate (List.length (awaiting w)) (Fulfilled r))
                 (dispatch ClickGenerate w)) in
  downloads w3
  = downloads w
    ++ [(data_url (JS.lit "image/jpeg") (JS.lit "Qw=="),
         JS.lit "original-image" ++ JS.lit "-" ++ JS.of_integer 1700000000000 ++ JS.lit "."
         ++ extension (JS.lit "image/jpeg"))].
Proof.
  assert (Hne : JS.lit "Qw==" <> []) by discriminate.
  pose proof (@save_after_generation
                (dispatch (UserInput GenerationPromptInput (JS.lit "a cat")) fresh_page)
                {| generatedImages :=
                     Some [ {| image := Some {| imageBytes := Some (JS.lit "Qw==");
                                                gi_mimeType := None |} |} ] |}
                {| imageBytes := Some (JS.lit "Qw=="); gi_mimeType := None |}
                (JS.lit "Qw==") 1700000000000 eq_refl eq_refl eq_refl eq_refl Hne) as H.
  cbv zeta in H. destruct H as (H1 & _). cbv zeta. exact H1.
Defined.

(** X6: after an edit response with an image has been processed, a click
    on the save button of the edited region downloads the last image of the
    response under the name edited-image, "-", the time in milliseconds,
    ".", the extension of its mime type; the slots and the body of the
    document are as before the click. *)
Theorem save_after_edit (w : World) (r : GenerateContentResponse) (p : JS.str)
    (i : Image) (now : Z) :
  found EditedWrapper w = true ->
  found EditedSaveContainer w = true ->
  last_image (response_parts r) = Some i ->
  let w' := handleEdit_settled p (Fulfilled r) w in
  let w'' := dispatch (ClickSave EditedSaveContainer now) w' in
  downloads w''
  = downloads w
    ++ [(data_url (mimeType i) (data i),
         JS.lit "edited-image" ++ JS.lit "-" ++ JS.of_integer now ++ JS.lit "."
         ++ extension (mimeType i))]
  /\ body w'' = body w
  /\ editedImageState w'' = Some i
  /\ originalImageState w'' = originalImageState w.
Proof.
  intros F1 F2 Hl w' w''.
  pose proof (handleEdit_settled_with_image w r p F1 F2 Hl) as H. cbv zeta in H.
  fold w' in H. destruct H as (He & _ & Hs & _).
  pose proof (handleEdit_settled_leaves p (Fulfilled r) w) as L. fold w' in L.
  destruct L as (Lo & _ & _ & _ & _ & _ & _ & _ & _ & _ & _ & Lb & Ldl).
  assert (E : w'' = downloadImage (Some i) (JS.lit "edited-image") now w').
  { unfold w''. cbn [dispatch]. rewrite Hs. reflexivity. }
  pose proof (downloadImage_effect i (JS.lit "edited-image") now w') as D.
  rewrite <- E in D. destruct D as (D1 & D2 & D3 & D4 & _).
  unfold download_name in D1.
  split; [rewrite D1, Ldl; reflexivity|]. repeat split; congruence.
Qed.

Lemma save_after_edit_witness :
  let w := handleEdit page_with_original in
  let w'' := dispatch (ClickSave EditedSaveContainer 1700000000000)
               (handleEdit_settled (JS.lit "add a hat")
                  (Fulfilled (edit_response [image_part image_X; image_part image_Y])) w) in
  downloads w''
  = downloads w
    ++ [(data_url (mimeType image_Y) (data image_Y),
         JS.lit "edited-image" ++ JS.lit "-" ++ JS.of_integer 1700000000000 ++ JS.lit "."
         ++ extension (mimeType image_Y))].
Proof.
  pose proof (@save_after_edit (handleEdit page_with_original)
                (edit_response [image_part image_X; image_part image_Y])
                (JS.lit "add a hat") image_Y 1700000000000 eq_refl eq_refl eq_refl) as H.
  cbv zeta in H. destruct H as (H1 & _). cbv zeta. exact H1.
Defined.

(** X4: generate, then edit.  When a generation succeeds and the user then
    types a non-blank instruction and clicks Edit, the edit request carries
    exactly the bytes and mime type the generation stored, and the
    instruction trimmed; the edit is then the only request in flight beside
    those already there, with its button disabled. *)
Theorem edit_request_carries_generated_image (w : World) (r : GenerateImagesResponse)
    (img : GeneratedImageData) (b v : JS.str) :
  disabled w GenerateButton = false ->
  generate_accepted w = true ->
  generated_data r = Some img ->
  imageBytes img = Some b ->
  b <> [] ->
  JS.trim v <> [] ->
  let m := JS.or_else (gi_mimeType img) (JS.lit "image/jpeg") in
  let w4 := dispatch_all
              [ClickGenerate;
               SettleGenerate (List.length (awaiting w)) (Fulfilled r);
               UserInput EditPromptInput v;
               ClickEdit] w in
  requests w4
  = requests w
    ++ [GenerateImages
          {| gi_model := imageGenerationModel;
             gi_prompt := JS.trim (value w GenerationPromptInput);
             gi_numberOfImages := 1;
             gi_outputMimeType := JS.lit "image/jpeg";
             gi_aspectRatio := value w AspectRatioSelect |};
        GenerateContent
          {| gc_model := imageEditModel;
             gc_parts := [InlineDataPart b m; TextPart (JS.trim v)];
             gc_responseModalities := [IMAGE; TEXT] |}]
  /\ awaiting w4 = awaiting w ++ [AwaitEdit (JS.trim v)]
  /\ originalImageState w4 = Some {| data := b; mimeType := m |}
  /\ editedImageState w4 = None
  /\ disabled w4 EditButton = true.
Proof.
  intros Hd Ha Hg Hb Hne Hv m w4.
  assert (Ht : JS.truthy b = true) by (destruct b; [contradiction | reflexivity]).
  pose proof (generation_round w r Hd Ha Hg Hb Ht) as G. cbv zeta in G. fold m in G.
  set (w2 := dispatch (SettleGenerate (List.length (awaiting w)) (Fulfilled r))
               (dispatch ClickGenerate w)) in G.
  destruct G as (Go & _ & _ & _ & Gc1 & Gc2 & Gd1 & Gd2 & _ & _ & Gr & Gaw & _).
  set (w3 := assign_value EditPromptInput v w2).
  assert (E4 : w4 = handleEdit w3).
  { unfold w4, dispatch_all. cbn [fold_left]. fold w2.
    cbn [dispatch]. rewrite Gd2. fold w3.
    replace (disabled w3 EditButton) with (disabled w2 EditButton) by reflexivity.
    rewrite Gd1. reflexivity. }
  assert (Hval : value w3 EditPromptInput = v) by reflexivity.
  assert (Ho3 : originalImageState w3 = Some {| data := b; mimeType := m |}) by exact Go.
  assert (Ha3 : edit_accepted w3 = true).
  { unfold edit_accepted, found.
    replace (children w3 EditedWrapper) with (children w2 EditedWrapper) by reflexivity.
    replace (children w3 EditedSaveContainer) with (children w2 EditedSaveContainer)
      by reflexivity.
    rewrite Gc1, Gc2, Ho3, Hval. destruct (JS.trim v); [contradiction | reflexivity]. }
  pose proof (handleEdit_start w3 Ha3 Ho3) as S. cbv zeta in S. rewrite <- E4 in S.
  rewrite Hval in S. cbn [data mimeType] in S.
  destruct S as (So & Se & _ & _ & Sd & _ & _ & _ & Saw & Sr).
  replace (awaiting w3) with (awaiting w2) in Saw by reflexivity.
  replace (requests w3) with (requests w2) in Sr by reflexivity.
  rewrite Gaw in Saw. rewrite Gr, <- app_assoc in Sr.
  repeat split; assumption.
Qed.

Lemma edit_request_carries_generated_image_witness :
  let w := dispatch (UserInput GenerationPromptInput (JS.lit "a cat")) fresh_page in
  let w4 := dispatch_all
              [ClickGenerate;
               SettleGenerate (List.length (awaiting w))
                 (Fulfilled (generated (JS.lit "Qw==") (JS.lit "image/png")));
               UserInput EditPromptInput (JS.lit " add a hat ");
               ClickEdit] w in
  awaiting w4 = awaiting w ++ [AwaitEdit (JS.trim (JS.lit " add a hat "))]
  /\ disabled w4 EditButton = true.
Proof.
  assert (Hne : JS.lit "Qw==" <> []) by discriminate.
  assert (Hv : JS.trim (JS.lit " add a hat ") <> []) by (vm_compute; discriminate).
  pose proof (@edit_request_carries_generated_image
                (dispatch (UserInput GenerationPromptInput (JS.lit "a cat")) fresh_page)
                (generated (JS.lit "Qw==") (JS.lit "image/png"))
                {| imageBytes := Some (JS.lit "Qw==");
                   gi_mimeType := Some (JS.lit "image/png") |}
                (JS.lit "Qw==") (JS.lit " add a hat ")
                eq_refl eq_refl eq_refl eq_refl Hne Hv) as H.
  cbv zeta in H. destruct H as (_ & H1 & _ & _ & H2). cbv zeta. split; assumption.
Defined.

(** ** Invariants of the page *)

Lemma downloadImage_leaves (i : ImageState) (p : JS.str) (now : Z) (w : World) :
  originalImageState (downloadImage i p now w) = originalImageState w
  /\ editedImageState (downloadImage i p now w) = editedImageState w
  /\ children (downloadImage i p now w) = children w
  /\ disabled (downloadImage i p now w) = disabled w
  /\ textContent (downloadImage i p now w) = textContent w
  /\ value (downloadImage i p now w) = value w
  /\ alerts (downloadImage i p now w) = alerts w
  /\ consoleErrors (downloadImage i p now w) = consoleErrors w
  /\ requests (downloadImage i p now w) = requests w
  /\ awaiting (downloadImage i p now w) = awaiting w.
Proof.
  destruct i as [img|]; [|repeat split; reflexivity].
  unfold downloadImage. open_world w. crunch. repeat split; reflexivity.
Qed.

Lemma generate_form_same (w w' : World) :
  disabled w' GenerateButton = disabled w GenerateButton ->
  disabled w' GenerationPromptInput = disabled w GenerationPromptInput ->
  disabled w' AspectRatioSelect = disabled w AspectRatioSelect ->
  textContent w' GenerateButton = textContent w GenerateButton ->
  generate_form_consistent w -> generate_form_consistent w'.
Proof. unfold generate_form_consistent. intros -> -> -> ->. auto. Qed.

Lemma generate_form_dispatch (e : Event) (w : World) :
  generate_form_consistent w -> generate_form_consistent (dispatch e w).
Proof.
  intros G. destruct e as [c v| | |r now|i o|i o]; cbn [dispatch].
  - destruct c; try exact G; (destruct (disabled w _); exact G).
  - destruct (disabled w GenerateButton); [exact G|].
    destruct (generate_accepted w) eqn:Ha.
    + pose proof (handleGenerate_start w Ha) as S. cbv zeta in S.
      destruct S as (_ & _ & _ & _ & _ & _ & _ & _ & _ & S1 & S2 & S3 & _).
      pose proof (handleGenerate_accepted_rest w Ha) as (St & _).
      unfold generate_form_consistent. rewrite S1, S2, S3, St. auto.
    + destruct (handleGenerate_rejected w Ha) as [E|E]; rewrite E; exact G.
  - destruct (disabled w EditButton); [exact G|].
    pose proof (handleEdit_leaves w) as (_ & _ & _ & H1 & H2 & H3 & H4 & _).
    apply generate_form_same with w; assumption.
  - destruct (children w r) as [ns|]; [|exact G].
    destruct (save_listener ns) as [[img prefix]|]; [|exact G].
    pose proof (downloadImage_leaves (Some img) prefix now w) as (_ & _ & _ & Hd & Ht & _).
    apply generate_form_same with w; try exact G; rewrite ?Hd, ?Ht; reflexivity.
  - destruct (nth_error (awaiting w) i) as [[p|p]|]; try exact G.
    destruct (handleGenerate_settled_shape p o (set_awaiting (remove_nth i (awaiting w)) w))
      as [w1 E]. rewrite E.
    pose proof (setGenerateUIDisabled_controls false w1) as (C1 & C2 & C3 & C4).
    unfold generate_form_consistent. rewrite C1, C2, C3, C4. auto.
  - destruct (nth_error (awaiting w) i) as [[p|p]|]; try exact G.
    pose proof (handleEdit_settled_leaves p o (set_awaiting (remove_nth i (awaiting w)) w))
      as (_ & _ & _ & H1 & H2 & H3 & H4 & _).
    apply generate_form_same with w; assumption.
Qed.

(** X9: along every sequence of page events the generate button, the prompt
    field and the aspect-ratio select are disabled together, and the button
    reads "Generating..." exactly while they are disabled and "Generate
    Image" otherwise, from any state where this holds. *)
Theorem generate_form_moves_together (w : World) (es : list Event) :
  generate_form_consistent w -> generate_form_consistent (dispatch_all es w).
Proof.
  unfold dispatch_all. revert w.
  induction es as [|e es IH]; intros w G; simpl; [exact G|].
  apply IH, generate_form_dispatch, G.
Qed.

Lemma generate_form_moves_together_witness :
  generate_form_consistent
    (dispatch_all [UserInput GenerationPromptInput (JS.lit "a cat"); ClickGenerate;
                   UserInput GenerationPromptInput (JS.lit "ignored")]
       fresh_page).
Proof.
  apply generate_form_moves_together. repeat split.
Defined.

(** X10: in every state the page can reach, at most one generation request
    is in flight; while one is, the generate button is disabled and a click
    on it changes nothing (no second request, no slot cleared). *)
Theorem one_generation_at_a_time (w : World) :
  reachable w ->
  generations w <= 1
  /\ (generations w = 1 ->
      disabled w GenerateButton = true /\ dispatch ClickGenerate w = w).
Proof.
  intros Hr. destruct (reachable_single_generation Hr) as [H0|[H1 Hd]].
  - split; [lia|]. intros H. congruence.
  - split; [lia|]. intros _. split; [exact Hd|]. cbn [dispatch]. rewrite Hd. reflexivity.
Qed.

Lemma one_generation_at_a_time_witness :
  let w := dispatch_all [UserInput GenerationPromptInput (JS.lit "a cat"); ClickGenerate]
             fresh_page in
  generations w <= 1 /\ (generations w = 1 -> dispatch ClickGenerate w = w).
Proof.
  assert (Hr : reachable
                 (dispatch_all [UserInput GenerationPromptInput (JS.lit "a cat");
                                ClickGenerate] fresh_page)).
  { apply reachable_dispatch_all, reachable_load. repeat split. }
  destruct (one_generation_at_a_time Hr) as (H1 & H2).
  cbv zeta. split; [exact H1|]. intros H. apply (H2 H).
Defined.

Lemma dispatch_alerts (e : Event) (w : World) :
  edit_gate w ->
  alerts (dispatch e w) = alerts w
  \/ exists m, alerts (dispatch e w) = alerts w ++ [m] /\ m <> first_generate_alert.
Proof.
  intros G. destruct e as [c v| | |r now|i o|i o]; cbn [dispatch].
  - left. destruct c; try reflexivity; destruct (disabled w _); reflexivity.
  - destruct (disabled w GenerateButton); [left; reflexivity|].
    destruct (generate_accepted w) eqn:Ha.
    + left. apply (handleGenerate_accepted_rest w Ha).
    + destruct (handleGenerate_rejected w Ha) as [E|E]; rewrite E; [left; reflexivity|].
      right. eexists. split; [reflexivity|]. intros H. vm_compute in H. discriminate.
  - destruct (disabled w EditButton) eqn:Hd; [left; reflexivity|].
    destruct (originalImageState w) as [orig|] eqn:Ho; [|exfalso; exact (G Hd Ho)].
    destruct (edit_accepted w) eqn:Ha.
    + left. apply (handleEdit_accepted_rest w Ha).
    + unfold edit_accepted in Ha. unfold handleEdit. rewrite Ho in *.
      destruct (found EditedWrapper w), (found EditedSaveContainer w);
        cbn [negb orb andb] in *; try (left; reflexivity).
      rewrite Ha. cbn [negb]. right. eexists. split; [reflexivity|].
      intros H. vm_compute in H. discriminate.
  - left. destruct (children w r) as [ns|]; [|reflexivity].
    destruct (save_listener ns) as [[img prefix]|]; [|reflexivity].
    apply (downloadImage_leaves (Some img) prefix now w).
  - left. destruct (nth_error (awaiting w) i) as [[p|p]|]; try reflexivity.
    apply (handleGenerate_settled_leaves p o (set_awaiting (remove_nth i (awaiting w)) w)).
  - left. destruct (nth_error (awaiting w) i) as [[p|p]|]; try reflexivity.
    apply (handleEdit_settled_leaves p o (set_awaiting (remove_nth i (awaiting w)) w)).
Qed.

(** X11: on a page driven through its controls, from a state where the
    edit button is enabled only with an original image, the alert asking to
    generate an image first is never shown: the check of [handleEdit] for a
    null original cannot fail behind the gate of [setEditUIDisabled]. *)
Theorem generate_first_alert_never_shown (w : World) (es : list Event) :
  edit_gate w ->
  ~ In first_generate_alert (alerts w) ->
  ~ In first_generate_alert (alerts (dispatch_all es w)).
Proof.
  unfold dispatch_all. revert w.
  induction es as [|e es IH]; intros w G Hn; simpl; [exact Hn|].
  apply IH; [apply gate_dispatch, G|].
  destruct (dispatch_alerts e G) as [E|(m & E & Hm)]; rewrite E; [exact Hn|].
  intros H. apply in_app_or in H as [H|[H|[]]]; [exact (Hn H) | exact (Hm H)].
Qed.

Lemma generate_first_alert_never_shown_witness :
  ~ In first_generate_alert
      (alerts (dispatch_all [ClickEdit; UserInput GenerationPromptInput (JS.lit "a cat");
                             ClickGenerate; ClickEdit]
                 fresh_page)).
Proof.
  apply generate_first_alert_never_shown.
  - unfold edit_gate. intros H. vm_compute in H. discriminate.
  - intros H. exact H.
Defined.

Lemma save_current_same (w w' : World) :
  originalImageState w' = originalImageState w ->
  editedImageState w' = editedImageState w ->
  children w' OriginalSaveContainer = children w OriginalSaveContainer ->
  children w' EditedSaveContainer = children w EditedSaveContainer ->
  save_buttons_current w -> save_buttons_current w'.
Proof.
  unfold save_buttons_current, listener. intros -> -> -> ->. auto.
Qed.

Lemma save_current_unchanged (w w' : World) :
  unchanged w w' -> save_buttons_current w -> save_buttons_current w'.
Proof.
  intros (Ho & He & _ & _ & _ & Hc & _).
  apply save_current_same; try assumption; rewrite Hc; reflexivity.
Qed.

Lemma catch_edit_leaves (msg : JS.str) (w : World) :
  let w' := assign_innerHTML EditedWrapper msg
              (console_error (JS.lit "An error occurred during editing:") w) in
  editedImageState w' = editedImageState w
  /\ children w' EditedSaveContainer = children w EditedSaveContainer.
Proof. open_world w. crunch. split; reflexivity. Qed.

(** The edited slot and its save button after a settled edit request. *)
Lemma handleEdit_settled_edited (p : JS.str) (o : Outcome GenerateContentResponse)
    (w : World) :
  (editedImageState (handleEdit_settled p o w) = editedImageState w
   /\ children (handleEdit_settled p o w) EditedSaveContainer
      = children w EditedSaveContainer)
  \/ (exists i,
         editedImageState (handleEdit_settled p o w) = Some i
         /\ children (handleEdit_settled p o w) EditedSaveContainer
            = option_map (fun _ => [save_button i (JS.lit "edited-image")])
                (children w EditedSaveContainer)).
Proof.
  destruct o as [r|e].
  - pose proof (edit_body_prologue p w) as A. cbv zeta in A.
    destruct A as (A1 & A2 & A3 & A4).
    unfold handleEdit_settled, try_catch_finally, edit_body, seq, run.
    fold (edit_line p).
    destruct (@process_parts_result p (response_parts r) _ false _ _ A1 A2)
      as (_ & R2 & R3 & R4 & _).
    destruct (process_parts p (response_parts r) _) as [w1 b1]. cbn [fst snd] in *.
    subst b1.
    destruct (last_image (response_parts r)) as [i|]; cbn [negb throw].
    + right. exists i.
      pose proof (setEditUIDisabled_frame false false w1) as (_ & Fe & Fc & _).
      rewrite Fe, Fc, R2, R3. auto.
    + left.
      pose proof (catch_edit_leaves
                    (error_markup
                       (errorMessage
                          (ErrorObject (JS.lit "The model did not return an edited image."))))
                    w1) as C.
      cbv zeta in C. destruct C as (C1 & C2).
      match goal with
      | |- context [setEditUIDisabled false false ?x] =>
          pose proof (setEditUIDisabled_frame false false x) as (_ & Fe & Fc & _)
      end.
      rewrite Fe, Fc, C1, C2, R2, R3, A3. auto.
  - left. pose proof (handleEdit_settled_rejected p e w) as R. cbv zeta in R.
    destruct R as (_ & R1 & R2 & _). auto.
Qed.

Lemma save_current_dispatch (e : Event) (w : World) :
  save_buttons_current w -> save_buttons_current (dispatch e w).
Proof.
  intros G. destruct e as [c v| | |r now|i o|i o]; cbn [dispatch].
  - destruct c; try exact G; (destruct (disabled w _); exact G).
  - destruct (disabled w GenerateButton); [exact G|].
    destruct (generate_accepted w) eqn:Ha.
    + pose proof (handleGenerate_start w Ha) as S. cbv zeta in S.
      destruct S as (_ & _ & _ & _ & S3 & S4 & _).
      unfold save_buttons_current, listener. rewrite S3, S4. cbn [save_listener].
      split; intros i p H; discriminate.
    + destruct (handleGenerate_rejected w Ha) as [E|E]; rewrite E;
        (eapply save_current_unchanged; [|exact G]);
        [apply unchanged_console_error | apply unchanged_alert].
  - destruct (disabled w EditButton); [exact G|].
    destruct (edit_accepted w) eqn:Ha.
    + destruct (edit_accepted_original w Ha) as [orig Ho].
      pose proof (handleEdit_start w Ha Ho) as S. cbv zeta in S.
      destruct S as (_ & _ & _ & S4 & _).
      pose proof (handleEdit_leaves w) as (Lo & _ & Lc & _).
      destruct G as [G1 _]. unfold save_buttons_current, listener in *.
      rewrite S4, Lo, Lc. cbn [save_listener].
      split; [exact G1 | intros i p H; discriminate].
    + destruct (handleEdit_rejected w Ha) as [E|[E|E]]; rewrite E;
        (eapply save_current_unchanged; [|exact G]);
        [apply unchanged_console_error | apply unchanged_alert | apply unchanged_alert].
  - destruct (children w r) as [ns|]; [|exact G].
    destruct (save_listener ns) as [[img prefix]|]; [|exact G].
    pose proof (downloadImage_leaves (Some img) prefix now w) as (Ho & He & Hc & _).
    apply save_current_same with w; try assumption; rewrite Hc; reflexivity.
  - destruct (nth_error (awaiting w) i) as [[p|p]|]; try exact G.
    set (w0 := set_awaiting (remove_nth i (awaiting w)) w).
    assert (G0 : save_buttons_current w0) by exact G.
    pose proof (handleGenerate_settled_leaves p o w0) as (Le & _ & Lc & _).
    destruct (generation_failed o) eqn:Hf.
    + pose proof (handleGenerate_settled_failure p o w0 Hf) as F. cbv zeta in F.
      destruct F as (Fo & _ & _ & _ & _ & _ & _ & _ & Fs & _).
      apply save_current_same with w0; assumption.
    + destruct (generation_succeeded o Hf) as (r & img & b & E & Hd & Hb & Ht). subst o.
      pose proof (handleGenerate_settled_success p r w0 Hd Hb Ht) as S. cbv zeta in S.
      destruct S as (So & _ & _ & _ & _ & _ & _ & _ & Ss).
      destruct G0 as [_ G2]. unfold save_buttons_current, listener in *.
      rewrite So, Ss, Le, Lc. split; [|exact G2].
      destruct (children w0 OriginalSaveContainer); cbn [option_map save_listener];
        intros i' p' H; [|discriminate].
      injection H as <- <-. auto.
  - destruct (nth_error (awaiting w) i) as [[p|p]|]; try exact G.
    set (w0 := set_awaiting (remove_nth i (awaiting w)) w).
    assert (G0 : save_buttons_current w0) by exact G.
    pose proof (handleEdit_settled_leaves p o w0) as (Lo & _ & Lc & _).
    destruct G0 as [G1 G2]. unfold save_buttons_current, listener in *.
    rewrite Lo, Lc. split; [exact G1|].
    destruct (handleEdit_settled_edited p o w0) as [[He Hc]|(i' & He & Hc)];
      rewrite He, Hc; [exact G2|].
    destruct (children w0 EditedSaveContainer); cbn [option_map save_listener save_button];
      intros i'' p' H; [|discriminate].
    injection H as <- <-. auto.
Qed.

(** X12: save buttons never go stale.  Along every sequence of page events,
    whenever a container holds a save button, that button downloads the
    image its slot holds at that moment, under the prefix of its region,
    from any state where this holds. *)
Theorem save_buttons_stay_current (w : World) (es : list Event) :
  save_buttons_current w -> save_buttons_current (dispatch_all es w).
Proof.
  unfold dispatch_all. revert w.
  induction es as [|e es IH]; intros w G; simpl; [exact G|].
  apply IH, save_current_dispatch, G.
Qed.

Lemma save_buttons_stay_current_witness :
  save_buttons_current
    (dispatch_all [UserInput GenerationPromptInput (JS.lit "a cat"); ClickGenerate;
                   SettleGenerate 0 (Fulfilled (generated (JS.lit "Qw==") (JS.lit "image/png")))]
       fresh_page).
Proof.
  apply save_buttons_stay_current.
  split; intros i p H; discriminate.
Defined.

(** ** While a request is pending *)

(** X16: from the start of a generation until its request settles, whatever
    else happens on the page (typing, clicks, edit responses arriving), the
    original slot stays null and both buttons stay disabled, so that clicks
    on Generate and on Edit change nothing. *)
Theorem generation_locks_both_buttons (w : World) (es : list Event) :
  generate_accepted w = true ->
  forallb (fun e => negb (settles_generation e)) es = true ->
  let w' := dispatch_all es (handleGenerate w) in
  originalImageState w' = None
  /\ disabled w' EditButton = true
  /\ disabled w' GenerateButton = true
  /\ dispatch ClickEdit w' = w'
  /\ dispatch ClickGenerate w' = w'.
Proof.
  intros Ha Hes w'.
  pose proof (generation_locked_dispatch_all es Hes (generation_started_locked w Ha))
    as (Lo & Le & Lg).
  fold w' in Lo, Le, Lg.
  repeat split; try assumption; cbn [dispatch]; [rewrite Le | rewrite Lg]; reflexivity.
Qed.

Lemma generation_locks_both_buttons_witness :
  let w' := dispatch_all
              [UserInput EditPromptInput (JS.lit "now"); ClickEdit;
               SettleEdit 0 (Fulfilled (edit_response [image_part image_Y]))]
              (handleGenerate edit_then_generate) in
  originalImageState w' = None /\ disabled w' EditButton = true.
Proof.
  assert (Ha : generate_accepted edit_then_generate = true) by (vm_compute; reflexivity).
  pose proof (@generation_locks_both_buttons edit_then_generate
                [UserInput EditPromptInput (JS.lit "now"); ClickEdit;
                 SettleEdit 0 (Fulfilled (edit_response [image_part image_Y]))]
                Ha eq_refl) as H.
  cbv zeta in H. destruct H as (H1 & H2 & _). cbv zeta. split; assumption.
Defined.

(** X17: an edit that passes validation, before its request settles, sets
    the edited slot to null, replaces the edited region by the loading
    message, empties its save container, disables the edit button (which
    then reads "Editing...") and the instruction field, makes exactly one
    request and suspends; it shows no alert and logs nothing. *)
Theorem edit_start_clears (w : World) :
  edit_accepted w = true ->
  let w1 := handleEdit w in
  editedImageState w1 = None
  /\ children w1 EditedWrapper
     = Some [Markup (loading_markup (JS.lit "Editing image with Nano Banana..."))]
  /\ children w1 EditedSaveContainer = Some []
  /\ disabled w1 EditButton = true
  /\ disabled w1 EditPromptInput = true
  /\ textContent w1 EditButton = JS.lit "Editing..."
  /\ List.length (requests w1) = S (List.length (requests w))
  /\ awaiting w1 = awaiting w ++ [AwaitEdit (JS.trim (value w EditPromptInput))]
  /\ alerts w1 = alerts w
  /\ consoleErrors w1 = consoleErrors w.
Proof.
  intros Ha w1. destruct (edit_accepted_original w Ha) as [orig Ho].
  pose proof (handleEdit_start w Ha Ho) as S. cbv zeta in S. fold w1 in S.
  destruct S as (_ & S1 & S2 & S3 & S4 & S5 & S6 & _ & S7 & S8).
  pose proof (handleEdit_accepted_rest w Ha) as (R1 & R2). fold w1 in R1, R2.
  repeat split; try assumption.
  rewrite S8, length_app. simpl. lia.
Qed.

Lemma edit_start_clears_witness :
  editedImageState (handleEdit page_with_original) = None
  /\ disabled (handleEdit page_with_original) EditButton = true.
Proof.
  pose proof (edit_start_clears page_with_original eq_refl) as H.
  cbv zeta in H. destruct H as (H1 & _ & _ & H2 & _). split; assumption.
Defined.


(** * Flows that overlap *)

(** ** The containers stay where they are *)

Lemma found_option_map (f : list Node -> list Node) (c : option (list Node)) :
  match option_map f c with Some _ => true | None => false end
  = match c with Some _ => true | None => false end.
Proof. destruct c; reflexivity. Qed.

Lemma found_same (r : Region) (w w' : World) :
  children w' r = children w r -> found r w' = found r w.
Proof. unfold found. intros ->. reflexivity. Qed.

(** No event adds or removes a container. *)
Lemma found_dispatch (e : Event) (w : World) (r : Region) :
  found r (dispatch e w) = found r w.
Proof.
  destruct e as [c v| | |r' now|i o|i o]; cbn [dispatch].
  - destruct c; try reflexivity; destruct (disabled w _); reflexivity.
  - destruct (disabled w GenerateButton); [reflexivity|].
    destruct (generate_accepted w) eqn:Ha.
    + pose proof (handleGenerate_start w Ha) as S. cbv zeta in S.
      destruct S as (_ & _ & S1 & S2 & S3 & S4 & _).
      unfold generate_accepted in Ha.
      apply andb_true_iff in Ha as [Ha _]. apply andb_true_iff in Ha as [Ha F4].
      apply andb_true_iff in Ha as [Ha F3]. apply andb_true_iff in Ha as [F1 F2].
      destruct r; [rewrite F1 | rewrite F2 | rewrite F3 | rewrite F4]; unfold found;
        [rewrite S1 | rewrite S2 | rewrite S3 | rewrite S4]; reflexivity.
    + destruct (handleGenerate_rejected w Ha) as [E|E]; rewrite E; reflexivity.
  - destruct (disabled w EditButton); [reflexivity|].
    destruct (edit_accepted w) eqn:Ha.
    + destruct (edit_accepted_original w Ha) as [orig Ho].
      pose proof (handleEdit_start w Ha Ho) as S. cbv zeta in S.
      destruct S as (_ & _ & S1 & S2 & _).
      pose proof (handleEdit_leaves w) as (_ & L1 & L2 & _).
      unfold edit_accepted in Ha.
      apply andb_true_iff in Ha as [Ha _]. apply andb_true_iff in Ha as [Ha _].
      apply andb_true_iff in Ha as [F1 F2].
      destruct r; [apply found_same, L1 | rewrite F1 | apply found_same, L2 | rewrite F2];
        unfold found; [rewrite S1 | rewrite S2]; reflexivity.
    + destruct (handleEdit_rejected w Ha) as [E|[E|E]]; rewrite E; reflexivity.
  - destruct (children w r') as [ns|]; [|reflexivity].
    destruct (save_listener ns) as [[img prefix]|]; [|reflexivity].
    pose proof (downloadImage_leaves (Some img) prefix now w) as (_ & _ & Hc & _).
    apply found_same. rewrite Hc. reflexivity.
  - destruct (nth_error (awaiting w) i) as [[p|p]|]; try reflexivity.
    set (w0 := set_awaiting (remove_nth i (awaiting w)) w).
    change (found r w) with (found r w0).
    pose proof (handleGenerate_settled_leaves p o w0) as (_ & L1 & L2 & _).
    destruct (generation_failed o) eqn:Hf.
    + pose proof (handleGenerate_settled_failure p o w0 Hf) as F. cbv zeta in F.
      destruct F as (_ & _ & _ & _ & _ & _ & _ & F1 & F2 & _).
      destruct r; try (apply found_same; assumption).
      unfold found. rewrite F1. apply found_option_map.
    + destruct (generation_succeeded o Hf) as (r0 & img & b & E & Hd & Hb & Ht). subst o.
      pose proof (handleGenerate_settled_success p r0 w0 Hd Hb Ht) as S. cbv zeta in S.
      destruct S as (_ & _ & _ & _ & _ & _ & _ & S1 & S2).
      destruct r; try (apply found_same; assumption);
        unfold found; [rewrite S1 | rewrite S2]; apply found_option_map.
  - destruct (nth_error (awaiting w) i) as [[p|p]|]; try reflexivity.
    set (w0 := set_awaiting (remove_nth i (awaiting w)) w).
    change (found r w) with (found r w0).
    destruct (handleEdit_settled_shape p o w0) as [w2 [E R]]. rewrite E.
    destruct R as (_ & _ & _ & _ & _ & _ & _ & _ & _ & Rf & _).
    rewrite <- Rf. apply found_same.
    pose proof (setEditUIDisabled_frame false false w2) as (_ & _ & Fc & _).
    rewrite Fc. reflexivity.
Qed.

Lemma found_dispatch_all (es : list Event) (w : World) (r : Region) :
  found r (dispatch_all es w) = found r w.
Proof.
  unfold dispatch_all. revert w.
  induction es as [|e es IH]; intros w; simpl; [reflexivity|].
  rewrite IH. apply found_dispatch.
Qed.

(** With a null original the edit continuation leaves every control as it
    is. *)
Lemma handleEdit_settled_gated (p : JS.str) (o : Outcome GenerateContentResponse)
    (w : World) :
  originalImageState w = None ->
  disabled (handleEdit_settled p o w) = disabled w
  /\ textContent (handleEdit_settled p o w) = textContent w.
Proof.
  intros Ho. destruct (handleEdit_settled_shape p o w) as [w2 [E R]]. rewrite E.
  destruct R as (Ro & Rd & _ & Rt & _).
  rewrite setEditUIDisabled_gated by congruence. auto.
Qed.

(** ** A successful generation *)

(** C3, as the code has it: for every page whose prompt is not blank (and
    whatever the aspect ratio selected), when the generation request is
    fulfilled with an image that has non-empty bytes and a mime type, the
    flow stores exactly that image in the original slot and enables the edit
    button and input, in whatever state the page is when the response
    arrives; the flow cleared the edited slot when it started and does not
    write it when it resumes, so the edited slot is null at completion
    provided no edit request was in flight when the generation started. *)
Theorem generation_success (w : World) (r : GenerateImagesResponse) (b m : JS.str)
    (es : list Event) :
  generate_accepted w = true ->
  generated_data r = Some {| imageBytes := Some b; gi_mimeType := Some m |} ->
  b <> [] ->
  m <> [] ->
  let p := JS.trim (value w GenerationPromptInput) in
  let w1 := handleGenerate w in
  editedImageState w1 = None
  /\ awaiting w1 = awaiting w ++ [AwaitGenerate p]
  /\ (forall w',
         let w2 := handleGenerate_settled p (Fulfilled r) w' in
         originalImageState w2 = Some {| data := b; mimeType := m |}
         /\ disabled w2 EditButton = false
         /\ disabled w2 EditPromptInput = false
         /\ textContent w2 EditButton = JS.lit "Edit Image"
         /\ editedImageState w2 = editedImageState w')
  /\ editedImageState (handleGenerate_settled p (Fulfilled r) w1) = None
  /\ (reachable w ->
      disabled w GenerateButton = false ->
      forallb (fun k => negb (editing k)) (awaiting w) = true ->
      forallb (fun e => negb (settles_generation e)) es = true ->
      let w3 := dispatch (SettleGenerate 0 (Fulfilled r))
                  (dispatch_all es (dispatch ClickGenerate w)) in
      originalImageState w3 = Some {| data := b; mimeType := m |}
      /\ editedImageState w3 = None
      /\ disabled w3 EditButton = false).
Proof.
  intros Ha Hd Hb Hm p w1.
  assert (Ht : JS.truthy b = true) by (destruct b; [contradiction | reflexivity]).
  assert (Hor : JS.or_else (Some m) (JS.lit "image/jpeg") = m).
  { destruct m; [contradiction | reflexivity]. }
  pose proof (handleGenerate_start w Ha) as S. cbv zeta in S. fold w1 p in S.
  destruct S as (_ & Se & _ & _ & _ & _ & _ & _ & _ & _ & _ & _ & Sa & _).
  assert (Hs : forall w', let w2 := handleGenerate_settled p (Fulfilled r) w' in
            originalImageState w2 = Some {| data := b; mimeType := m |}
            /\ disabled w2 EditButton = false
            /\ disabled w2 EditPromptInput = false
            /\ textContent w2 EditButton = JS.lit "Edit Image"
            /\ editedImageState w2 = editedImageState w').
  { intros w'.
    pose proof (handleGenerate_settled_success p r w' Hd eq_refl Ht) as H.
    cbv zeta in H. cbn [gi_mimeType] in H. rewrite Hor in H.
    cbv zeta. intuition. }
  split; [exact Se|]. split; [exact Sa|]. split; [exact Hs|].
  split; [destruct (Hs w1) as (_ & _ & _ & _ & He); cbv zeta in He; congruence|].
  intros Hr Hg Hne Hes w3.
  assert (E1 : dispatch ClickGenerate w = w1) by (cbn [dispatch]; rewrite Hg; reflexivity).
  pose proof (generation_pending_dispatch_all es Hes
                (generation_started_pending Ha Hr Hg Hne)) as (Hw & _ & He & _).
  fold p w1 in Hw, He.
  assert (E3 : w3 = handleGenerate_settled p (Fulfilled r)
                      (set_awaiting [] (dispatch_all es w1))).
  { unfold w3. rewrite E1. cbn [dispatch]. rewrite Hw. reflexivity. }
  rewrite E3. destruct (Hs (set_awaiting [] (dispatch_all es w1))) as (A & B & _ & _ & C).
  repeat split; try assumption. rewrite C. exact He.
Qed.

Lemma generation_success_witness :
  let w := dispatch (UserInput GenerationPromptInput (JS.lit " a cat ")) fresh_page in
  let r := generated (JS.lit "Qw==") (JS.lit "image/png") in
  let w2 := handleGenerate_settled (JS.trim (value w GenerationPromptInput)) (Fulfilled r)
              (handleGenerate w) in
  let w3 := dispatch (SettleGenerate 0 (Fulfilled r))
              (dispatch_all [ClickEdit; UserInput EditPromptInput (JS.lit "x")]
                 (dispatch ClickGenerate w)) in
  originalImageState w2 = Some {| data := JS.lit "Qw=="; mimeType := JS.lit "image/png" |}
  /\ editedImageState w2 = None
  /\ disabled w2 EditButton = false
  /\ originalImageState w3 = Some {| data := JS.lit "Qw=="; mimeType := JS.lit "image/png" |}
  /\ editedImageState w3 = None.
Proof.
  pose proof (generation_success
                (dispatch (UserInput GenerationPromptInput (JS.lit " a cat ")) fresh_page)
                (generated (JS.lit "Qw==") (JS.lit "image/png"))
                (b := JS.lit "Qw==") (m := JS.lit "image/png")
                [ClickEdit; UserInput EditPromptInput (JS.lit "x")]
                eq_refl eq_refl) as H.
  assert (Hb : JS.lit "Qw==" <> []) by discriminate.
  assert (Hm : JS.lit "image/png" <> []) by discriminate.
  specialize (H Hb Hm). cbv zeta in H.
  destruct H as (_ & _ & H1 & H2 & H3).
  destruct (H1 (handleGenerate
                  (dispatch (UserInput GenerationPromptInput (JS.lit " a cat ")) fresh_page)))
    as (A1 & A2 & _).
  assert (Hr : reachable (dispatch (UserInput GenerationPromptInput (JS.lit " a cat "))
                            fresh_page)).
  { apply reachable_dispatch, reachable_load. repeat split. }
  destruct (H3 Hr eq_refl eq_refl eq_refl) as (H5 & H6 & _).
  cbv zeta. repeat split; assumption.
Defined.

(** C3, as stated, fails when an edit request is in flight at the start of
    the generation: its response arrives while the generation is pending
    and stores an edited image, which the generation leaves in place when
    it completes. *)
Lemma generation_success_keeps_stale_edit :
  reachable edit_then_generate
  /\ disabled edit_then_generate GenerateButton = false
  /\ generate_accepted edit_then_generate = true
  /\ editedImageState (dispatch ClickGenerate edit_then_generate) = None
  /\ awaiting
       (dispatch (SettleEdit 0 (Fulfilled (edit_response [image_part image_Y])))
          (dispatch ClickGenerate edit_then_generate))
     = [AwaitGenerate (JS.lit "a dog")]
  /\ originalImageState
       (dispatch (SettleGenerate 0 (Fulfilled (generated (JS.lit "Rw==") (JS.lit "image/png"))))
          (dispatch (SettleEdit 0 (Fulfilled (edit_response [image_part image_Y])))
             (dispatch ClickGenerate edit_then_generate)))
     = Some {| data := JS.lit "Rw=="; mimeType := JS.lit "image/png" |}
  /\ disabled
       (dispatch (SettleGenerate 0 (Fulfilled (generated (JS.lit "Rw==") (JS.lit "image/png"))))
          (dispatch (SettleEdit 0 (Fulfilled (edit_response [image_part image_Y])))
             (dispatch ClickGenerate edit_then_generate)))
       EditButton = false
  /\ editedImageState
       (dispatch (SettleGenerate 0 (Fulfilled (generated (JS.lit "Rw==") (JS.lit "image/png"))))
          (dispatch (SettleEdit 0 (Fulfilled (edit_response [image_part image_Y])))
             (dispatch ClickGenerate edit_then_generate)))
     = Some image_Y.
Proof.
  split.
  { unfold edit_then_generate, page_with_original.
    apply reachable_dispatch_all, reachable_dispatch_all, reachable_load. repeat split. }
  repeat split; vm_compute; reflexivity.
Qed.

(** ** A failed generation *)

(** C5: when the generation flow has passed validation and then fails,
    because the request is rejected or because the response carries no
    image bytes, it shows the error paragraph, whose text is the message of
    the error, in the original-image region; the original slot stays null
    and the edit button and input stay disabled.  The continuation never
    writes the original slot or the edit controls on a failure, and all of
    this holds whatever page events come between the start and the
    settlement. *)
Theorem generation_failure (w : World) (o : Outcome GenerateImagesResponse)
    (es : list Event) (i : nat) :
  generate_accepted w = true ->
  generation_failed o = true ->
  let p := JS.trim (value w GenerationPromptInput) in
  let w1 := handleGenerate w in
  let message :=
    match o with
    | Rejected (ErrorObject msg) => msg
    | Rejected OtherValue => JS.lit "An unknown error occurred."
    | Fulfilled _ => JS.lit "Failed to generate the initial image."
    end in
  let shown :=
    Some [Markup (JS.lit "<p class=" ++ JS.dq ++ JS.lit "error" ++ JS.dq
                  ++ JS.lit ">Error: " ++ message
                  ++ JS.lit "<br>Check the developer console for more details.</p>")] in
  (forall w',
      let w2 := handleGenerate_settled p o w' in
      (found OriginalWrapper w' = true -> children w2 OriginalWrapper = shown)
      /\ originalImageState w2 = originalImageState w'
      /\ disabled w2 EditButton = disabled w' EditButton
      /\ disabled w2 EditPromptInput = disabled w' EditPromptInput
      /\ children w2 OriginalSaveContainer = children w' OriginalSaveContainer)
  /\ (let w2 := handleGenerate_settled p o w1 in
      children w2 OriginalWrapper = shown
      /\ originalImageState w2 = None
      /\ editedImageState w2 = None
      /\ disabled w2 EditButton = true
      /\ disabled w2 EditPromptInput = true
      /\ children w2 OriginalSaveContainer = Some [])
  /\ (forallb (fun e => negb (settles_generation e)) es = true ->
      let w' := dispatch_all es w1 in
      let w3 := dispatch (SettleGenerate i o) w' in
      originalImageState w3 = None
      /\ disabled w3 EditButton = true
      /\ (forall q, nth_error (awaiting w') i = Some (AwaitGenerate q) ->
                    children w3 OriginalWrapper = shown)).
Proof.
  intros Ha Hf p w1 message shown.
  assert (Hmsg : generation_failure_message o = message).
  { unfold message. destruct o as [r|[msg|]]; reflexivity. }
  assert (Hany : forall q w',
            let w2 := handleGenerate_settled q o w' in
            (found OriginalWrapper w' = true -> children w2 OriginalWrapper = shown)
            /\ originalImageState w2 = originalImageState w'
            /\ disabled w2 EditButton = disabled w' EditButton
            /\ disabled w2 EditPromptInput = disabled w' EditPromptInput
            /\ children w2 OriginalSaveContainer = children w' OriginalSaveContainer).
  { intros q w'. pose proof (handleGenerate_settled_failure q o w' Hf) as F.
    cbv zeta in F. destruct F as (Fo & _ & Fd & Fp & _ & _ & _ & Fc & Fs & _).
    cbv zeta. repeat split; try assumption.
    intros Hfound. unfold found in Hfound. rewrite Fc, Hmsg.
    destruct (children w' OriginalWrapper); [reflexivity | discriminate]. }
  pose proof (handleGenerate_start w Ha) as S. cbv zeta in S. fold w1 in S.
  destruct S as (So & Se & Sc & _ & Ss & _ & Sd & Sp & _).
  split; [exact (Hany p)|]. split.
  - destruct (Hany p w1) as (Hc & Ho & Hd & Hq & Hs). cbv zeta.
    pose proof (handleGenerate_settled_leaves p o w1) as (Le & _).
    split; [apply Hc; unfold found; rewrite Sc; reflexivity|].
    repeat split; congruence.
  - intros Hes w' w3.
    pose proof (generation_locked_dispatch_all es Hes (generation_started_locked w Ha))
      as (Lo & Ld & _).
    fold w1 in Lo, Ld. fold w' in Lo, Ld.
    assert (Fw : found OriginalWrapper w' = true).
    { unfold w'. rewrite found_dispatch_all. unfold found. rewrite Sc. reflexivity. }
    unfold w3. cbn [dispatch].
    destruct (nth_error (awaiting w') i) as [[q|q]|];
      try (repeat split; try assumption; intros q0 H; discriminate).
    destruct (Hany q (set_awaiting (remove_nth i (awaiting w')) w'))
      as (Hc & Ho & Hd & _).
    split; [rewrite Ho; exact Lo|]. split; [rewrite Hd; exact Ld|].
    intros q0 _. apply Hc. exact Fw.
Qed.

Lemma generation_failure_witness :
  let w := dispatch (UserInput GenerationPromptInput (JS.lit "a cat")) fresh_page in
  let o := Rejected (ErrorObject (JS.lit "quota exceeded")) in
  let w2 := handleGenerate_settled (JS.trim (value w GenerationPromptInput)) o
              (handleGenerate w) in
  let w3 := dispatch (SettleGenerate 0 o) (dispatch_all [ClickEdit] (handleGenerate w)) in
  children w2 OriginalWrapper
  = Some [Markup (JS.lit "<p class=" ++ JS.dq ++ JS.lit "error" ++ JS.dq
                  ++ JS.lit ">Error: " ++ JS.lit "quota exceeded"
                  ++ JS.lit "<br>Check the developer console for more details.</p>")]
  /\ originalImageState w2 = None
  /\ disabled w2 EditButton = true
  /\ originalImageState w3 = None
  /\ disabled w3 EditButton = true
  /\ children w3 OriginalWrapper
     = Some [Markup (JS.lit "<p class=" ++ JS.dq ++ JS.lit "error" ++ JS.dq
                     ++ JS.lit ">Error: " ++ JS.lit "quota exceeded"
                     ++ JS.lit "<br>Check the developer console for more details.</p>")].
Proof.
  pose proof (generation_failure
                (dispatch (UserInput GenerationPromptInput (JS.lit "a cat")) fresh_page)
                (Rejected (ErrorObject (JS.lit "quota exceeded")))
                [ClickEdit] 0 eq_refl eq_refl) as H.
  cbv zeta in H. destruct H as (_ & (H1 & H2 & _ & H3 & _) & H4).
  destruct (H4 eq_refl) as (H5 & H6 & H7).
  cbv zeta. split; [exact H1|]. split; [exact H2|]. split; [exact H3|].
  split; [exact H5|]. split; [exact H6|].
  apply (H7 (JS.lit "a cat")). vm_compute. reflexivity.
Defined.

(** ** An edit response without image *)

(** C6, as the code has it: when the response of an edit has no image part
    (its parts list may be empty or missing), the flow throws, its handler
    logs the error and overwrites the edit region with the error paragraph
    saying that the model did not return an edited image, in whatever state
    the page is when the response arrives; the flow cleared the edited slot
    when it started and does not write it on such a response, so the slot
    is null at completion provided no other edit response was processed
    between the start of the flow and its own response. *)
Theorem edit_without_image (w : World) (r : GenerateContentResponse)
    (es : list Event) (i : nat) :
  edit_accepted w = true ->
  (forall part, In part (response_parts r) -> inlineData part = None) ->
  let p := JS.trim (value w EditPromptInput) in
  let w1 := handleEdit w in
  let shown :=
    Some [Markup (JS.lit "<p class=" ++ JS.dq ++ JS.lit "error" ++ JS.dq
                  ++ JS.lit ">Error: The model did not return an edited image."
                  ++ JS.lit "<br>Check the developer console for more details.</p>")] in
  (forall q w',
      let w2 := handleEdit_settled q (Fulfilled r) w' in
      (found EditedWrapper w' = true -> children w2 EditedWrapper = shown)
      /\ consoleErrors w2 = consoleErrors w' ++ [JS.lit "An error occurred during editing:"]
      /\ editedImageState w2 = editedImageState w'
      /\ children w2 EditedSaveContainer = children w' EditedSaveContainer)
  /\ editedImageState w1 = None
  /\ (let w2 := handleEdit_settled p (Fulfilled r) w1 in
      children w2 EditedWrapper = shown
      /\ consoleErrors w2 = consoleErrors w ++ [JS.lit "An error occurred during editing:"]
      /\ editedImageState w2 = None
      /\ children w2 EditedSaveContainer = Some [])
  /\ (forallb (fun e => negb (settles_edit e)) es = true ->
      let w' := dispatch_all es w1 in
      let w3 := dispatch (SettleEdit i (Fulfilled r)) w' in
      editedImageState w3 = None
      /\ (forall q, nth_error (awaiting w') i = Some (AwaitEdit q) ->
                    children w3 EditedWrapper = shown)).
Proof.
  intros Ha Hno p w1 shown.
  assert (Hany : forall q w',
            let w2 := handleEdit_settled q (Fulfilled r) w' in
            (found EditedWrapper w' = true -> children w2 EditedWrapper = shown)
            /\ consoleErrors w2
               = consoleErrors w' ++ [JS.lit "An error occurred during editing:"]
            /\ editedImageState w2 = editedImageState w'
            /\ children w2 EditedSaveContainer = children w' EditedSaveContainer).
  { intros q w'. pose proof (handleEdit_settled_no_image q r w' Hno) as F.
    cbv zeta in F. destruct F as (Fe & Fc & Fs & Fl).
    cbv zeta. repeat split; try assumption.
    intros Hfound. unfold found in Hfound. rewrite Fc.
    destruct (children w' EditedWrapper); [reflexivity | discriminate]. }
  destruct (edit_accepted_original w Ha) as [original Ho].
  pose proof (handleEdit_start w Ha Ho) as S. cbv zeta in S. fold w1 in S.
  destruct S as (_ & Se & Sc & Ss & _).
  pose proof (handleEdit_accepted_rest w Ha) as (_ & Sl). fold w1 in Sl.
  assert (Fw1 : found EditedWrapper w1 = true) by (unfold found; rewrite Sc; reflexivity).
  split; [exact Hany|]. split; [exact Se|]. split.
  - destruct (Hany p w1) as (Hc & Hl & He & Hs). cbv zeta.
    split; [exact (Hc Fw1)|]. repeat split; congruence.
  - intros Hes w' w3.
    pose proof (@edited_null_dispatch_all es w1 Hes Se) as N. fold w' in N.
    assert (Fw : found EditedWrapper w' = true).
    { unfold w'. rewrite found_dispatch_all. exact Fw1. }
    unfold w3. cbn [dispatch].
    destruct (nth_error (awaiting w') i) as [[q|q]|];
      try (split; [exact N | intros q0 H; discriminate]).
    destruct (Hany q (set_awaiting (remove_nth i (awaiting w')) w')) as (Hc & _ & He & _).
    split; [rewrite He; exact N|]. intros q0 _. apply Hc. exact Fw.
Qed.

Lemma edit_without_image_witness :
  let r := edit_response [text_part (JS.lit "I cannot do that.")] in
  let w1 := handleEdit page_with_original in
  let w2 := handleEdit_settled (JS.trim (value page_with_original EditPromptInput))
              (Fulfilled r) w1 in
  let w3 := dispatch (SettleEdit 0 (Fulfilled r)) (dispatch_all [ClickGenerate] w1) in
  children w2 EditedWrapper
  = Some [Markup (JS.lit "<p class=" ++ JS.dq ++ JS.lit "error" ++ JS.dq
                  ++ JS.lit ">Error: The model did not return an edited image."
                  ++ JS.lit "<br>Check the developer console for more details.</p>")]
  /\ editedImageState w2 = None
  /\ editedImageState w3 = None.
Proof.
  assert (Hno : forall part,
             In part (response_parts (edit_response [text_part (JS.lit "I cannot do that.")])) ->
             inlineData part = None).
  { intros part [H|[]]. subst part. reflexivity. }
  pose proof (edit_without_image page_with_original
                (edit_response [text_part (JS.lit "I cannot do that.")])
                [ClickGenerate] 0 eq_refl Hno) as H.
  cbv zeta in H. destruct H as (_ & _ & (H1 & _ & H2 & _) & H3).
  destruct (H3 eq_refl) as (H4 & _).
  cbv zeta. repeat split; assumption.
Defined.

(** C6, as stated, fails with two edits in flight: the response of the
    first, arriving after the second has started, stores its image, and
    the response without image of the second leaves that image in the
    edited slot, with its save button, under the error message. *)
Lemma edit_without_image_keeps_stale_edit :
  reachable two_edits_in_flight
  /\ awaiting two_edits_in_flight
     = [AwaitEdit (JS.lit "add a hat"); AwaitEdit (JS.lit "add a hat")]
  /\ editedImageState two_edits_in_flight = None
  /\ awaiting
       (dispatch (SettleEdit 0 (Fulfilled (edit_response [image_part image_Y])))
          two_edits_in_flight)
     = [AwaitEdit (JS.lit "add a hat")]
  /\ children
       (dispatch (SettleEdit 0
                    (Fulfilled (edit_response [text_part (JS.lit "I cannot do that.")])))
          (dispatch (SettleEdit 0 (Fulfilled (edit_response [image_part image_Y])))
             two_edits_in_flight))
       EditedWrapper
     = Some [Markup (JS.lit "<p class=" ++ JS.dq ++ JS.lit "error" ++ JS.dq
                     ++ JS.lit ">Error: The model did not return an edited image."
                     ++ JS.lit "<br>Check the developer console for more details.</p>")]
  /\ editedImageState
       (dispatch (SettleEdit 0
                    (Fulfilled (edit_response [text_part (JS.lit "I cannot do that.")])))
          (dispatch (SettleEdit 0 (Fulfilled (edit_response [image_part image_Y])))
             two_edits_in_flight))
     = Some image_Y
  /\ children
       (dispatch (SettleEdit 0
                    (Fulfilled (edit_response [text_part (JS.lit "I cannot do that.")])))
          (dispatch (SettleEdit 0 (Fulfilled (edit_response [image_part image_Y])))
             two_edits_in_flight))
       EditedSaveContainer
     = Some [save_button image_Y (JS.lit "edited-image")].
Proof.
  split.
  { unfold two_edits_in_flight, edit_then_generate, page_with_original.
    apply reachable_dispatch_all, reachable_dispatch_all, reachable_dispatch_all,
      reachable_load. repeat split. }
  repeat split; vm_compute; reflexivity.
Qed.

(** ** A rejected edit request *)

(** X3: when an edit request is rejected, in whatever state the page is
    then, the handler logs the error, shows the error paragraph with the
    message of the error (a fixed text for a thrown value that is no Error
    object) in the edit region, and writes neither slot nor the edited save
    container; it enables the edit button and input again if the original
    slot holds an image at that moment, and leaves every control as it is
    if the slot is null (a generation was started meanwhile).  When the
    rejection follows the start of the flow with nothing in between, the
    edited slot is null, its save container empty, the original image kept
    and the edit controls enabled; with other events in between the edited
    slot is still null provided no other edit response was processed. *)
Theorem edit_request_rejected (w : World) (e : Thrown) (es : list Event) (i : nat) :
  edit_accepted w = true ->
  let p := JS.trim (value w EditPromptInput) in
  let w1 := handleEdit w in
  let message :=
    match e with
    | ErrorObject msg => msg
    | OtherValue => JS.lit "An unknown error occurred."
    end in
  let shown :=
    Some [Markup (JS.lit "<p class=" ++ JS.dq ++ JS.lit "error" ++ JS.dq
                  ++ JS.lit ">Error: " ++ message
                  ++ JS.lit "<br>Check the developer console for more details.</p>")] in
  (forall q w',
      let w2 := handleEdit_settled q (Rejected e) w' in
      (found EditedWrapper w' = true -> children w2 EditedWrapper = shown)
      /\ consoleErrors w2 = consoleErrors w' ++ [JS.lit "An error occurred during editing:"]
      /\ editedImageState w2 = editedImageState w'
      /\ children w2 EditedSaveContainer = children w' EditedSaveContainer
      /\ originalImageState w2 = originalImageState w'
      /\ (originalImageState w' <> None ->
          disabled w2 EditButton = false
          /\ disabled w2 EditPromptInput = false
          /\ textContent w2 EditButton = JS.lit "Edit Image")
      /\ (originalImageState w' = None ->
          disabled w2 = disabled w' /\ textContent w2 = textContent w'))
  /\ (let w2 := handleEdit_settled p (Rejected e) w1 in
      children w2 EditedWrapper = shown
      /\ editedImageState w2 = None
      /\ children w2 EditedSaveContainer = Some []
      /\ originalImageState w2 = originalImageState w
      /\ disabled w2 EditButton = false
      /\ disabled w2 EditPromptInput = false
      /\ textContent w2 EditButton = JS.lit "Edit Image")
  /\ (forallb (fun e => negb (settles_edit e)) es = true ->
      editedImageState (dispatch (SettleEdit i (Rejected e)) (dispatch_all es w1)) = None).
Proof.
  intros Ha p w1 message shown.
  assert (Hmsg : errorMessage e = message) by (destruct e; reflexivity).
  assert (Hany : forall q w',
            let w2 := handleEdit_settled q (Rejected e) w' in
            (found EditedWrapper w' = true -> children w2 EditedWrapper = shown)
            /\ consoleErrors w2
               = consoleErrors w' ++ [JS.lit "An error occurred during editing:"]
            /\ editedImageState w2 = editedImageState w'
            /\ children w2 EditedSaveContainer = children w' EditedSaveContainer
            /\ originalImageState w2 = originalImageState w'
            /\ (originalImageState w' <> None ->
                disabled w2 EditButton = false
                /\ disabled w2 EditPromptInput = false
                /\ textContent w2 EditButton = JS.lit "Edit Image")
            /\ (originalImageState w' = None ->
                disabled w2 = disabled w' /\ textContent w2 = textContent w')).
  { intros q w'. pose proof (handleEdit_settled_rejected q e w') as R. cbv zeta in R.
    destruct R as (Rc & Rs & Re & Rl & Rd).
    pose proof (handleEdit_settled_leaves q (Rejected e) w') as (Lo & _).
    cbv zeta. split.
    { intros Hfound. unfold found in Hfound. rewrite Rc, Hmsg.
      destruct (children w' EditedWrapper); [reflexivity | discriminate]. }
    repeat split; try assumption; try (apply Rd; assumption);
      apply (handleEdit_settled_gated q (Rejected e) w'); assumption. }
  destruct (edit_accepted_original w Ha) as [orig Ho].
  pose proof (handleEdit_start w Ha Ho) as S. cbv zeta in S. fold w1 in S.
  destruct S as (So & Se & Sc & Ss & _).
  split; [exact Hany|]. split.
  - destruct (Hany p w1) as (Hc & _ & He & Hs & Hor & Hen & _). cbv zeta.
    assert (Hn : originalImageState w1 <> None) by (rewrite So; discriminate).
    destruct (Hen Hn) as (D1 & D2 & D3).
    split; [apply Hc; unfold found; rewrite Sc; reflexivity|].
    repeat split; congruence.
  - intros Hes. pose proof (@edited_null_dispatch_all es w1 Hes Se) as N.
    cbn [dispatch].
    destruct (nth_error (awaiting (dispatch_all es w1)) i) as [[q|q]|]; try exact N.
    destruct (Hany q (set_awaiting (remove_nth i (awaiting (dispatch_all es w1)))
                        (dispatch_all es w1))) as (_ & _ & He & _).
    rewrite He. exact N.
Qed.

Lemma edit_request_rejected_witness :
  let w1 := handleEdit page_with_original in
  let w2 := handleEdit_settled (JS.trim (value page_with_original EditPromptInput))
              (Rejected OtherValue) w1 in
  let w3 := handleEdit_settled (JS.lit "add a hat") (Rejected OtherValue)
              (dispatch ClickGenerate edit_then_generate) in
  children w2 EditedWrapper
  = Some [Markup (JS.lit "<p class=" ++ JS.dq ++ JS.lit "error" ++ JS.dq
                  ++ JS.lit ">Error: " ++ JS.lit "An unknown error occurred."
                  ++ JS.lit "<br>Check the developer console for more details.</p>")]
  /\ editedImageState w2 = None
  /\ disabled w2 EditButton = false
  /\ disabled w3 = disabled (dispatch ClickGenerate edit_then_generate).
Proof.
  pose proof (edit_request_rejected page_with_original OtherValue [] 0 eq_refl) as H.
  cbv zeta in H. destruct H as (Hany & (H1 & H2 & _ & _ & H3 & _) & _).
  destruct (Hany (JS.lit "add a hat") (dispatch ClickGenerate edit_then_generate))
    as (_ & _ & _ & _ & _ & _ & Hnull).
  assert (Ho : originalImageState (dispatch ClickGenerate edit_then_generate) = None)
    by (vm_compute; reflexivity).
  cbv zeta. split; [exact H1|]. split; [exact H2|]. split; [exact H3|].
  apply (Hnull Ho).
Defined.

(** ** The rendering of a generated image *)

(** X18: when a generation response with image bytes is processed, in
    whatever state the page is then (with its original containers), the
    original region holds exactly the image, as a data URL whose
    alternative text is the prompt of the request, followed by the line
    quoting that prompt; its save container holds one button for the
    stored image; the generation button is enabled again; the field values,
    the edited region and the edited save container are untouched.  When
    the response is processed right after the click on Generate, with no
    other event in between, the edited region and its save container are
    empty and no request is left in flight beside those already there. *)
Theorem generation_rendering (w : World) (r : GenerateImagesResponse)
    (img : GeneratedImageData) (b : JS.str) :
  disabled w GenerateButton = false ->
  generate_accepted w = true ->
  generated_data r = Some img ->
  imageBytes img = Some b ->
  b <> [] ->
  let m := JS.or_else (gi_mimeType img) (JS.lit "image/jpeg") in
  let p := JS.trim (value w GenerationPromptInput) in
  (forall w',
      found OriginalWrapper w' = true ->
      found OriginalSaveContainer w' = true ->
      let w2 := handleGenerate_settled p (Fulfilled r) w' in
      children w2 OriginalWrapper
      = Some [Img (data_url m b) p; P (JS.lit "Prompt: " ++ JS.dq ++ p ++ JS.dq)]
      /\ children w2 OriginalSaveContainer
         = Some [save_button {| data := b; mimeType := m |} (JS.lit "original-image")]
      /\ disabled w2 GenerateButton = false
      /\ value w2 = value w'
      /\ alerts w2 = alerts w'
      /\ children w2 EditedWrapper = children w' EditedWrapper
      /\ children w2 EditedSaveContainer = children w' EditedSaveContainer)
  /\ (let w2 := dispatch (SettleGenerate (List.length (awaiting w)) (Fulfilled r))
                  (dispatch ClickGenerate w) in
      children w2 OriginalWrapper
      = Some [Img (data_url m b) p; P (JS.lit "Prompt: " ++ JS.dq ++ p ++ JS.dq)]
      /\ children w2 OriginalSaveContainer
         = Some [save_button {| data := b; mimeType := m |} (JS.lit "original-image")]
      /\ children w2 EditedWrapper = Some []
      /\ children w2 EditedSaveContainer = Some []
      /\ disabled w2 GenerateButton = false
      /\ value w2 = value w
      /\ awaiting w2 = awaiting w
      /\ alerts w2 = alerts w).
Proof.
  intros Hd Ha Hg Hb Hne m p.
  assert (Ht : JS.truthy b = true) by (destruct b; [contradiction | reflexivity]).
  split.
  - intros w' F1 F2 w2.
    pose proof (handleGenerate_settled_success p r w' Hg Hb Ht) as S. cbv zeta in S.
    fold m w2 in S. destruct S as (_ & _ & _ & _ & _ & Sg & _ & S1 & S2).
    pose proof (handleGenerate_settled_leaves p (Fulfilled r) w') as L. fold w2 in L.
    destruct L as (_ & L1 & L2 & Lv & La & _).
    unfold found in F1, F2.
    destruct (children w' OriginalWrapper); [|discriminate].
    destruct (children w' OriginalSaveContainer); [|discriminate].
    cbn [option_map] in S1, S2. unfold save_button. repeat split; assumption.
  - pose proof (generation_round w r Hd Ha Hg Hb Ht) as G. cbv zeta in G.
    fold m p in G. cbv zeta. intuition.
Qed.

Lemma generation_rendering_witness :
  let w := dispatch (UserInput GenerationPromptInput (JS.lit " a cat ")) fresh_page in
  let r := generated (JS.lit "Qw==") (JS.lit "image/png") in
  let w2 := dispatch (SettleGenerate (List.length (awaiting w)) (Fulfilled r))
              (dispatch ClickGenerate w) in
  let w' := dispatch (SettleEdit 0 (Fulfilled (edit_response [image_part image_Y])))
              (dispatch ClickGenerate edit_then_generate) in
  children w2 EditedWrapper = Some []
  /\ awaiting w2 = awaiting w
  /\ children (handleGenerate_settled (JS.trim (value w GenerationPromptInput))
                 (Fulfilled r) w') EditedWrapper
     = children w' EditedWrapper.
Proof.
  assert (Hne : JS.lit "Qw==" <> []) by discriminate.
  pose proof (@generation_rendering
                (dispatch (UserInput GenerationPromptInput (JS.lit " a cat ")) fresh_page)
                (generated (JS.lit "Qw==") (JS.lit "image/png"))
                {| imageBytes := Some (JS.lit "Qw==");
                   gi_mimeType := Some (JS.lit "image/png") |}
                (JS.lit "Qw==") eq_refl eq_refl eq_refl eq_refl Hne) as H.
  cbv zeta in H. destruct H as (Hany & (_ & _ & H1 & _ & _ & _ & H2 & _)).
  assert (F1 : found OriginalWrapper
                 (dispatch (SettleEdit 0 (Fulfilled (edit_response [image_part image_Y])))
                    (dispatch ClickGenerate edit_then_generate)) = true)
    by (vm_compute; reflexivity).
  assert (F2 : found OriginalSaveContainer
                 (dispatch (SettleEdit 0 (Fulfilled (edit_response [image_part image_Y])))
                    (dispatch ClickGenerate edit_then_generate)) = true)
    by (vm_compute; reflexivity).
  destruct (Hany _ F1 F2) as (_ & _ & _ & _ & _ & H3 & _).
  cbv zeta. split; [exact H1|]. split; [exact H2 | exact H3].
Defined.
